(** * Anime tracker backend (src/main.py): watch progress, leveling,
      favorites and achievements.

    The store is the SQLite database of [init_db], seen as the contents of
    its tables.  A table is the list of its rows in insertion order; the
    [UNIQUE] constraints of the schema are predicates on those lists
    ([unique_keys]) that the statements of the handlers are shown to keep.
    The surrogate [id INTEGER PRIMARY KEY AUTOINCREMENT] columns are read by
    none of the handlers below and are left out.  [CURRENT_TIMESTAMP] is the
    argument [now] of a handler.  Integers are Python's and SQLite's
    integers, taken as [Z].

    A handler is first a function of the tables as the cursor of the shared
    connection [conn] shows them, for a request that finds the connection
    outside a transaction: what [conn.rollback()] restores is then the store
    the request started from.  The part on the shared connection adds what
    the tables cannot record, the transaction the connection may be inside
    of: what is committed, what a rollback discards, and the
    [BEGIN TRANSACTION] that fails inside a transaction.  The handlers whose
    outcome depends on it are given there again, on a [connection]
    ([conn_update_favorites], [conn_manage_favorites],
    [conn_unlock_achievement], [conn_watch_episode]). *)

From Equations Require Import Equations.
From Stdlib Require Import ZArith List String Bool Lia.
From Stdlib Require Import Permutation Sorted.
Import ListNotations.
Open Scope string_scope.
Open Scope list_scope.
Open Scope Z_scope.

(** ** Models of the request bodies *)

(** [class Status(str, Enum)] *)
Inductive Status : Type := PLANNED | WATCHING | COMPLETED | DROPPED.

Definition Status_eqb (a b : Status) : bool :=
  match a, b with
  | PLANNED, PLANNED | WATCHING, WATCHING
  | COMPLETED, COMPLETED | DROPPED, DROPPED => true
  | _, _ => false
  end.

(** [class WatchProgress(BaseModel)] *)
Record WatchProgress : Type := mkWatchProgress {
  wp_user_id : string;
  wp_anime_id : string;
  wp_title : option string;
  wp_image_url : option string;
  wp_status : Status;
  wp_episodes_watched : Z;
  wp_total_episodes : option Z
}.

(** [action: Literal["add", "remove"]] *)
Inductive Action : Type := add | remove.

(** [class FavoriteAction(BaseModel)] *)
Record FavoriteAction : Type := mkFavoriteAction {
  fa_animeId : string;
  fa_action : Action;
  fa_title : option string;
  fa_image_url : option string
}.

(** ** The tables of [init_db] *)

Record users_row : Type := mkUser {
  u_user_id : string;
  u_username : string;
  u_email : string;
  u_password : string;
  u_avatar_path : option string;
  u_level : Z;
  u_exp : Z;
  u_created_at : Z
}.

Record achievements_row : Type := mkAchievement {
  a_id : Z;
  a_name : string;
  a_description : string;
  a_icon_path : option string;
  a_exp_reward : Z
}.

Record user_achievements_row : Type := mkUserAchievement {
  ua_user_id : string;
  ua_achievement_id : Z;
  ua_unlocked_at : Z
}.

Record recent_row : Type := mkRecent {
  r_user_id : string;
  r_anime_id : string;
  r_title : option string;
  r_image_url : option string;
  r_viewed_at : Z
}.

(** [episodes_watched] and [total_episodes] are nullable: [/watch-status]
    stores an [Optional[int]] in the former, [/watch-progress] in the
    latter. *)
Record watch_progress_row : Type := mkProgress {
  p_user_id : string;
  p_anime_id : string;
  p_title : option string;
  p_image_url : option string;
  p_status : Status;
  p_episodes_watched : option Z;
  p_total_episodes : option Z;
  p_last_watch_date : Z
}.

Record favorites_row : Type := mkFavorite {
  f_user_id : string;
  f_anime_id : string;
  f_title : option string;
  f_image_url : option string;
  f_created_at : Z
}.

Record db : Type := mkDb {
  users : list users_row;
  achievements : list achievements_row;
  user_achievements : list user_achievements_row;
  recent : list recent_row;
  watch_progress : list watch_progress_row;
  favorites : list favorites_row
}.

Definition set_users (us : list users_row) (s : db) : db :=
  mkDb us (achievements s) (user_achievements s) (recent s)
       (watch_progress s) (favorites s).

Definition set_user_achievements (t : list user_achievements_row) (s : db) : db :=
  mkDb (users s) (achievements s) t (recent s) (watch_progress s) (favorites s).

Definition set_recent (t : list recent_row) (s : db) : db :=
  mkDb (users s) (achievements s) (user_achievements s) t
       (watch_progress s) (favorites s).

Definition set_watch_progress (t : list watch_progress_row) (s : db) : db :=
  mkDb (users s) (achievements s) (user_achievements s) (recent s) t
       (favorites s).

Definition set_favorites (t : list favorites_row) (s : db) : db :=
  mkDb (users s) (achievements s) (user_achievements s) (recent s)
       (watch_progress s) t.

(** ** SQL statements on a table *)

Section Table.
Context {row : Type}.

(** [SELECT ... WHERE p] followed by [fetchone()] *)
Definition fetchone (p : row -> bool) (t : list row) : option row :=
  find p t.

(** [cursor.rowcount] of a statement whose [WHERE] clause is [p] *)
Definition rowcount (p : row -> bool) (t : list row) : Z :=
  Z.of_nat (List.length (filter p t)).

(** [UPDATE ... SET f WHERE p] *)
Definition update_where (p : row -> bool) (f : row -> row) (t : list row)
  : list row :=
  map (fun r => if p r then f r else r) t.

(** [DELETE FROM ... WHERE p] *)
Definition delete_where (p : row -> bool) (t : list row) : list row :=
  filter (fun r => negb (p r)) t.

(** [INSERT ... VALUES new ON CONFLICT(key) DO UPDATE SET f], where [p]
    holds of the rows whose key is that of [new]; under the [UNIQUE]
    constraint on the key there is at most one. *)
Definition insert_on_conflict_update
           (p : row -> bool) (new : row) (f : row -> row) (t : list row)
  : list row :=
  if existsb p t then update_where p f t else t ++ [new].

(** A [UNIQUE] constraint: no two rows of the table agree on the key. *)
Definition unique_keys {K : Type} (key : row -> K) (t : list row) : Prop :=
  NoDup (map key t).
End Table.

(** The outcome of a handler: its JSON body, an [HTTPException] with its
    status code, or a Python exception that no [except] clause of the
    handler catches. *)
Inductive outcome (A : Type) : Type :=
| Return (body : A)
| HTTPException (status_code : Z)
| Uncaught.
Arguments Return {A} body.
Arguments HTTPException {A} status_code.
Arguments Uncaught {A}.

(** Python's [x or default] on a nullable text column. *)
Definition or_default (x : option string) (d : string) : string :=
  match x with
  | Some s => if String.eqb s EmptyString then d else s
  | None => d
  end.

(** Python's [not x] on an optional string. *)
Definition falsy (x : option string) : bool :=
  match x with
  | Some s => String.eqb s EmptyString
  | None => true
  end.

(** ** Leveling *)

(** The [SET] clause shared by [update_watch_progress] and
    [unlock_achievement]:
    [exp = exp + ?, level = CASE WHEN exp + ? >= level * 1000 THEN level + 1
    ELSE level END].  Both right-hand sides read the row as it was. *)
Definition award_exp (n : Z) (u : users_row) : users_row :=
  mkUser (u_user_id u) (u_username u) (u_email u) (u_password u)
         (u_avatar_path u)
         (if u_exp u + n >=? u_level u * 1000 then u_level u + 1 else u_level u)
         (u_exp u + n)
         (u_created_at u).

Definition is_user (user_id : string) (u : users_row) : bool :=
  String.eqb (u_user_id u) user_id.

(** Termination of the [while] loop of [watch_episode]: an iteration keeps
    [new_exp + 500 * new_level * (new_level - 1)] and adds one to
    [new_level], and the loop is left once [500 * new_level * (new_level + 1)]
    exceeds that quantity. *)
Definition level_up_measure (new_level new_exp next_level_exp : Z) : nat :=
  if new_exp <? next_level_exp then 0%nat
  else S (Z.to_nat (new_exp - next_level_exp
                    + 500 * (new_level + 1) * new_level - new_level)).
Arguments level_up_measure : simpl never.

(** The [while] loop of [watch_episode], on its three variables. *)
Equations? level_up_loop (new_level new_exp next_level_exp : Z) : Z * Z * Z
  by wf (level_up_measure new_level new_exp next_level_exp) lt :=
  level_up_loop new_level new_exp next_level_exp
    with Z_lt_le_dec new_exp next_level_exp => {
    | left _ := (new_level, new_exp, next_level_exp);
    | right _ :=
        level_up_loop (new_level + 1) (new_exp - next_level_exp)
                      (1000 * (new_level + 1)) }.
Proof.
  change (level_up_measure (new_level + 1) (new_exp - next_level_exp)
                           (1000 * (new_level + 1))
          < level_up_measure new_level new_exp next_level_exp)%nat.
  unfold level_up_measure.
  destruct (Z.ltb_spec new_exp next_level_exp) as [H | _]; [lia |].
  destruct (Z.ltb_spec (new_exp - next_level_exp) (1000 * (new_level + 1)))
    as [_ | H']; [lia |].
  assert (forall x, x <= 500 * (x + 1) * x) as Hsum.
  { intros x. assert (x <= -1 \/ x = 0 \/ 1 <= x) as [H | [H | H]] by lia; nia. }
  pose proof (Hsum new_level). pose proof (Hsum (new_level + 1)).
  replace (new_level + 1 + 1) with (new_level + 2) in * by lia.
  apply -> Nat.succ_lt_mono. apply Z2Nat.inj_lt; lia.
Qed.

(** ** POST /watch-progress *)

Record progress_response : Type := mkProgressResponse {
  pr_message : string;
  pr_status : Status
}.

Definition is_progress (user_id anime_id : string) (r : watch_progress_row)
  : bool :=
  String.eqb (p_user_id r) user_id && String.eqb (p_anime_id r) anime_id.

Definition is_recent (user_id anime_id : string) (r : recent_row) : bool :=
  String.eqb (r_user_id r) user_id && String.eqb (r_anime_id r) anime_id.

(** SQL's [COALESCE(x, y)] *)
Definition COALESCE {A : Type} (x y : option A) : option A :=
  match x with
  | Some _ => x
  | None => y
  end.

(** [progress.total_episodes and progress.total_episodes > 0 and
    progress.episodes_watched >= progress.total_episodes]: [None] and [0]
    are falsy. *)
Definition all_episodes_watched (progress : WatchProgress) : bool :=
  match wp_total_episodes progress with
  | None => false
  | Some total =>
      negb (total =? 0) && (total >? 0)
      && (wp_episodes_watched progress >=? total)
  end.

Definition effective_status (progress : WatchProgress) : Status :=
  if all_episodes_watched progress then COMPLETED else wp_status progress.

(** [(old_status != Status.COMPLETED and status == Status.COMPLETED) or
    (progress.episodes_watched > old_episodes)].  [old_episodes] is [None]
    when the stored column is NULL; Python then raises [TypeError] on [>],
    which is the result [None] here.  [or] does not evaluate its right
    operand when the left one holds. *)
Definition cascade_condition
           (old_status : option Status) (status : Status)
           (episodes_watched : Z) (old_episodes : option Z) : option bool :=
  let status_changed :=
    negb (match old_status with
          | Some o => Status_eqb o COMPLETED
          | None => false
          end)
    && Status_eqb status COMPLETED in
  if status_changed then Some true
  else match old_episodes with
       | Some o => Some (episodes_watched >? o)
       | None => None
       end.

(** [progress.x if progress.x is not None else (existing[i] if existing
    else None)] *)
Definition provided_or_existing
           (provided : option string) (existing : option watch_progress_row)
           (column : watch_progress_row -> option string) : option string :=
  match provided with
  | Some v => Some v
  | None => match existing with Some e => column e | None => None end
  end.

(** [INSERT INTO watch_progress (...) VALUES (..., CURRENT_TIMESTAMP)
    ON CONFLICT(user_id, anime_id) DO UPDATE SET episodes_watched = ?,
    total_episodes = ?, status = ?, title = COALESCE(?, title),
    image_url = COALESCE(?, image_url),
    last_watch_date = CURRENT_TIMESTAMP] *)
Definition upsert_watch_progress
           (progress : WatchProgress) (status : Status)
           (title image_url : option string) (now : Z)
           (t : list watch_progress_row) : list watch_progress_row :=
  insert_on_conflict_update
    (is_progress (wp_user_id progress) (wp_anime_id progress))
    (mkProgress (wp_user_id progress) (wp_anime_id progress) title image_url
                status (Some (wp_episodes_watched progress))
                (wp_total_episodes progress) now)
    (fun r =>
       mkProgress (p_user_id r) (p_anime_id r)
                  (COALESCE title (p_title r))
                  (COALESCE image_url (p_image_url r))
                  status (Some (wp_episodes_watched progress))
                  (wp_total_episodes progress) now)
    t.

(** [INSERT INTO recent (user_id, anime_id, title, image_url) VALUES (...)
    ON CONFLICT(user_id, anime_id) DO UPDATE SET
    viewed_at = CURRENT_TIMESTAMP] *)
Definition upsert_recent
           (user_id anime_id : string) (title image_url : option string)
           (now : Z) (t : list recent_row) : list recent_row :=
  insert_on_conflict_update
    (is_recent user_id anime_id)
    (mkRecent user_id anime_id title image_url now)
    (fun r => mkRecent (r_user_id r) (r_anime_id r) (r_title r) (r_image_url r)
                       now)
    t.

(** The handler.  [raise HTTPException(status_code=404, ...)] stands inside
    the [try] whose clauses are [except sqlite3.Error] and
    [except Exception]; the latter catches it and raises status 500.  An
    exception leaves the [with sqlite3.connect(...)] block without a commit,
    so the store is the one the request found. *)
Definition update_watch_progress (progress : WatchProgress) (now : Z) (s : db)
  : outcome progress_response * db :=
  let user_id := wp_user_id progress in
  let anime_id := wp_anime_id progress in
  match fetchone (is_user user_id) (users s) with
  | None => (HTTPException 500, s)
  | Some _ =>
      let existing := fetchone (is_progress user_id anime_id) (watch_progress s) in
      let title := provided_or_existing (wp_title progress) existing p_title in
      let image_url :=
        provided_or_existing (wp_image_url progress) existing p_image_url in
      let old_status :=
        match existing with Some e => Some (p_status e) | None => None end in
      let old_episodes :=
        match existing with Some e => p_episodes_watched e | None => Some 0 end in
      let status := effective_status progress in
      let s1 :=
        set_watch_progress
          (upsert_watch_progress progress status title image_url now
                                 (watch_progress s)) s in
      match cascade_condition old_status status
                              (wp_episodes_watched progress) old_episodes with
      | None => (HTTPException 500, s)
      | Some true =>
          let s2 :=
            set_recent
              (upsert_recent user_id anime_id title image_url now (recent s1))
              s1 in
          let s3 :=
            set_users (update_where (is_user user_id) (award_exp 100) (users s2))
                      s2 in
          (Return (mkProgressResponse "Progress updated successfully" status),
           s3)
      | Some false =>
          (Return (mkProgressResponse "Progress updated successfully" status),
           s1)
      end
  end.

(** ** GET /watch-progress/{user_id} *)

Record in_progress_item : Type := mkInProgress {
  ip_animeId : string;
  ip_title : option string;
  ip_image_url : string;
  ip_status : Status;
  ip_currentEpisode : option Z;
  ip_episodes : option Z;
  ip_lastWatched : Z
}.

Record completed_item : Type := mkCompleted {
  ci_animeId : string;
  ci_title : option string;
  ci_image_url : string;
  ci_episodes : option Z;
  ci_rating : Z;
  ci_completedAt : Z
}.

Record progress_stats : Type := mkStats {
  totalEpisodesWatched : Z;
  totalTimeSpent : Z;
  averageRating : Z;
  completed_count : Z;
  watching_count : Z
}.

Record user_watch_progress : Type := mkUserWatchProgress {
  completed : list completed_item;
  inProgress : list in_progress_item;
  stats : progress_stats
}.

(** [ORDER BY col DESC], by insertion; rows that agree on [col], whose
    order SQL leaves open, stay in the order of the table. *)
Section OrderBy.
Context {row : Type} (col : row -> Z).

Fixpoint insert_desc (r : row) (t : list row) : list row :=
  match t with
  | [] => [r]
  | x :: t' => if col x <=? col r then r :: t else x :: insert_desc r t'
  end.

Definition order_by_desc (t : list row) : list row :=
  fold_right insert_desc [] t.
End OrderBy.

(** [SUM(col)]: NULL when no row has a value. *)
Definition SUM (l : list (option Z)) : option Z :=
  fold_right (fun x acc =>
                match x, acc with
                | Some v, Some a => Some (v + a)
                | Some v, None => Some v
                | None, _ => acc
                end) None l.

(** [COUNT(DISTINCT CASE WHEN status = st THEN anime_id END)] *)
Definition count_distinct_anime (st : Status) (t : list watch_progress_row) : Z :=
  Z.of_nat
    (List.length
       (nodup string_dec
              (map p_anime_id (filter (fun r => Status_eqb (p_status r) st) t)))).

(** Python's [x or 0] on a nullable integer. *)
Definition or_zero (x : option Z) : Z :=
  match x with Some v => v | None => 0 end.

Definition get_user_watch_progress (user_id : string) (s : db)
  : outcome user_watch_progress :=
  match fetchone (is_user user_id) (users s) with
  | None =>
      Return (mkUserWatchProgress [] [] (mkStats 0 0 0 0 0))
  | Some _ =>
      let mine :=
        filter (fun r => String.eqb (p_user_id r) user_id) (watch_progress s) in
      let in_progress :=
        map (fun r =>
               mkInProgress (p_anime_id r) (p_title r)
                            (or_default (p_image_url r) "/placeholder.svg")
                            (p_status r) (p_episodes_watched r)
                            (p_total_episodes r) (p_last_watch_date r))
            (order_by_desc p_last_watch_date
               (filter (fun r => Status_eqb (p_status r) WATCHING) mine)) in
      let completed :=
        map (fun r =>
               mkCompleted (p_anime_id r) (p_title r)
                           (or_default (p_image_url r) "/placeholder.svg")
                           (p_episodes_watched r) 0 (p_last_watch_date r))
            (order_by_desc p_last_watch_date
               (filter (fun r => Status_eqb (p_status r) COMPLETED) mine)) in
      let total := SUM (map p_episodes_watched mine) in
      Return (mkUserWatchProgress
                completed in_progress
                (mkStats (or_zero total) (or_zero total * 24 * 60) 0
                         (count_distinct_anime COMPLETED mine)
                         (count_distinct_anime WATCHING mine)))
  end.

(** ** POST /favorites/{user_id} and POST /favorites/{user_id}/manage *)

Record favorite_item : Type := mkFavoriteItem {
  fi_id : string;
  fi_title : option string;
  fi_image : string;
  fi_addedAt : Z
}.

Record favorites_response : Type := mkFavoritesResponse {
  fr_status : string;
  fr_action : Action;
  fr_count : Z;
  fr_favorites : list favorite_item
}.

Definition is_favorite (user_id anime_id : string) (r : favorites_row) : bool :=
  String.eqb (f_user_id r) user_id && String.eqb (f_anime_id r) anime_id.

Definition is_remove (a : Action) : bool :=
  match a with remove => true | add => false end.

(** The list both handlers return after their commit. *)
Definition favorites_body (user_id : string) (action : Action) (s : db)
  : favorites_response :=
  let favorites :=
    map (fun r =>
           mkFavoriteItem (f_anime_id r) (f_title r)
                          (or_default (f_image_url r) "/placeholder.svg")
                          (f_created_at r))
        (order_by_desc f_created_at
           (filter (fun r => String.eqb (f_user_id r) user_id) (favorites s))) in
  mkFavoritesResponse "success" action (Z.of_nat (List.length favorites))
                      favorites.

(** [UPDATE favorites SET title = ?, image_url = ?,
    created_at = CURRENT_TIMESTAMP] *)
Definition refresh_favorite (data : FavoriteAction) (now : Z) (r : favorites_row)
  : favorites_row :=
  mkFavorite (f_user_id r) (f_anime_id r) (fa_title data) (fa_image_url data)
             now.

(** The statements between [BEGIN TRANSACTION] and the row count test of
    [update_favorites]: the store they leave, [cursor.rowcount] and
    [is_exists]; [None] when the handler raises status 400. *)
Definition update_favorites_statements
           (user_id : string) (data : FavoriteAction) (now : Z) (s : db)
  : option (db * Z * bool) :=
  match fa_action data with
  | add =>
      if falsy (fa_title data) || String.eqb (fa_animeId data) EmptyString then None
      else
        let is_exists :=
          match fetchone (is_favorite user_id (fa_animeId data)) (favorites s) with
          | Some _ => true
          | None => false
          end in
        if is_exists then
          Some (set_favorites
                  (update_where (is_favorite user_id (fa_animeId data))
                                (refresh_favorite data now) (favorites s)) s,
                rowcount (is_favorite user_id (fa_animeId data)) (favorites s),
                is_exists)
        else
          Some (set_favorites
                  (favorites s
                   ++ [mkFavorite user_id (fa_animeId data) (fa_title data)
                                  (fa_image_url data) now]) s,
                1, is_exists)
  | remove =>
      Some (set_favorites
              (delete_where (is_favorite user_id (fa_animeId data))
                            (favorites s)) s,
            rowcount (is_favorite user_id (fa_animeId data)) (favorites s),
            false)
  end.

(** The handler on a connection outside a transaction, where
    [BEGIN TRANSACTION] succeeds ([conn_update_favorites] has the other
    case).  Every [raise HTTPException] after [BEGIN TRANSACTION] goes
    through [except HTTPException: conn.rollback(); raise]: the store is the
    one at [BEGIN]. *)
Definition update_favorites
           (user_id : string) (data : FavoriteAction) (now : Z) (s : db)
  : outcome favorites_response * db :=
  match fetchone (is_user user_id) (users s) with
  | None => (HTTPException 404, s)
  | Some _ =>
      match update_favorites_statements user_id data now s with
      | None => (HTTPException 400, s)
      | Some (s1, rowcount, is_exists) =>
          if (rowcount =? 0) && is_remove (fa_action data)
          then (HTTPException 404, s)
          else (Return (favorites_body user_id (fa_action data) s1), s1)
      end
  end.

(** The same statements in [manage_favorites], which keeps [result_status]
    instead. *)
Definition manage_favorites_statements
           (user_id : string) (data : FavoriteAction) (now : Z) (s : db)
  : option (db * bool) :=
  match fa_action data with
  | add =>
      if falsy (fa_title data) || String.eqb (fa_animeId data) EmptyString then None
      else
        match fetchone (is_favorite user_id (fa_animeId data)) (favorites s) with
        | Some _ =>
            Some (set_favorites
                    (update_where (is_favorite user_id (fa_animeId data))
                                  (refresh_favorite data now) (favorites s)) s,
                  rowcount (is_favorite user_id (fa_animeId data)) (favorites s)
                  >? 0)
        | None =>
            Some (set_favorites
                    (favorites s
                     ++ [mkFavorite user_id (fa_animeId data) (fa_title data)
                                    (fa_image_url data) now]) s,
                  true)
        end
  | remove =>
      Some (set_favorites
              (delete_where (is_favorite user_id (fa_animeId data))
                            (favorites s)) s,
            rowcount (is_favorite user_id (fa_animeId data)) (favorites s) >? 0)
  end.

(** As [update_favorites], on a connection outside a transaction;
    [conn_manage_favorites] has the other case. *)
Definition manage_favorites
           (user_id : string) (data : FavoriteAction) (now : Z) (s : db)
  : outcome favorites_response * db :=
  match fetchone (is_user user_id) (users s) with
  | None => (HTTPException 404, s)
  | Some _ =>
      match manage_favorites_statements user_id data now s with
      | None => (HTTPException 400, s)
      | Some (s1, result_status) =>
          if negb result_status && is_remove (fa_action data)
          then (HTTPException 404, s)
          else (Return (favorites_body user_id (fa_action data) s1), s1)
      end
  end.

(** ** POST /user/{user_id}/achievements/{achievement_id} *)

Record unlock_response : Type := mkUnlockResponse {
  ur_status : string;
  exp_gained : Z
}.

Definition is_unlock (user_id : string) (achievement_id : Z)
           (r : user_achievements_row) : bool :=
  String.eqb (ua_user_id r) user_id && (ua_achievement_id r =? achievement_id).

(** The handler on the tables the shared connection shows, before and
    after.  The [INSERT] fails on [UNIQUE(user_id, achievement_id)] with
    [sqlite3.IntegrityError], a [sqlite3.Error], which the handler turns
    into status 500.  [cursor.fetchone()[0]] on an achievement that is not
    in the catalog raises [TypeError], which the handler does not catch;
    the inserted row is then shown by the connection but not committed.
    What is committed, and the transaction the two failures leave open, is
    in [conn_unlock_achievement]. *)
Definition unlock_achievement
           (user_id : string) (achievement_id : Z) (now : Z) (s : db)
  : outcome unlock_response * db :=
  if existsb (is_unlock user_id achievement_id) (user_achievements s)
  then (HTTPException 500, s)
  else
    let s1 :=
      set_user_achievements
        (user_achievements s ++ [mkUserAchievement user_id achievement_id now])
        s in
    match fetchone (fun a => a_id a =? achievement_id) (achievements s1) with
    | None => (Uncaught, s1)
    | Some a =>
        let exp_reward := a_exp_reward a in
        (Return (mkUnlockResponse "success" exp_reward),
         set_users
           (update_where (is_user user_id) (award_exp exp_reward) (users s1))
           s1)
    end.

(** ** POST /user/{user_id}/watch-episode *)

Record watch_episode_response : Type := mkWatchEpisodeResponse {
  we_level : Z;
  we_exp : Z;
  we_next_level_exp : Z
}.

(** [UPDATE users SET level = ?, exp = ?] *)
Definition set_level_exp (level exp : Z) (u : users_row) : users_row :=
  mkUser (u_user_id u) (u_username u) (u_email u) (u_password u)
         (u_avatar_path u) level exp (u_created_at u).

(** As in [update_watch_progress], the status 404 raised for an unknown
    user is caught by [except Exception] and leaves as status 500. *)
Definition watch_episode (user_id : string) (s : db)
  : outcome watch_episode_response * db :=
  match fetchone (is_user user_id) (users s) with
  | None => (HTTPException 500, s)
  | Some user_data =>
      let current_level := u_level user_data in
      let current_exp := u_exp user_data in
      let exp_per_episode := 100 in
      let next_level_exp := 1000 * current_level in
      let new_exp := current_exp + exp_per_episode in
      let new_level := current_level in
      let '(new_level, new_exp, next_level_exp) :=
        level_up_loop new_level new_exp next_level_exp in
      (Return (mkWatchEpisodeResponse new_level new_exp next_level_exp),
       set_users
         (update_where (is_user user_id) (set_level_exp new_level new_exp)
                       (users s)) s)
  end.

(** ** POST /watch-status/{user_id}, DELETE /watch-status/{user_id}/{anime_id}
       and the statistics read from watch_progress *)

(** The text a [Status] is stored and compared as. *)
Definition Status_value (st : Status) : string :=
  match st with
  | PLANNED => "planned"
  | WATCHING => "watching"
  | COMPLETED => "completed"
  | DROPPED => "dropped"
  end.

(** [class WatchStatusUpdate(BaseModel)] *)
Record WatchStatusUpdate : Type := mkWatchStatusUpdate {
  ws_animeId : string;
  ws_status : Status;
  ws_episodes : option Z;
  ws_title : option string;
  ws_image_url : option string
}.

Record watch_status_response : Type := mkWatchStatusResponse {
  wsr_status : string;
  wsr_watched_count : Z;
  wsr_in_progress_count : Z
}.

(** [COUNT(CASE WHEN status = st THEN 1 END) ... WHERE user_id = ?] *)
Definition count_status (st : Status) (user_id : string)
           (t : list watch_progress_row) : Z :=
  rowcount (fun r => String.eqb (p_user_id r) user_id
                     && Status_eqb (p_status r) st) t.

(** [INSERT INTO watch_progress (user_id, anime_id, title, image_url, status,
    episodes_watched, last_watch_date) VALUES (...) ON CONFLICT(user_id,
    anime_id) DO UPDATE SET status = ?, episodes_watched = ?, title = ?,
    image_url = COALESCE(?, image_url), last_watch_date = datetime('now')].
    The inserted row takes the default 0 of [total_episodes]. *)
Definition upsert_watch_status
           (user_id : string) (data : WatchStatusUpdate) (now : Z)
           (t : list watch_progress_row) : list watch_progress_row :=
  insert_on_conflict_update
    (is_progress user_id (ws_animeId data))
    (mkProgress user_id (ws_animeId data) (ws_title data)
                (Some (or_default (ws_image_url data) "/placeholder.svg"))
                (ws_status data) (ws_episodes data) (Some 0) now)
    (fun r =>
       mkProgress (p_user_id r) (p_anime_id r) (ws_title data)
                  (COALESCE (ws_image_url data) (p_image_url r))
                  (ws_status data) (ws_episodes data) (p_total_episodes r) now)
    t.

(** Both [raise HTTPException] of the handler, with status 422 and 400,
    stand inside the [try] whose last clause is [except Exception], which
    raises status 500 in their place.  The handler does not look the user
    up. *)
Definition update_watch_status
           (user_id : string) (data : WatchStatusUpdate) (now : Z) (s : db)
  : outcome watch_status_response * db :=
  if negb (existsb (String.eqb (Status_value (ws_status data)))
                   ["planned"; "watching"; "completed"; "dropped"])
  then (HTTPException 500, s)
  else if falsy (ws_title data) || falsy (ws_image_url data)
  then (HTTPException 500, s)
  else
    let s1 :=
      set_watch_progress
        (upsert_watch_status user_id data now (watch_progress s)) s in
    (Return (mkWatchStatusResponse
               "success"
               (count_status COMPLETED user_id (watch_progress s1))
               (count_status WATCHING user_id (watch_progress s1))),
     s1).

Definition delete_watch_status (user_id anime_id : string) (s : db)
  : outcome string * db :=
  (Return "deleted",
   set_watch_progress
     (delete_where (is_progress user_id anime_id) (watch_progress s)) s).

(** GET /user-stats/{user_id} *)
Record user_stats : Type := mkUserStats {
  completed_anime : Z;
  watching_anime : Z;
  planned_anime : Z;
  dropped_anime : Z;
  total_episodes_watched : Z
}.

Definition get_user_stats (user_id : string) (s : db) : user_stats :=
  mkUserStats
    (count_status COMPLETED user_id (watch_progress s))
    (count_status WATCHING user_id (watch_progress s))
    (count_status PLANNED user_id (watch_progress s))
    (count_status DROPPED user_id (watch_progress s))
    (or_zero
       (SUM (map p_episodes_watched
                 (filter (fun r => String.eqb (p_user_id r) user_id)
                         (watch_progress s))))).

(** GET /stats/{user_id} *)
Record user_statistics : Type := mkUserStatistics {
  favorites_count : Z;
  watched_count : Z;
  in_progress_count : Z
}.

Definition get_user_statistics (user_id : string) (s : db)
  : outcome user_statistics :=
  Return (mkUserStatistics
            (rowcount (fun r => String.eqb (f_user_id r) user_id) (favorites s))
            (count_status COMPLETED user_id (watch_progress s))
            (count_status WATCHING user_id (watch_progress s))).

(** GET /watched-list/{user_id} *)
Record watched_item : Type := mkWatched {
  w_animeId : string;
  w_title : option string;
  w_image_url : string;
  w_episodes : option Z;
  w_total_episodes : option Z;
  w_completed_at : Z
}.

Definition get_watched_list (user_id : string) (s : db)
  : outcome (list watched_item) :=
  Return
    (map (fun r =>
            mkWatched (p_anime_id r) (p_title r)
                      (or_default (p_image_url r) "/placeholder.svg")
                      (p_episodes_watched r) (p_total_episodes r)
                      (p_last_watch_date r))
         (order_by_desc p_last_watch_date
            (filter (fun r => String.eqb (p_user_id r) user_id
                              && Status_eqb (p_status r) COMPLETED)
                    (watch_progress s)))).

(** ** GET /recent/{user_id} and POST /recent *)

(** [class RecentAnime(BaseModel)] *)
Record RecentAnime : Type := mkRecentAnime {
  ra_user_id : string;
  ra_anime_id : string;
  ra_title : string;
  ra_image_url : option string
}.

Record recent_item : Type := mkRecentItem {
  ri_anime_id : string;
  ri_title : option string;
  ri_image_url : option string;
  ri_viewed_at : Z
}.

(** [... WHERE user_id = ? ORDER BY viewed_at DESC LIMIT 100] *)
Definition get_recent_anime (user_id : string) (s : db) : list recent_item :=
  map (fun r =>
         mkRecentItem (r_anime_id r) (r_title r) (r_image_url r) (r_viewed_at r))
      (firstn 100
         (order_by_desc r_viewed_at
            (filter (fun r => String.eqb (r_user_id r) user_id) (recent s)))).

(** [INSERT INTO recent (user_id, anime_id, title, image_url) VALUES (...)
    ON CONFLICT(user_id, anime_id) DO UPDATE SET title = ?, image_url = ?,
    viewed_at = CURRENT_TIMESTAMP] *)
Definition upsert_recent_anime (data : RecentAnime) (now : Z)
           (t : list recent_row) : list recent_row :=
  insert_on_conflict_update
    (is_recent (ra_user_id data) (ra_anime_id data))
    (mkRecent (ra_user_id data) (ra_anime_id data) (Some (ra_title data))
              (ra_image_url data) now)
    (fun r =>
       mkRecent (r_user_id r) (r_anime_id r) (Some (ra_title data))
                (ra_image_url data) now)
    t.

(** The status 404 for an unknown user is raised inside the [try] and
    leaves through [except Exception] as status 500. *)
Definition add_recent_anime (data : RecentAnime) (now : Z) (s : db)
  : outcome string * db :=
  match fetchone (is_user (ra_user_id data)) (users s) with
  | None => (HTTPException 500, s)
  | Some _ =>
      (Return "Recent anime added successfully",
       set_recent (upsert_recent_anime data now (recent s)) s)
  end.

(** ** GET /user/{user_id}/progress *)

(** No [try] surrounds this one: the status 404 reaches the client. *)
Definition get_user_progress (user_id : string) (s : db)
  : outcome watch_episode_response :=
  match fetchone (is_user user_id) (users s) with
  | None => HTTPException 404
  | Some progress =>
      Return (mkWatchEpisodeResponse (u_level progress) (u_exp progress)
                                     (u_level progress * 1000))
  end.

(** ** GET /user/{user_id}/achievements *)

Record user_achievement_item : Type := mkUserAchievementItem {
  uai_id : Z;
  uai_name : string;
  uai_description : string;
  uai_icon_path : option string;
  uai_exp_reward : Z;
  uai_unlocked_at : Z
}.

(** [FROM achievements a JOIN user_achievements ua ON a.id =
    ua.achievement_id WHERE ua.user_id = ?]; the query has no [ORDER BY],
    the rows are listed here by achievement, then by unlock. *)
Definition get_user_achievements (user_id : string) (s : db)
  : list user_achievement_item :=
  flat_map
    (fun a =>
       map (fun ua =>
              mkUserAchievementItem (a_id a) (a_name a) (a_description a)
                                    (a_icon_path a) (a_exp_reward a)
                                    (ua_unlocked_at ua))
           (filter (fun ua => (a_id a =? ua_achievement_id ua)
                              && String.eqb (ua_user_id ua) user_id)
                   (user_achievements s)))
    (achievements s).

(** ** Accounts, roles and administrators

    The tables [roles] and [administrators] stand beside the tables of
    [db]. *)

(** [role: Literal["user", "admin"]], the only values the handlers store
    in [roles.role]. *)
Inductive Role : Type := role_user | role_admin.

Definition is_admin_role (r : Role) : bool :=
  match r with role_admin => true | role_user => false end.

Record roles_row : Type := mkRole {
  ro_user_id : string;
  ro_role : Role
}.

Record administrators_row : Type := mkAdministrator {
  ad_user_id : string;
  ad_admin_level : Z;
  ad_created_at : Z
}.

Record server : Type := mkServer {
  tables : db;
  roles : list roles_row;
  administrators : list administrators_row
}.

Definition has_email (email : string) (u : users_row) : bool :=
  String.eqb (u_email u) email.

Definition is_role (user_id : string) (r : roles_row) : bool :=
  String.eqb (ro_user_id r) user_id.

Definition is_administrator (user_id : string) (r : administrators_row) : bool :=
  String.eqb (ad_user_id r) user_id.

Record register_response : Type := mkRegisterResponse {
  rr_token : string;
  rr_user_id : string;
  rr_username : string;
  rr_email : string;
  rr_role : Role;
  rr_level : Z;
  rr_exp : Z;
  rr_created_at : Z
}.

(** POST /register.  [user_id] and [token] are the two [uuid.uuid4()] the
    handler draws, [now] its [datetime.now].  Either [INSERT] can fail on a
    primary key with [sqlite3.IntegrityError]; the handler then rolls back
    and raises status 400. *)
Definition register_user
           (user_id token : string) (now : Z)
           (username email password : string) (sv : server)
  : outcome register_response * server :=
  match fetchone (has_email email) (users (tables sv)) with
  | Some _ => (HTTPException 400, sv)
  | None =>
      if existsb (is_user user_id) (users (tables sv))
      then (HTTPException 400, sv)
      else if existsb (is_role user_id) (roles sv)
      then (HTTPException 400, sv)
      else
        (Return (mkRegisterResponse token user_id username email role_user
                                    1 0 now),
         mkServer
           (set_users
              (users (tables sv)
               ++ [mkUser user_id username email password None 1 0 now])
              (tables sv))
           (roles sv ++ [mkRole user_id role_user])
           (administrators sv))
  end.

Record login_response : Type := mkLoginResponse {
  lr_user_id : string;
  lr_username : string;
  lr_email : string;
  lr_role : Role;
  lr_token : string
}.

(** POST /login; [token] is the [uuid.uuid4()] of the handler.  No [try]:
    the status 401 reaches the client. *)
Definition login (token : string) (email password : string) (sv : server)
  : outcome login_response :=
  match fetchone (has_email email) (users (tables sv)) with
  | None => HTTPException 401
  | Some user =>
      if negb (String.eqb password (u_password user)) then HTTPException 401
      else
        let role :=
          match fetchone (is_role (u_user_id user)) (roles sv) with
          | Some role_data => ro_role role_data
          | None => role_user
          end in
        Return (mkLoginResponse (u_user_id user) (u_username user)
                                (u_email user) role token)
  end.

(** [INSERT INTO roles (user_id, role) VALUES (?, ?) ON CONFLICT(user_id)
    DO UPDATE SET role = ?] *)
Definition upsert_role (user_id : string) (role : Role) (t : list roles_row)
  : list roles_row :=
  insert_on_conflict_update (is_role user_id) (mkRole user_id role)
                            (fun r => mkRole (ro_user_id r) role) t.

(** PUT /admin/users/{user_id}/role.  Only [sqlite3.Error] is caught: the
    status 404 reaches the client.  [INSERT INTO administrators ... ON
    CONFLICT(user_id) DO NOTHING] for the role admin, [DELETE] otherwise. *)
Definition update_admin_user_role
           (user_id : string) (role : Role) (now : Z) (sv : server)
  : outcome string * server :=
  match fetchone (is_user user_id) (users (tables sv)) with
  | None => (HTTPException 404, sv)
  | Some _ =>
      (Return "Role updated successfully",
       mkServer
         (tables sv)
         (upsert_role user_id role (roles sv))
         (if is_admin_role role
          then if existsb (is_administrator user_id) (administrators sv)
               then administrators sv
               else administrators sv ++ [mkAdministrator user_id 1 now]
          else delete_where (is_administrator user_id) (administrators sv)))
  end.

(** GET /admin/check/{user_id}: [users LEFT JOIN roles], then
    [result[2] == "admin" if result[2] else False]. *)
Definition check_admin_status (user_id : string) (sv : server) : bool :=
  match fetchone (is_user user_id) (users (tables sv)) with
  | None => false
  | Some _ =>
      match fetchone (is_role user_id) (roles sv) with
      | Some r => is_admin_role (ro_role r)
      | None => false
      end
  end.

(** GET /admin/stats: the numbers of users and of admins among the roles. *)
Definition get_admin_stats (sv : server) : Z * Z :=
  (rowcount (fun r => negb (is_admin_role (ro_role r))) (roles sv),
   rowcount (fun r => is_admin_role (ro_role r)) (roles sv)).

(** [class AdminSetup(BaseModel)] *)
Record AdminSetup : Type := mkAdminSetup {
  as_setupKey : string;
  as_email : string
}.

Definition SETUP_KEY : string := "your-secret-setup-key".

(** POST /admin/reset *)
Definition reset_admin (setup : AdminSetup) (sv : server)
  : outcome string * server :=
  if negb (String.eqb (as_setupKey setup) SETUP_KEY)
  then (HTTPException 401, sv)
  else
    (Return "Administrator reset completed",
     mkServer (tables sv)
              (update_where (fun _ => true)
                            (fun r => mkRole (ro_user_id r) role_user)
                            (roles sv))
              []).

Section Setup.
(** Python's [str.lower]. *)
Variable lower : string -> string.

(** POST /admin/setup *)
Definition setup_admin (setup : AdminSetup) (now : Z) (sv : server)
  : outcome string * server :=
  if negb (String.eqb (as_setupKey setup) SETUP_KEY)
  then (HTTPException 401, sv)
  else
    match fetchone (has_email (lower (as_email setup))) (users (tables sv)) with
    | None => (HTTPException 404, sv)
    | Some user =>
        let user_id := u_user_id user in
        let admin_count := Z.of_nat (List.length (administrators sv)) in
        if admin_count >? 0 then (HTTPException 400, sv)
        else
          (Return "Administrator setup completed",
           mkServer (tables sv)
                    (upsert_role user_id role_admin (roles sv))
                    (administrators sv ++ [mkAdministrator user_id 1 now]))
    end.
End Setup.

(** ** The shared connection

    [conn] is the one [sqlite3] connection of every handler but
    [update_watch_progress].  It is opened with the default isolation level:
    the module opens a transaction before an [INSERT], [UPDATE] or [DELETE]
    when none is open, and the transaction stays open until [conn.commit()]
    or [conn.rollback()], also when the statement fails. *)

(** The tables as committed and, inside a transaction, the tables as the
    statements of the transaction have left them. *)
Record connection : Type := mkConnection {
  committed : db;
  pending : option db
}.

(** A connection outside a transaction. *)
Definition idle (s : db) : connection := mkConnection s None.

(** The tables as the cursor of the connection shows them. *)
Definition shown (c : connection) : db :=
  match pending c with
  | Some s => s
  | None => committed c
  end.

(** [conn.in_transaction] *)
Definition in_transaction (c : connection) : bool :=
  match pending c with
  | Some _ => true
  | None => false
  end.

(** An [INSERT], [UPDATE] or [DELETE] through the cursor that leaves the
    tables [s] ([shown c] itself when the statement fails or matches no
    row): the transaction is open afterwards. *)
Definition execute (s : db) (c : connection) : connection :=
  mkConnection (committed c) (Some s).

(** [conn.execute("BEGIN TRANSACTION")]: inside a transaction SQLite
    refuses it and the module raises [sqlite3.OperationalError], the
    [None] here. *)
Definition begin_transaction (c : connection) : option connection :=
  match pending c with
  | Some _ => None
  | None => Some (mkConnection (committed c) (Some (committed c)))
  end.

(** [conn.commit()] *)
Definition commit (c : connection) : connection :=
  mkConnection (shown c) None.

(** [conn.rollback()] *)
Definition rollback (c : connection) : connection :=
  mkConnection (committed c) None.

(** POST /favorites/{user_id} on the shared connection.  The user is looked
    up before [BEGIN TRANSACTION]; the status 404 of that lookup is
    re-raised by [except HTTPException: raise] with the connection as it
    was.  [conn.execute("BEGIN TRANSACTION")] stands in the outer [try],
    before the inner one: its [OperationalError] is caught by the outer
    [except Exception], which raises status 500 and does not roll back.
    Inside the inner [try] every error is rolled back, and the accepted
    request is committed. *)
Definition conn_update_favorites
           (user_id : string) (data : FavoriteAction) (now : Z) (c : connection)
  : outcome favorites_response * connection :=
  match fetchone (is_user user_id) (users (shown c)) with
  | None => (HTTPException 404, c)
  | Some _ =>
      match begin_transaction c with
      | None => (HTTPException 500, c)
      | Some c0 =>
          match update_favorites_statements user_id data now (shown c0) with
          | None => (HTTPException 400, rollback c0)
          | Some (s1, rowcount, is_exists) =>
              if (rowcount =? 0) && is_remove (fa_action data)
              then (HTTPException 404, rollback (execute s1 c0))
              else (Return (favorites_body user_id (fa_action data) s1),
                    commit (execute s1 c0))
          end
      end
  end.

(** POST /favorites/{user_id}/manage on the shared connection. *)
Definition conn_manage_favorites
           (user_id : string) (data : FavoriteAction) (now : Z) (c : connection)
  : outcome favorites_response * connection :=
  match fetchone (is_user user_id) (users (shown c)) with
  | None => (HTTPException 404, c)
  | Some _ =>
      match begin_transaction c with
      | None => (HTTPException 500, c)
      | Some c0 =>
          match manage_favorites_statements user_id data now (shown c0) with
          | None => (HTTPException 400, rollback c0)
          | Some (s1, result_status) =>
              if negb result_status && is_remove (fa_action data)
              then (HTTPException 404, rollback (execute s1 c0))
              else (Return (favorites_body user_id (fa_action data) s1),
                    commit (execute s1 c0))
          end
      end
  end.

(** POST /user/{user_id}/achievements/{achievement_id} on the shared
    connection.  The handler has no [conn.rollback()]: the [INSERT] that
    fails on the [UNIQUE] constraint leaves the transaction it opened open,
    and so does the [TypeError] of [cursor.fetchone()[0]], with the inserted
    row pending. *)
Definition conn_unlock_achievement
           (user_id : string) (achievement_id : Z) (now : Z) (c : connection)
  : outcome unlock_response * connection :=
  if existsb (is_unlock user_id achievement_id) (user_achievements (shown c))
  then (HTTPException 500, execute (shown c) c)
  else
    let c1 :=
      execute
        (set_user_achievements
           (user_achievements (shown c)
            ++ [mkUserAchievement user_id achievement_id now])
           (shown c))
        c in
    match fetchone (fun a => a_id a =? achievement_id)
                   (achievements (shown c1)) with
    | None => (Uncaught, c1)
    | Some a =>
        let exp_reward := a_exp_reward a in
        (Return (mkUnlockResponse "success" exp_reward),
         commit
           (execute
              (set_users
                 (update_where (is_user user_id) (award_exp exp_reward)
                               (users (shown c1)))
                 (shown c1))
              c1))
    end.

(** POST /user/{user_id}/watch-episode on the shared connection: both
    [except] clauses call [conn.rollback()] before they raise status 500. *)
Definition conn_watch_episode (user_id : string) (c : connection)
  : outcome watch_episode_response * connection :=
  match fetchone (is_user user_id) (users (shown c)) with
  | None => (HTTPException 500, rollback c)
  | Some user_data =>
      let '(new_level, new_exp, next_level_exp) :=
        level_up_loop (u_level user_data) (u_exp user_data + 100)
                      (1000 * u_level user_data) in
      (Return (mkWatchEpisodeResponse new_level new_exp next_level_exp),
       commit
         (execute
            (set_users
               (update_where (is_user user_id) (set_level_exp new_level new_exp)
                             (users (shown c)))
               (shown c))
            c))
  end.

(** * The specification's vocabulary *)

Definition user_exists (user_id : string) (s : db) : bool :=
  existsb (is_user user_id) (users s).

(** The row a progress request finds for its (user, anime) pair. *)
Definition previous_row (progress : WatchProgress) (s : db)
  : option watch_progress_row :=
  fetchone (is_progress (wp_user_id progress) (wp_anime_id progress))
           (watch_progress s).

Definition previous_status (progress : WatchProgress) (s : db) : option Status :=
  option_map p_status (previous_row progress s).

(** The previously stored count, 0 when no prior row exists. *)
Definition previous_episodes (progress : WatchProgress) (s : db) : Z :=
  match previous_row progress s with
  | Some e => or_zero (p_episodes_watched e)
  | None => 0
  end.

(** The row found, if any, stores a number of episodes (not NULL). *)
Definition episodes_stored (progress : WatchProgress) (s : db) : Prop :=
  forall e, previous_row progress s = Some e -> p_episodes_watched e <> None.

(** "total_episodes is supplied, positive, and episodes_watched >=
    total_episodes" *)
Definition total_reached (progress : WatchProgress) : Prop :=
  exists total,
    wp_total_episodes progress = Some total
    /\ 0 < total /\ total <= wp_episodes_watched progress.

(** "(a) status transitions from non-completed to completed, OR (b) the
    newly reported episodes-watched count exceeds the previously stored
    count" *)
Definition cascade_fires (progress : WatchProgress) (s : db) : Prop :=
  (previous_status progress s <> Some COMPLETED
   /\ effective_status progress = COMPLETED)
  \/ previous_episodes progress s < wp_episodes_watched progress.

(** The recent marker of the (user, anime) pair of a request. *)
Definition recent_marker (progress : WatchProgress) (s : db) : option recent_row :=
  fetchone (is_recent (wp_user_id progress) (wp_anime_id progress)) (recent s).

(** The progress row of the (user, anime) pair of a request. *)
Definition progress_row (progress : WatchProgress) (s : db)
  : option watch_progress_row :=
  fetchone (is_progress (wp_user_id progress) (wp_anime_id progress))
           (watch_progress s).

Definition level_exp (user_id : string) (s : db) : option (Z * Z) :=
  option_map (fun u => (u_level u, u_exp u))
             (fetchone (is_user user_id) (users s)).

Definition progress_key (r : watch_progress_row) : string * string :=
  (p_user_id r, p_anime_id r).

Definition recent_key (r : recent_row) : string * string :=
  (r_user_id r, r_anime_id r).


(** The title and image a progress request writes. *)
Definition written_title (progress : WatchProgress) (s : db) : option string :=
  provided_or_existing (wp_title progress) (previous_row progress s) p_title.

Definition written_image_url (progress : WatchProgress) (s : db)
  : option string :=
  provided_or_existing (wp_image_url progress) (previous_row progress s)
                       p_image_url.

(** * A sample store

    One registered user at level 1 with 950 points, one achievement worth
    100 points, and no progress yet. *)

Definition db0 : db :=
  mkDb [mkUser "u1" "alice" "a@x.com" "pw" None 1 950 0]
       [mkAchievement 1 "First steps" "Watch something" None 100]
       [] [] [] [].

Definition progress0 : WatchProgress :=
  mkWatchProgress "u1" "a1" (Some "Naruto") None WATCHING 12 (Some 12).

(** The same store once the user is halfway through a title. *)
Definition db1 : db :=
  mkDb [mkUser "u1" "alice" "a@x.com" "pw" None 1 950 0]
       [mkAchievement 1 "First steps" "Watch something" None 100]
       [] []
       [mkProgress "u1" "a1" (Some "Naruto") (Some "/n.png") WATCHING (Some 5)
                   (Some 12) 3]
       [].

(** A request that supplies an empty title and an empty image. *)
Definition progress_empty : WatchProgress :=
  mkWatchProgress "u1" "a1" (Some EmptyString) (Some EmptyString) WATCHING 6 (Some 12).

(** "never overwritten with empty values", read on the row before and the
    row after a request: a title or image that was not empty is not empty
    afterwards. *)
Definition never_emptied (progress : WatchProgress) (now : Z) (s : db) : Prop :=
  forall e e',
    previous_row progress s = Some e ->
    progress_row progress (snd (update_watch_progress progress now s)) = Some e' ->
    (falsy (p_title e) = false -> falsy (p_title e') = false)
    /\ (falsy (p_image_url e) = false -> falsy (p_image_url e') = false).

(** "the second call still refreshes the recent marker's timestamp": after
    the same request at [t1] and then at [t2], the marker is viewed at
    [t2]. *)
Definition repeat_refreshes_marker
           (progress : WatchProgress) (t1 t2 : Z) (s : db) : Prop :=
  let s1 := snd (update_watch_progress progress t1 s) in
  let s2 := snd (update_watch_progress progress t2 s1) in
  exists r, recent_marker progress s2 = Some r /\ r_viewed_at r = t2.

(** A row as [/watch-status] leaves it when the request carries
    [episodes: null]. *)
Definition db_null : db :=
  mkDb [mkUser "u1" "alice" "a@x.com" "pw" None 1 950 0] [] [] []
       [mkProgress "u1" "a1" (Some "Naruto") (Some "/n.png") COMPLETED None
                   None 3]
       [].

(** * Vocabulary of the further properties *)

(** A user record as [watch_episode] leaves it: a level from 1 on and an
    experience below the threshold of that level. *)
Definition level_consistent (level exp : Z) : Prop :=
  1 <= level /\ 0 <= exp < 1000 * level.

(** The experience a user has gathered in all: the thresholds of the
    levels passed, 1000 + 2000 + ... + 1000 * (level - 1), and the
    experience held at the current level. *)
Definition total_experience (level exp : Z) : Z :=
  exp + 500 * level * (level - 1).

(** A list of rows in the order [ORDER BY col DESC] asks for. *)
Definition sorted_desc {row : Type} (col : row -> Z) (t : list row) : Prop :=
  StronglySorted (fun a b => col b <= col a) t.

Definition favorite_key (r : favorites_row) : string * string :=
  (f_user_id r, f_anime_id r).

(** The favorites row of a pair. *)
Definition favorite_of (user_id anime_id : string) (s : db)
  : option favorites_row :=
  fetchone (is_favorite user_id anime_id) (favorites s).

(** The administrators are the users whose role is admin. *)
Definition admins_match_roles (sv : server) : Prop :=
  forall user_id,
    existsb (is_administrator user_id) (administrators sv) = true
    <-> existsb (fun r => is_role user_id r && is_admin_role (ro_role r))
                (roles sv) = true.

(** A store with a favorite, a marker and progress on two titles. *)
Definition db2 : db :=
  mkDb [mkUser "u1" "alice" "a@x.com" "pw" None 1 950 0;
        mkUser "u2" "bob" "b@x.com" "pw2" None 3 120 1]
       [mkAchievement 1 "First steps" "Watch something" None 100]
       []
       [mkRecent "u1" "a1" (Some "Naruto") None 4]
       [mkProgress "u1" "a1" (Some "Naruto") (Some "/n.png") WATCHING (Some 5)
                   (Some 12) 3;
        mkProgress "u1" "a2" (Some "Bleach") None COMPLETED (Some 10) (Some 10) 5;
        mkProgress "u2" "a1" (Some "Naruto") None PLANNED (Some 0) None 6]
       [mkFavorite "u1" "a2" (Some "Bleach") None 2].

Definition server0 : server :=
  mkServer db0 [mkRole "u1" role_user] [].

(** Stores with a NULL episode count, as POST /watch-status leaves them for
    a request with [episodes: null]: the pair (u1, a7) watching, and
    completed. *)
Definition db_null_watching : db :=
  snd (update_watch_status
         "u1"
         (mkWatchStatusUpdate "a7" WATCHING None (Some "Monster") (Some "/m.png"))
         9 db2).

Definition db_null_completed : db :=
  snd (update_watch_status
         "u1"
         (mkWatchStatusUpdate "a7" COMPLETED None (Some "Monster")
                              (Some "/m.png"))
         9 db2).

(** Three progress requests for that pair: one that plans it, one that
    reports 3 episodes, one that reaches the total. *)
Definition progress_planned : WatchProgress :=
  mkWatchProgress "u1" "a7" None None PLANNED 0 None.

Definition progress_three : WatchProgress :=
  mkWatchProgress "u1" "a7" None None WATCHING 3 None.

Definition progress_reaching : WatchProgress :=
  mkWatchProgress "u1" "a7" None None WATCHING 12 (Some 12).

(** The shared connection after u1 has unlocked achievement 1 and asked for
    it a second time. *)
Definition conn_after_duplicate_unlock : connection :=
  snd (conn_unlock_achievement
         "u1" 1 8 (snd (conn_unlock_achievement "u1" 1 7 (idle db0)))).

(** * Properties *)

Lemma Status_eqb_eq a b : Status_eqb a b = true <-> a = b.
Proof. destruct a, b; simpl; split; intro H; congruence. Qed.

(** ** Statements on tables *)

Lemma NoDup_snoc {A : Type} (l : list A) (a : A) :
  NoDup l -> ~ In a l -> NoDup (l ++ [a]).
Proof.
  induction l as [| x l IH]; simpl; intros Hl Ha.
  - constructor; [tauto | constructor].
  - inversion Hl as [| ? ? Hx Hl']; subst. constructor.
    + rewrite in_app_iff. simpl. intros [H | [H | []]]; [tauto |].
      apply Ha. now left.
    + apply IH; tauto.
Qed.


Section TableFacts.
Context {row : Type}.
Implicit Types (p q : row -> bool) (f : row -> row) (t : list row).

Lemma fetchone_none_existsb p t :
  fetchone p t = None <-> existsb p t = false.
Proof.
  unfold fetchone. induction t as [| x t IH]; simpl; [tauto |].
  destruct (p x); simpl; [split; discriminate | exact IH].
Qed.

Lemma fetchone_some_existsb p t r :
  fetchone p t = Some r -> existsb p t = true.
Proof.
  intros H. destruct (existsb p t) eqn:E; [reflexivity |].
  apply fetchone_none_existsb in E. congruence.
Qed.

Lemma fetchone_some_holds p t r : fetchone p t = Some r -> p r = true.
Proof. intros H. now apply find_some in H. Qed.

Lemma fetchone_update_where p q f t :
  (forall r, q (f r) = q r) ->
  fetchone q (update_where p f t)
  = option_map (fun r => if p r then f r else r) (fetchone q t).
Proof.
  intros Hq. unfold fetchone, update_where.
  induction t as [| x t IH]; simpl; [reflexivity |].
  destruct (p x) eqn:Hp; [rewrite Hq |]; destruct (q x); simpl; auto;
    now rewrite Hp.
Qed.

Lemma fetchone_app_new p t new :
  fetchone p t = None -> p new = true -> fetchone p (t ++ [new]) = Some new.
Proof.
  unfold fetchone. induction t as [| x t IH]; simpl; intros Hn Hp.
  - now rewrite Hp.
  - destruct (p x); [discriminate | auto].
Qed.

Lemma fetchone_app_other p t new :
  p new = false -> fetchone p (t ++ [new]) = fetchone p t.
Proof.
  unfold fetchone. intros Hp. induction t as [| x t IH]; simpl.
  - now rewrite Hp.
  - destruct (p x); auto.
Qed.

(** What [fetchone] reads back after an upsert on the same key. *)
Lemma fetchone_upsert p new f t :
  p new = true -> (forall r, p (f r) = p r) ->
  fetchone p (insert_on_conflict_update p new f t)
  = Some (match fetchone p t with Some e => f e | None => new end).
Proof.
  intros Hnew Hf. unfold insert_on_conflict_update.
  destruct (fetchone p t) as [e |] eqn:E.
  - rewrite (fetchone_some_existsb _ _ _ E), fetchone_update_where, E by auto.
    simpl. now rewrite (fetchone_some_holds _ _ _ E).
  - pose proof E as E'. apply fetchone_none_existsb in E'. rewrite E'.
    now apply fetchone_app_new.
Qed.

Lemma rowcount_none p t : existsb p t = false -> rowcount p t = 0.
Proof.
  unfold rowcount. induction t as [| x t IH]; simpl; [reflexivity |].
  destruct (p x); simpl; [discriminate | exact IH].
Qed.

Lemma rowcount_pos p t : existsb p t = true -> 0 < rowcount p t.
Proof.
  unfold rowcount. induction t as [| x t IH]; simpl; [discriminate |].
  destruct (p x); simpl; [lia | exact IH].
Qed.

Lemma delete_where_none p t : existsb p t = false -> delete_where p t = t.
Proof.
  unfold delete_where. induction t as [| x t IH]; simpl; [reflexivity |].
  destruct (p x); simpl; [discriminate |]. intros H. now rewrite IH.
Qed.

Lemma rowcount_app p t new :
  rowcount p (t ++ [new]) = rowcount p t + (if p new then 1 else 0).
Proof.
  unfold rowcount. rewrite filter_app, length_app. simpl.
  destruct (p new); simpl; lia.
Qed.

Lemma length_upsert p new f t :
  List.length (insert_on_conflict_update p new f t)
  = if existsb p t then List.length t else S (List.length t).
Proof.
  unfold insert_on_conflict_update, update_where.
  destruct (existsb p t); [apply length_map |].
  rewrite length_app. simpl. lia.
Qed.

(** An upsert keeps the [UNIQUE] constraint on its key. *)
Lemma unique_keys_upsert {K : Type} (key : row -> K) p new f t :
  (forall r, key (f r) = key r) ->
  (forall r, p r = false -> key r <> key new) ->
  unique_keys key t ->
  unique_keys key (insert_on_conflict_update p new f t).
Proof.
  intros Hf Hp Hu. unfold unique_keys, insert_on_conflict_update in *.
  destruct (existsb p t) eqn:E.
  - unfold update_where. rewrite map_map.
    erewrite map_ext; [exact Hu |].
    intros r. simpl. destruct (p r); auto.
  - rewrite map_app. simpl.
    apply NoDup_snoc; [exact Hu |].
    intros Hin. apply in_map_iff in Hin as [r [Hk Hr]].
    assert (p r = false) as Hpr.
    { destruct (p r) eqn:Hpr; [| reflexivity].
      assert (existsb p t = true) by (apply existsb_exists; eauto).
      congruence. }
    now apply (Hp r Hpr).
Qed.

(** Under the constraint, at most one row carries a key. *)
Lemma unique_keys_rowcount {K : Type} (key : row -> K) p k t :
  (forall r, p r = true -> key r = k) ->
  unique_keys key t -> rowcount p t <= 1.
Proof.
  intros Hp. unfold unique_keys, rowcount.
  induction t as [| x t IH]; simpl; [lia |].
  intros Hu. inversion Hu as [| ? ? Hnotin Hu']; subst.
  destruct (p x) eqn:Hx; simpl; [| auto].
  assert (filter p t = []) as ->.
  { destruct (filter p t) as [| y l] eqn:E; [reflexivity |].
    exfalso. apply Hnotin.
    assert (In y (filter p t)) as Hy by (rewrite E; now left).
    apply filter_In in Hy as [Hy Hpy].
    rewrite (Hp _ Hx), <- (Hp _ Hpy). now apply in_map. }
  simpl. lia.
Qed.
End TableFacts.

(** ** Keys and predicates *)

Lemma is_user_award n uid r : is_user uid (award_exp n r) = is_user uid r.
Proof. reflexivity. Qed.

Lemma is_user_set_level_exp l e uid r :
  is_user uid (set_level_exp l e r) = is_user uid r.
Proof. reflexivity. Qed.

Lemma fetchone_user_updated uid f us u :
  (forall r, is_user uid (f r) = is_user uid r) ->
  fetchone (is_user uid) us = Some u ->
  fetchone (is_user uid) (update_where (is_user uid) f us) = Some (f u).
Proof.
  intros Hf Hu. rewrite fetchone_update_where, Hu by exact Hf.
  cbn [option_map]. now rewrite (fetchone_some_holds _ _ _ Hu).
Qed.

Lemma user_exists_fetchone uid s :
  user_exists uid s = true <-> exists u, fetchone (is_user uid) (users s) = Some u.
Proof.
  unfold user_exists. split.
  - intros H. destruct (fetchone (is_user uid) (users s)) as [u |] eqn:E; eauto.
    apply fetchone_none_existsb in E. congruence.
  - intros [u Hu]. eapply fetchone_some_existsb; eauto.
Qed.

Lemma is_progress_key uid aid r :
  is_progress uid aid r = true <-> progress_key r = (uid, aid).
Proof.
  unfold is_progress, progress_key. rewrite andb_true_iff, !String.eqb_eq.
  split; [intros [-> ->]; reflexivity | intros H; now inversion H].
Qed.

Lemma is_recent_key uid aid r :
  is_recent uid aid r = true <-> recent_key r = (uid, aid).
Proof.
  unfold is_recent, recent_key. rewrite andb_true_iff, !String.eqb_eq.
  split; [intros [-> ->]; reflexivity | intros H; now inversion H].
Qed.

Lemma is_progress_refl uid aid t i st e tot d :
  is_progress uid aid (mkProgress uid aid t i st e tot d) = true.
Proof. unfold is_progress. simpl. now rewrite !String.eqb_refl. Qed.

Lemma is_recent_refl uid aid t i d :
  is_recent uid aid (mkRecent uid aid t i d) = true.
Proof. unfold is_recent. simpl. now rewrite !String.eqb_refl. Qed.

(** ** The status derivation rule *)

Lemma all_episodes_watched_spec progress :
  all_episodes_watched progress = true <-> total_reached progress.
Proof.
  unfold all_episodes_watched, total_reached.
  destruct (wp_total_episodes progress) as [total |].
  - rewrite !andb_true_iff, negb_true_iff, Z.eqb_neq, Z.gtb_ltb, Z.ltb_lt,
      Z.geb_le.
    split.
    + intros [[_ Hpos] Hge]. exists total. auto.
    + intros [t [Ht [Hpos Hge]]]. inversion Ht; subst. lia.
  - split; [discriminate | intros [t [Ht _]]; discriminate].
Qed.

Lemma effective_status_reached progress :
  total_reached progress -> effective_status progress = COMPLETED.
Proof.
  intros H. apply all_episodes_watched_spec in H. unfold effective_status.
  now rewrite H.
Qed.

Lemma effective_status_verbatim progress :
  ~ total_reached progress -> effective_status progress = wp_status progress.
Proof.
  intros H. unfold effective_status.
  destruct (all_episodes_watched progress) eqn:E; [| reflexivity].
  apply all_episodes_watched_spec in E. contradiction.
Qed.

(** The condition of the source and the one of the specification. *)
Lemma cascade_condition_spec progress s :
  episodes_stored progress s ->
  exists b,
    cascade_condition (previous_status progress s) (effective_status progress)
                      (wp_episodes_watched progress)
                      (match previous_row progress s with
                       | Some e => p_episodes_watched e
                       | None => Some 0
                       end) = Some b
    /\ (b = true <-> cascade_fires progress s).
Proof.
  intros Hst. unfold cascade_condition, cascade_fires, previous_status,
                previous_episodes, episodes_stored in *.
  destruct (previous_row progress s) as [e |]; simpl.
  - destruct (p_episodes_watched e) as [n |] eqn:En;
      [| exfalso; now apply (Hst e)].
    destruct (Status_eqb (p_status e) COMPLETED) eqn:Eo;
      destruct (Status_eqb (effective_status progress) COMPLETED) eqn:Ee; simpl.
    + exists (wp_episodes_watched progress >? n). split; [reflexivity |].
      apply Status_eqb_eq in Eo. rewrite Z.gtb_ltb, Z.ltb_lt, Eo.
      split; [auto | intros [[H _] | H]; [congruence | exact H]].
    + exists (wp_episodes_watched progress >? n). split; [reflexivity |].
      rewrite Z.gtb_ltb, Z.ltb_lt.
      split; [auto | intros [[H _] | H]; [| exact H]].
      apply Status_eqb_eq in Eo. congruence.
    + exists true. split; [reflexivity |]. apply Status_eqb_eq in Ee.
      split; [| reflexivity]. intros _. left. split; [| exact Ee].
      intros H. inversion H as [H']. rewrite H' in Eo. discriminate.
    + exists (wp_episodes_watched progress >? n). split; [reflexivity |].
      rewrite Z.gtb_ltb, Z.ltb_lt.
      split; [auto | intros [[_ H] | H]; [| exact H]].
      rewrite H in Ee. discriminate.
  - destruct (Status_eqb (effective_status progress) COMPLETED) eqn:Ee; simpl.
    + exists true. apply Status_eqb_eq in Ee.
      split; [reflexivity |]. split; [| reflexivity]. intros _. left.
      split; [discriminate | exact Ee].
    + exists (wp_episodes_watched progress >? 0). split; [reflexivity |].
      rewrite Z.gtb_ltb, Z.ltb_lt.
      split; [auto | intros [[_ H] | H]; [| exact H]].
      rewrite H in Ee. discriminate.
Qed.

(** ** POST /watch-progress, statement by statement *)

(** A request on an existing user whose comparison of episode counts is
    defined completes, and leaves the store described here. *)
Lemma update_watch_progress_completes progress now s :
  user_exists (wp_user_id progress) s = true ->
  episodes_stored progress s ->
  exists b s',
    (b = true <-> cascade_fires progress s)
    /\ update_watch_progress progress now s
       = (Return (mkProgressResponse "Progress updated successfully"
                                     (effective_status progress)), s')
    /\ watch_progress s'
       = upsert_watch_progress progress (effective_status progress)
                               (written_title progress s)
                               (written_image_url progress s) now
                               (watch_progress s)
    /\ recent s'
       = (if b
          then upsert_recent (wp_user_id progress) (wp_anime_id progress)
                             (written_title progress s)
                             (written_image_url progress s) now (recent s)
          else recent s)
    /\ users s'
       = (if b
          then update_where (is_user (wp_user_id progress)) (award_exp 100)
                            (users s)
          else users s)
    /\ favorites s' = favorites s
    /\ achievements s' = achievements s
    /\ user_achievements s' = user_achievements s.
Proof.
  intros Hu Hst. apply user_exists_fetchone in Hu as [u Hu].
  destruct (cascade_condition_spec progress s Hst) as [b [Hc Hb]].
  unfold update_watch_progress, written_title, written_image_url.
  unfold previous_status, previous_row in *. rewrite Hu.
  destruct (fetchone (is_progress (wp_user_id progress) (wp_anime_id progress))
                     (watch_progress s)) as [e |]; simpl in *; rewrite Hc;
    destruct b; eexists _, _; (split; [exact Hb |]); (split; [reflexivity |]);
    simpl; repeat split.
Qed.

Lemma in_upsert {row : Type} (p : row -> bool) new f t r :
  In r (insert_on_conflict_update p new f t) -> p r = true ->
  r = new \/ exists r0, In r0 t /\ r = f r0.
Proof.
  unfold insert_on_conflict_update, update_where.
  destruct (existsb p t) eqn:E; intros Hin Hp.
  - apply in_map_iff in Hin as [r0 [Hr0 Hin]]. right.
    destruct (p r0) eqn:E0; [eauto |]. subst. congruence.
  - apply in_app_iff in Hin as [Hin | [Hin | []]]; [| now left].
    assert (existsb p t = true) by (apply existsb_exists; eauto).
    congruence.
Qed.

(** The status rule where the handler gets as far as its answer: on an
    existing user whose row for the pair, if any, stores an episode count,
    when total_episodes is supplied, positive and reached by
    episodes_watched, the status returned and the status stored in the
    (user, anime) row of watch_progress are 'completed' whatever the caller
    supplied; otherwise they are the caller's status.  A row with a NULL
    count is the matter of [status_rule_breaks_on_null_count]. *)
Theorem status_derivation_rule progress now s :
  user_exists (wp_user_id progress) s = true ->
  episodes_stored progress s ->
  exists status s',
    update_watch_progress progress now s
    = (Return (mkProgressResponse "Progress updated successfully" status), s')
    /\ option_map p_status (progress_row progress s') = Some status
    /\ (forall r,
          In r (watch_progress s') ->
          is_progress (wp_user_id progress) (wp_anime_id progress) r = true ->
          p_status r = status)
    /\ (total_reached progress -> status = COMPLETED)
    /\ (~ total_reached progress -> status = wp_status progress).
Proof.
  intros Hu Hst.
  destruct (update_watch_progress_completes progress now s Hu Hst)
    as [b [s' [_ [Hrun [Hwp _]]]]].
  exists (effective_status progress), s'. split; [exact Hrun |].
  unfold progress_row. rewrite Hwp. unfold upsert_watch_progress.
  repeat split.
  - rewrite fetchone_upsert;
      [| apply is_progress_refl | intros r; reflexivity].
    simpl. now destruct (fetchone _ (watch_progress s)).
  - intros r Hin Hp. apply in_upsert in Hin as [-> | [r0 [_ ->]]]; auto.
  - apply effective_status_reached.
  - apply effective_status_verbatim.
Qed.

Lemma status_derivation_rule_witness :
  exists s',
    update_watch_progress progress0 7 db0
    = (Return (mkProgressResponse "Progress updated successfully" COMPLETED), s')
    /\ option_map p_status (progress_row progress0 s') = Some COMPLETED.
Proof.
  assert (episodes_stored progress0 db0) as Hst
      by (intros e H; discriminate H).
  destruct (status_derivation_rule progress0 7 db0 eq_refl Hst)
    as [status [s' [Hrun [Hrow [_ [Hc _]]]]]].
  assert (status = COMPLETED) as ->.
  { apply Hc. exists 12. simpl. repeat split; lia. }
  eauto.
Defined.

(** ** The cascade *)

(** The cascade where the comparison of the counts is defined: on an
    existing user whose row for the pair, if any, stores an episode count,
    the cascade (the recent marker of the pair inserted or its viewed_at
    refreshed, and 100 points of experience awarded by the single-step rule)
    happens if and only if the status goes from non-completed to completed
    or the reported episodes_watched exceeds the stored count (0 without a
    prior row); otherwise recent and users are left as they were.  A row
    with a NULL count is the matter of [cascade_breaks_on_null_count]. *)
Theorem cascade_iff_condition progress now s u :
  fetchone (is_user (wp_user_id progress)) (users s) = Some u ->
  episodes_stored progress s ->
  exists body s',
    update_watch_progress progress now s = (Return body, s')
    /\ (cascade_fires progress s ->
        (exists r, recent_marker progress s' = Some r /\ r_viewed_at r = now)
        /\ List.length (recent s')
           = (match recent_marker progress s with
              | Some _ => List.length (recent s)
              | None => S (List.length (recent s))
              end)
        /\ users s'
           = update_where (is_user (wp_user_id progress)) (award_exp 100)
                          (users s))
    /\ (~ cascade_fires progress s -> recent s' = recent s /\ users s' = users s)
    /\ (cascade_fires progress s
        <-> option_map u_exp (fetchone (is_user (wp_user_id progress)) (users s'))
            = Some (u_exp u + 100)).
Proof.
  intros Hu Hst.
  assert (user_exists (wp_user_id progress) s = true) as Hex
      by (apply user_exists_fetchone; eauto).
  destruct (update_watch_progress_completes progress now s Hex Hst)
    as [b [s' [Hb [Hrun [_ [Hrec [Hus _]]]]]]].
  exists (mkProgressResponse "Progress updated successfully"
                             (effective_status progress)), s'.
  split; [exact Hrun |].
  destruct b.
  - assert (cascade_fires progress s) as Hf by now apply Hb.
    repeat split; try tauto.
    + unfold recent_marker. rewrite Hrec. unfold upsert_recent.
      rewrite fetchone_upsert;
        [| apply is_recent_refl | intros r; reflexivity].
      eexists. split; [reflexivity |].
      now destruct (fetchone _ (recent s)).
    + rewrite Hrec. unfold upsert_recent, recent_marker.
      rewrite length_upsert.
      destruct (fetchone (is_recent (wp_user_id progress) (wp_anime_id progress))
                         (recent s)) as [r |] eqn:E.
      * now rewrite (fetchone_some_existsb _ _ _ E).
      * apply fetchone_none_existsb in E. now rewrite E.
    + intros _. rewrite Hus.
      now rewrite (fetchone_user_updated _ _ _ _ (is_user_award 100 _) Hu).
  - assert (~ cascade_fires progress s) as Hf
        by (intros H; apply Hb in H; discriminate).
    repeat split; try tauto.
    rewrite Hus, Hu. simpl. intros H. inversion H. lia.
Qed.

Lemma cascade_iff_condition_witness :
  exists body s',
    update_watch_progress progress0 7 db0 = (Return body, s')
    /\ option_map r_viewed_at (recent_marker progress0 s') = Some 7
    /\ level_exp "u1" s' = Some (2, 1050).
Proof.
  assert (episodes_stored progress0 db0) as Hst
      by (intros e H; discriminate H).
  destruct (cascade_iff_condition
              progress0 7 db0 (mkUser "u1" "alice" "a@x.com" "pw" None 1 950 0)
              eq_refl Hst)
    as [body [s' [Hrun [Hfire _]]]].
  assert (cascade_fires progress0 db0) as Hf by (right; reflexivity).
  destruct (Hfire Hf) as [[r [Hr Hat]] [_ Hus]].
  exists body, s'. split; [exact Hrun |]. split.
  - rewrite Hr. simpl. now rewrite Hat.
  - unfold level_exp. rewrite Hus. reflexivity.
Defined.

(** ** The level-up loop *)

(** One test of the [while] condition. *)
Lemma level_up_loop_step new_level new_exp next_level_exp :
  level_up_loop new_level new_exp next_level_exp
  = if new_exp >=? next_level_exp
    then level_up_loop (new_level + 1) (new_exp - next_level_exp)
                       (1000 * (new_level + 1))
    else (new_level, new_exp, next_level_exp).
Proof.
  rewrite level_up_loop_equation_1. unfold level_up_loop_unfold_clause_1.
  destruct (Z_lt_le_dec new_exp next_level_exp) as [H | H];
    destruct (Z.geb_spec new_exp next_level_exp); (reflexivity || lia).
Qed.

(** On leaving the loop the experience is below the threshold, and the
    threshold is the one of the level reached. *)
Lemma level_up_loop_exit new_level new_exp next_level_exp :
  forall l e nx,
    level_up_loop new_level new_exp next_level_exp = (l, e, nx) ->
    e < nx /\ (next_level_exp = 1000 * new_level -> nx = 1000 * l).
Proof.
  funelim (level_up_loop new_level new_exp next_level_exp);
    intros l' e' nx' Hres.
  - inversion Hres; subst. auto.
  - match goal with
    | IH : forall l e nx, level_up_loop _ _ _ = _ -> _ |- _ =>
        destruct (IH _ _ _ Hres) as [Hlt Hnx]
    end.
    split; [exact Hlt | intros _; now apply Hnx].
Qed.

(** ** POST /user/{user_id}/watch-episode *)

(** C4: on an existing user with level L and experience E the handler
    returns, and what it stores and returns is the outcome of the loop
    started at (L, E + 100): while the experience is at least 1000 times the
    level, the experience loses that threshold and the level gains one, the
    threshold being taken anew at each turn; one award can raise the level
    several times, and level 1 with 950 points ends at level 2 with 50. *)
Theorem watch_episode_rollover user_id s u :
  fetchone (is_user user_id) (users s) = Some u ->
  (exists new_level new_exp s',
      level_up_loop (u_level u) (u_exp u + 100) (1000 * u_level u)
      = (new_level, new_exp, 1000 * new_level)
      /\ watch_episode user_id s
         = (Return (mkWatchEpisodeResponse new_level new_exp (1000 * new_level)),
            s')
      /\ level_exp user_id s' = Some (new_level, new_exp))
  /\ (forall level exp,
         1000 * level <= exp ->
         level_up_loop level exp (1000 * level)
         = level_up_loop (level + 1) (exp - 1000 * level) (1000 * (level + 1)))
  /\ (forall level exp,
         exp < 1000 * level ->
         level_up_loop level exp (1000 * level) = (level, exp, 1000 * level))
  /\ level_up_loop 1 (950 + 100) (1000 * 1) = (2, 50, 2000)
  /\ level_up_loop 1 (2950 + 100) (1000 * 1) = (3, 50, 3000).
Proof.
  intros Hu. repeat split.
  - destruct (level_up_loop (u_level u) (u_exp u + 100) (1000 * u_level u))
      as [[l e] nx] eqn:E.
    destruct (level_up_loop_exit _ _ _ _ _ _ E) as [_ Hnx].
    specialize (Hnx eq_refl). subst nx.
    exists l, e. eexists. split; [reflexivity |].
    unfold watch_episode. rewrite Hu. cbv zeta. rewrite E.
    split; [reflexivity |].
    unfold level_exp. cbn [users set_users].
    now rewrite (fetchone_user_updated _ _ _ _ (is_user_set_level_exp l e _) Hu).
  - intros level exp H. rewrite level_up_loop_step.
    destruct (Z.geb_spec exp (1000 * level)); [reflexivity | lia].
  - intros level exp H. rewrite level_up_loop_step.
    destruct (Z.geb_spec exp (1000 * level)); [lia | reflexivity].
Qed.

Lemma watch_episode_rollover_witness :
  exists s',
    watch_episode "u1" db0 = (Return (mkWatchEpisodeResponse 2 50 2000), s')
    /\ level_exp "u1" s' = Some (2, 50).
Proof.
  destruct (watch_episode_rollover
              "u1" db0 (mkUser "u1" "alice" "a@x.com" "pw" None 1 950 0) eq_refl)
    as [[l [e [s' [Hloop [Hrun Hstored]]]]] _].
  vm_compute in Hloop. inversion Hloop; subst l e.
  exists s'. split; [exact Hrun | exact Hstored].
Defined.

(** C10: whenever the handler returns, the experience it returns is below
    the next_level_exp it returns, which is 1000 times the level it returns,
    and the row it stored satisfies exp < 1000 * level. *)
Theorem watch_episode_below_threshold user_id s body s' :
  watch_episode user_id s = (Return body, s') ->
  we_exp body < we_next_level_exp body
  /\ we_next_level_exp body = 1000 * we_level body
  /\ exists u,
      fetchone (is_user user_id) (users s') = Some u
      /\ u_level u = we_level body /\ u_exp u = we_exp body
      /\ u_exp u < 1000 * u_level u.
Proof.
  unfold watch_episode.
  destruct (fetchone (is_user user_id) (users s)) as [u |] eqn:Hu;
    [| discriminate].
  cbv zeta.
  destruct (level_up_loop (u_level u) (u_exp u + 100) (1000 * u_level u))
    as [[l e] nx] eqn:E.
  destruct (level_up_loop_exit _ _ _ _ _ _ E) as [Hlt Hnx].
  specialize (Hnx eq_refl). intros H. inversion H; subst; clear H.
  cbn [we_exp we_next_level_exp we_level users set_users].
  split; [lia |]. split; [lia |].
  exists (set_level_exp l e u).
  rewrite (fetchone_user_updated _ _ _ _ (is_user_set_level_exp l e _) Hu).
  cbn [set_level_exp u_level u_exp]. repeat split; lia.
Qed.

Lemma watch_episode_below_threshold_witness :
  we_exp (mkWatchEpisodeResponse 2 50 2000)
  < we_next_level_exp (mkWatchEpisodeResponse 2 50 2000).
Proof.
  exact (proj1 (watch_episode_below_threshold
                  "u1" db0 (mkWatchEpisodeResponse 2 50 2000)
                  (snd (watch_episode "u1" db0)) eq_refl)).
Defined.

(** ** Achievements *)

Lemma unlock_achievement_first user_id achievement_id a now s :
  fetchone (fun a => a_id a =? achievement_id) (achievements s) = Some a ->
  existsb (is_unlock user_id achievement_id) (user_achievements s) = false ->
  unlock_achievement user_id achievement_id now s
  = (Return (mkUnlockResponse "success" (a_exp_reward a)),
     set_users
       (update_where (is_user user_id) (award_exp (a_exp_reward a)) (users s))
       (set_user_achievements
          (user_achievements s
           ++ [mkUserAchievement user_id achievement_id now]) s)).
Proof.
  intros Ha Hnew. unfold unlock_achievement. rewrite Hnew. simpl.
  now rewrite Ha.
Qed.


Lemma is_unlock_refl user_id achievement_id now :
  is_unlock user_id achievement_id
            (mkUserAchievement user_id achievement_id now) = true.
Proof.
  unfold is_unlock. simpl. now rewrite String.eqb_refl, Z.eqb_refl.
Qed.

(** ** Single-step leveling *)

Lemma award_exp_level_up n u :
  u_level u * 1000 <= u_exp u + n ->
  u_level (award_exp n u) = u_level u + 1 /\ u_exp (award_exp n u) = u_exp u + n.
Proof.
  intros H. unfold award_exp. cbn [u_level u_exp].
  destruct (Z.geb_spec (u_exp u + n) (u_level u * 1000)); [auto | lia].
Qed.

(** C3: for a user at level L with E points who is awarded N points with
    E + N >= L * 1000, by the cascade of a progress update (N = 100) or by
    the unlock of an achievement (N its exp_reward), the stored level is
    L + 1 and the stored experience is the sum E + N, with no threshold
    taken off. *)
Theorem single_step_leveling user_id s u :
  fetchone (is_user user_id) (users s) = Some u ->
  (forall progress now,
      wp_user_id progress = user_id ->
      episodes_stored progress s ->
      cascade_fires progress s ->
      u_level u * 1000 <= u_exp u + 100 ->
      level_exp user_id (snd (update_watch_progress progress now s))
      = Some (u_level u + 1, u_exp u + 100))
  /\ (forall achievement_id a now,
         fetchone (fun a => a_id a =? achievement_id) (achievements s) = Some a ->
         existsb (is_unlock user_id achievement_id) (user_achievements s) = false ->
         u_level u * 1000 <= u_exp u + a_exp_reward a ->
         level_exp user_id (snd (unlock_achievement user_id achievement_id now s))
         = Some (u_level u + 1, u_exp u + a_exp_reward a)).
Proof.
  intros Hu. split.
  - intros progress now <- Hst Hf Hup.
    assert (user_exists (wp_user_id progress) s = true) as Hex
        by (apply user_exists_fetchone; eauto).
    destruct (update_watch_progress_completes progress now s Hex Hst)
      as [b [s' [Hb [Hrun [_ [_ [Hus _]]]]]]].
    rewrite Hrun. cbn [snd]. apply Hb in Hf. subst b.
    unfold level_exp. rewrite Hus.
    rewrite (fetchone_user_updated _ _ _ _ (is_user_award 100 _) Hu).
    cbn [option_map].
    destruct (award_exp_level_up 100 u Hup) as [-> ->]. reflexivity.
  - intros achievement_id a now Ha Hnew Hup.
    rewrite (unlock_achievement_first _ _ _ _ _ Ha Hnew). cbn [snd].
    unfold level_exp. cbn [users set_users].
    rewrite (fetchone_user_updated _ _ _ _ (is_user_award _ _) Hu).
    cbn [option_map].
    destruct (award_exp_level_up _ u Hup) as [-> ->]. reflexivity.
Qed.

Lemma single_step_leveling_witness :
  level_exp "u1" (snd (update_watch_progress progress0 7 db0)) = Some (2, 1050)
  /\ level_exp "u1" (snd (unlock_achievement "u1" 1 7 db0)) = Some (2, 1050).
Proof.
  destruct (single_step_leveling
              "u1" db0 (mkUser "u1" "alice" "a@x.com" "pw" None 1 950 0) eq_refl)
    as [Hprogress Hunlock].
  split.
  - apply (Hprogress progress0 7 eq_refl).
    + intros e H. discriminate H.
    + right. reflexivity.
    + simpl. lia.
  - apply (Hunlock 1 (mkAchievement 1 "First steps" "Watch something" None 100)
                   7 eq_refl eq_refl).
    simpl. lia.
Defined.



(** ** Favorites *)

(** On a connection outside a transaction, a remove by an existing user
    for a pair without a favorites row fails with status 404 on both
    endpoints, and the store, the favorites table in particular, is left as
    it was.  Inside a transaction see [remove_inside_leaked_transaction]. *)
Theorem remove_missing_favorite user_id data now s :
  user_exists user_id s = true ->
  fa_action data = remove ->
  existsb (is_favorite user_id (fa_animeId data)) (favorites s) = false ->
  update_favorites user_id data now s = (HTTPException 404, s)
  /\ manage_favorites user_id data now s = (HTTPException 404, s)
  /\ favorites (snd (update_favorites user_id data now s)) = favorites s
  /\ favorites (snd (manage_favorites user_id data now s)) = favorites s.
Proof.
  intros Hu Hact Hnone. apply user_exists_fetchone in Hu as [u Hu].
  assert (update_favorites user_id data now s = (HTTPException 404, s)) as H1.
  { unfold update_favorites, update_favorites_statements.
    now rewrite Hu, Hact, (rowcount_none _ _ Hnone). }
  assert (manage_favorites user_id data now s = (HTTPException 404, s)) as H2.
  { unfold manage_favorites, manage_favorites_statements.
    now rewrite Hu, Hact, (rowcount_none _ _ Hnone). }
  rewrite H1, H2. auto.
Qed.

Lemma remove_missing_favorite_witness :
  update_favorites "u1" (mkFavoriteAction "a1" remove None None) 7 db0
  = (HTTPException 404, db0)
  /\ manage_favorites "u1" (mkFavoriteAction "a1" remove None None) 7 db0
     = (HTTPException 404, db0).
Proof.
  destruct (remove_missing_favorite
              "u1" (mkFavoriteAction "a1" remove None None) 7 db0
              eq_refl eq_refl eq_refl)
    as [H1 [H2 _]].
  split; [exact H1 | exact H2].
Defined.

(** ** GET /watch-progress/{user_id} *)

(** C9: for a user_id that is not in users the handler raises nothing: it
    returns a body whose completed and inProgress lists are empty and whose
    five statistics are 0. *)
Theorem unknown_user_empty_progress user_id s :
  user_exists user_id s = false ->
  exists body,
    get_user_watch_progress user_id s = Return body
    /\ completed body = [] /\ inProgress body = []
    /\ totalEpisodesWatched (stats body) = 0
    /\ totalTimeSpent (stats body) = 0
    /\ averageRating (stats body) = 0
    /\ completed_count (stats body) = 0
    /\ watching_count (stats body) = 0.
Proof.
  intros Hu. apply fetchone_none_existsb in Hu.
  unfold get_user_watch_progress. rewrite Hu.
  eexists. split; [reflexivity |]. cbn. repeat split.
Qed.

Lemma unknown_user_empty_progress_witness :
  get_user_watch_progress "nobody" db0
  = Return (mkUserWatchProgress [] [] (mkStats 0 0 0 0 0)).
Proof.
  destruct (unknown_user_empty_progress "nobody" db0 eq_refl)
    as [body [Hrun [Hc [Hi [H1 [H2 [H3 [H4 H5]]]]]]]].
  rewrite Hrun. destruct body as [c i [a b d e f]]. simpl in *.
  now subst.
Defined.

(** ** The upsert of a progress record *)

Lemma unique_keys_upsert_watch_progress progress status title image now t :
  unique_keys progress_key t ->
  unique_keys progress_key
              (upsert_watch_progress progress status title image now t).
Proof.
  intros Hu. apply unique_keys_upsert; [reflexivity | | exact Hu].
  intros r Hr Hk.
  assert (is_progress (wp_user_id progress) (wp_anime_id progress) r = true)
    by now apply is_progress_key.
  congruence.
Qed.

Lemma progress_row_after_upsert progress status title image now t :
  fetchone (is_progress (wp_user_id progress) (wp_anime_id progress))
           (upsert_watch_progress progress status title image now t)
  = Some (match fetchone (is_progress (wp_user_id progress)
                                      (wp_anime_id progress)) t with
          | Some e =>
              mkProgress (p_user_id e) (p_anime_id e)
                         (COALESCE title (p_title e))
                         (COALESCE image (p_image_url e))
                         status (Some (wp_episodes_watched progress))
                         (wp_total_episodes progress) now
          | None =>
              mkProgress (wp_user_id progress) (wp_anime_id progress) title
                         image status (Some (wp_episodes_watched progress))
                         (wp_total_episodes progress) now
          end).
Proof.
  unfold upsert_watch_progress.
  rewrite fetchone_upsert; [| apply is_progress_refl | intros r; reflexivity].
  reflexivity.
Qed.

(** C5, as the code has it: on an existing user, the request leaves exactly
    one row for its (user, anime) pair and keeps the uniqueness of the
    table.  Without a prior row the table gains that row, which carries the
    incoming title and image.  With a prior row the table keeps its length;
    an absent (null) incoming title or image leaves the stored one, a
    present one, the empty string included, replaces it, and a stored value
    is never replaced by NULL. *)
Theorem upsert_coalesce progress now s :
  user_exists (wp_user_id progress) s = true ->
  episodes_stored progress s ->
  unique_keys progress_key (watch_progress s) ->
  exists body s' e',
    update_watch_progress progress now s = (Return body, s')
    /\ progress_row progress s' = Some e'
    /\ rowcount (is_progress (wp_user_id progress) (wp_anime_id progress))
                (watch_progress s') = 1
    /\ unique_keys progress_key (watch_progress s')
    /\ match previous_row progress s with
       | None =>
           List.length (watch_progress s') = S (List.length (watch_progress s))
           /\ p_title e' = wp_title progress
           /\ p_image_url e' = wp_image_url progress
       | Some e =>
           List.length (watch_progress s') = List.length (watch_progress s)
           /\ (wp_title progress = None -> p_title e' = p_title e)
           /\ (wp_image_url progress = None -> p_image_url e' = p_image_url e)
           /\ (forall v, wp_title progress = Some v -> p_title e' = Some v)
           /\ (forall v, wp_image_url progress = Some v -> p_image_url e' = Some v)
           /\ (p_title e <> None -> p_title e' <> None)
           /\ (p_image_url e <> None -> p_image_url e' <> None)
       end.
Proof.
  intros Hu Hst Huniq.
  destruct (update_watch_progress_completes progress now s Hu Hst)
    as [b [s' [_ [Hrun [Hwp _]]]]].
  pose proof (progress_row_after_upsert
                progress (effective_status progress) (written_title progress s)
                (written_image_url progress s) now (watch_progress s)) as Hrow.
  rewrite <- Hwp in Hrow.
  pose proof (unique_keys_upsert_watch_progress
                progress (effective_status progress) (written_title progress s)
                (written_image_url progress s) now _ Huniq) as Huniq'.
  rewrite <- Hwp in Huniq'.
  eexists _, s', _. split; [exact Hrun |]. split; [exact Hrow |].
  split; [| split; [exact Huniq' |]].
  - pose proof (rowcount_pos _ _ (fetchone_some_existsb _ _ _ Hrow)).
    pose proof (unique_keys_rowcount
                  progress_key
                  (is_progress (wp_user_id progress) (wp_anime_id progress))
                  (wp_user_id progress, wp_anime_id progress)
                  (watch_progress s')
                  (fun r => proj1 (is_progress_key _ _ r)) Huniq').
    lia.
  - rewrite Hwp. unfold upsert_watch_progress. rewrite length_upsert.
    unfold written_title, written_image_url, previous_row.
    destruct (fetchone (is_progress (wp_user_id progress) (wp_anime_id progress))
                       (watch_progress s)) as [e |] eqn:E.
    + rewrite (fetchone_some_existsb _ _ _ E). cbn.
      destruct (wp_title progress) as [t |], (wp_image_url progress) as [i |];
        cbn; repeat split; try congruence;
        try (intros v Hv; now inversion Hv);
        try (destruct (p_title e); auto; congruence);
        try (destruct (p_image_url e); auto; congruence).
    + pose proof E as E'. apply fetchone_none_existsb in E'. rewrite E'. cbn.
      destruct (wp_title progress), (wp_image_url progress); auto.
Qed.

Lemma upsert_coalesce_witness :
  exists e',
    progress_row (mkWatchProgress "u1" "a1" None None WATCHING 6 (Some 12))
                 (snd (update_watch_progress
                         (mkWatchProgress "u1" "a1" None None WATCHING 6 (Some 12))
                         9 db1))
    = Some e'
    /\ p_title e' = Some "Naruto" /\ p_image_url e' = Some "/n.png"
    /\ List.length
         (watch_progress
            (snd (update_watch_progress
                    (mkWatchProgress "u1" "a1" None None WATCHING 6 (Some 12))
                    9 db1)))
       = 1%nat.
Proof.
  assert (episodes_stored
            (mkWatchProgress "u1" "a1" None None WATCHING 6 (Some 12)) db1)
    as Hst.
  { intros e H. vm_compute in H. inversion H. discriminate. }
  assert (unique_keys progress_key (watch_progress db1)) as Huniq.
  { repeat constructor. simpl. tauto. }
  destruct (upsert_coalesce
              (mkWatchProgress "u1" "a1" None None WATCHING 6 (Some 12))
              9 db1 eq_refl Hst Huniq)
    as [body [s' [e' [Hrun [Hrow [_ [_ Hprev]]]]]]].
  rewrite Hrun. cbn [snd].
  change (previous_row
            (mkWatchProgress "u1" "a1" None None WATCHING 6 (Some 12)) db1)
    with (Some (mkProgress "u1" "a1" (Some "Naruto") (Some "/n.png") WATCHING
                           (Some 5) (Some 12) 3)) in Hprev.
  destruct Hprev as [Hlen [Ht [Hi _]]].
  exists e'. split; [exact Hrow |].
  split; [exact (Ht eq_refl) |]. split; [exact (Hi eq_refl) |].
  exact Hlen.
Defined.

(** An incoming empty title replaces the stored "Naruto", and an incoming
    empty image the stored "/n.png". *)
Lemma empty_title_overwrites :
  option_map p_title (previous_row progress_empty db1) = Some (Some "Naruto")
  /\ option_map p_title
       (progress_row progress_empty
                     (snd (update_watch_progress progress_empty 9 db1)))
     = Some (Some EmptyString)
  /\ ~ never_emptied progress_empty 9 db1.
Proof.
  split; [reflexivity |]. split; [reflexivity |].
  intros H.
  destruct (H (mkProgress "u1" "a1" (Some "Naruto") (Some "/n.png") WATCHING
                          (Some 5) (Some 12) 3)
              (mkProgress "u1" "a1" (Some EmptyString) (Some EmptyString) WATCHING (Some 6)
                          (Some 12) 9)
              eq_refl eq_refl) as [Ht _].
  specialize (Ht eq_refl). discriminate Ht.
Qed.

(** ** The same request twice *)

Lemma unique_keys_upsert_recent user_id anime_id title image now t :
  unique_keys recent_key t ->
  unique_keys recent_key (upsert_recent user_id anime_id title image now t).
Proof.
  intros Hu. apply unique_keys_upsert; [reflexivity | | exact Hu].
  intros r Hr Hk.
  assert (is_recent user_id anime_id r = true) by now apply is_recent_key.
  congruence.
Qed.

Lemma cascade_condition_repeat status episodes :
  cascade_condition (Some status) status episodes (Some episodes) = Some false.
Proof.
  unfold cascade_condition.
  destruct (Status_eqb status COMPLETED); simpl;
    now rewrite Z.gtb_ltb, Z.ltb_irrefl.
Qed.

(** A request that finds its own row, with the status and the count it
    reports, changes the watch_progress table only. *)
Lemma update_watch_progress_repeat progress now s u e :
  fetchone (is_user (wp_user_id progress)) (users s) = Some u ->
  previous_row progress s = Some e ->
  p_status e = effective_status progress ->
  p_episodes_watched e = Some (wp_episodes_watched progress) ->
  exists t,
    update_watch_progress progress now s
    = (Return (mkProgressResponse "Progress updated successfully"
                                  (effective_status progress)),
       set_watch_progress t s).
Proof.
  intros Hu He Hs Hep. unfold update_watch_progress, previous_row in *.
  rewrite Hu, He, Hs, Hep, cascade_condition_repeat. eauto.
Qed.

(** The outcomes of the handler: status 500 with the store untouched,
    whatever the time, or a body and the store after the statements. *)
Lemma update_watch_progress_cases progress now s :
  (forall now', update_watch_progress progress now' s = (HTTPException 500, s))
  \/ exists u b,
      fetchone (is_user (wp_user_id progress)) (users s) = Some u
      /\ update_watch_progress progress now s
         = (Return (mkProgressResponse "Progress updated successfully"
                                       (effective_status progress)),
            if b : bool
            then set_users
                   (update_where (is_user (wp_user_id progress)) (award_exp 100)
                                 (users s))
                   (set_recent
                      (upsert_recent (wp_user_id progress) (wp_anime_id progress)
                                     (written_title progress s)
                                     (written_image_url progress s) now
                                     (recent s))
                      (set_watch_progress
                         (upsert_watch_progress
                            progress (effective_status progress)
                            (written_title progress s)
                            (written_image_url progress s) now
                            (watch_progress s)) s))
            else set_watch_progress
                   (upsert_watch_progress
                      progress (effective_status progress)
                      (written_title progress s)
                      (written_image_url progress s) now (watch_progress s)) s).
Proof.
  unfold update_watch_progress, written_title, written_image_url, previous_row.
  destruct (fetchone (is_user (wp_user_id progress)) (users s)) as [u |];
    [| now left].
  match goal with
  | |- context [cascade_condition ?a ?b ?c ?d] =>
      destruct (cascade_condition a b c d) as [[|] |]
  end.
  - right. exists u, true. split; reflexivity.
  - right. exists u, false. split; reflexivity.
  - now left.
Qed.

(** C6, as the code has it: the same request, sent again, returns what it
    returned the first time and leaves the recent table and the users table
    as the first call left them: no second cascade, no new recent row, no
    experience, and the viewed_at of the marker is not refreshed. *)
Theorem repeated_upsert_no_cascade progress t1 t2 s :
  let r1 := update_watch_progress progress t1 s in
  let r2 := update_watch_progress progress t2 (snd r1) in
  fst r2 = fst r1
  /\ recent (snd r2) = recent (snd r1)
  /\ users (snd r2) = users (snd r1)
  /\ recent_marker progress (snd r2) = recent_marker progress (snd r1)
  /\ (unique_keys recent_key (recent s) ->
      unique_keys recent_key (recent (snd r2))).
Proof.
  cbv zeta.
  destruct (update_watch_progress_cases progress t1 s)
    as [Herr | [u [b [Hu Hrun]]]].
  - rewrite (Herr t1). cbn [snd]. rewrite (Herr t2). auto 6.
  - rewrite Hrun. cbn [snd fst].
    match goal with
    | |- context [update_watch_progress progress t2 ?s1] => set (s1' := s1)
    end.
    assert (exists u', fetchone (is_user (wp_user_id progress)) (users s1')
                       = Some u') as [u' Hu'].
    { subst s1'. destruct b; cbn [users set_users set_watch_progress]; eauto.
      rewrite (fetchone_user_updated _ _ _ _ (is_user_award 100 _) Hu).
      eauto. }
    assert (watch_progress s1'
            = upsert_watch_progress
                progress (effective_status progress) (written_title progress s)
                (written_image_url progress s) t1 (watch_progress s)) as Hwp
        by (subst s1'; now destruct b).
    pose proof (progress_row_after_upsert
                  progress (effective_status progress)
                  (written_title progress s) (written_image_url progress s) t1
                  (watch_progress s)) as Hrow.
    rewrite <- Hwp in Hrow.
    destruct (update_watch_progress_repeat progress t2 s1' u' _ Hu' Hrow)
      as [t' Hrun2].
    + now destruct (fetchone _ (watch_progress s)).
    + now destruct (fetchone _ (watch_progress s)).
    + rewrite Hrun2. cbn [fst snd]. unfold recent_marker.
      repeat (split; [reflexivity |]).
      intros Huniq. subst s1'.
      destruct b; cbn [recent set_recent set_users set_watch_progress];
        [apply unique_keys_upsert_recent |]; exact Huniq.
Qed.

(** The first call creates the marker at time 7; after the same call at
    time 8 the marker is still viewed at 7, not at 8. *)
Lemma repeat_does_not_refresh :
  option_map r_viewed_at
    (recent_marker progress0 (snd (update_watch_progress progress0 7 db0)))
  = Some 7
  /\ option_map r_viewed_at
       (recent_marker
          progress0
          (snd (update_watch_progress
                  progress0 8 (snd (update_watch_progress progress0 7 db0)))))
     = Some 7
  /\ ~ repeat_refreshes_marker progress0 7 8 db0.
Proof.
  split; [reflexivity |]. split; [reflexivity |].
  intros [r [Hr Hat]]. vm_compute in Hr. inversion Hr; subst r.
  discriminate Hat.
Qed.

(** ** Sample runs *)

Example unknown_user_is_status_500 :
  update_watch_progress
    (mkWatchProgress "nobody" "a1" None None WATCHING 1 None) 7 db0
  = (HTTPException 500, db0).
Proof. reflexivity. Qed.

Example null_count_is_status_500 :
  update_watch_progress
    (mkWatchProgress "u1" "a1" None None COMPLETED 12 (Some 12)) 7 db_null
  = (HTTPException 500, db_null).
Proof. reflexivity. Qed.

Example first_progress_creates_row_and_marker :
  let s' := snd (update_watch_progress progress0 7 db0) in
  watch_progress s'
  = [mkProgress "u1" "a1" (Some "Naruto") None COMPLETED (Some 12) (Some 12) 7]
  /\ recent s' = [mkRecent "u1" "a1" (Some "Naruto") None 7]
  /\ level_exp "u1" s' = Some (2, 1050).
Proof. repeat split. Qed.

Example add_then_remove_favorite :
  let s1 :=
    snd (update_favorites
           "u1" (mkFavoriteAction "a1" add (Some "Naruto") None) 7 db0) in
  favorites s1 = [mkFavorite "u1" "a1" (Some "Naruto") None 7]
  /\ update_favorites "u1" (mkFavoriteAction "a1" remove None None) 8 s1
     = (Return (mkFavoritesResponse "success" remove 0 []), db0).
Proof. split; reflexivity. Qed.

Example unlock_outside_catalog_is_uncaught :
  unlock_achievement "u1" 99 7 db0
  = (Uncaught, set_user_achievements [mkUserAchievement "u1" 99 7] db0).
Proof. reflexivity. Qed.

Example level_up_loop_from_level_0 :
  level_up_loop 0 100 (1000 * 0) = (1, 100, 1000).
Proof. reflexivity. Qed.

(** * Further properties *)

(** ** [ORDER BY ... DESC] *)

Section OrderByFacts.
Context {row : Type} (col : row -> Z).

Lemma insert_desc_perm r t : Permutation (insert_desc col r t) (r :: t).
Proof.
  induction t as [| x t IH]; simpl; [reflexivity |].
  destruct (col x <=? col r); [reflexivity |].
  rewrite IH. apply perm_swap.
Qed.

Lemma order_by_desc_perm t : Permutation (order_by_desc col t) t.
Proof.
  unfold order_by_desc. induction t as [| x t IH]; simpl; [reflexivity |].
  rewrite insert_desc_perm. now constructor.
Qed.

Lemma order_by_desc_length t :
  List.length (order_by_desc col t) = List.length t.
Proof. apply Permutation_length, order_by_desc_perm. Qed.

Lemma order_by_desc_in t x : In x (order_by_desc col t) <-> In x t.
Proof.
  split; apply Permutation_in;
    [| symmetry]; apply order_by_desc_perm.
Qed.

Lemma insert_desc_sorted r t :
  sorted_desc col t -> sorted_desc col (insert_desc col r t).
Proof.
  unfold sorted_desc. induction t as [| x t IH]; simpl; intros Hs.
  - repeat constructor.
  - inversion Hs as [| ? ? Hs' Hall]; subst.
    destruct (Z.leb_spec (col x) (col r)) as [Hle | Hgt].
    + constructor; [exact Hs |]. constructor; [exact Hle |].
      eapply Forall_impl; [| exact Hall]. simpl. intros. lia.
    + constructor; [now apply IH |].
      eapply Permutation_Forall; [symmetry; apply insert_desc_perm |].
      constructor; [lia | exact Hall].
Qed.

Lemma order_by_desc_sorted t : sorted_desc col (order_by_desc col t).
Proof.
  unfold order_by_desc. induction t as [| x t IH]; simpl.
  - constructor.
  - now apply insert_desc_sorted.
Qed.

(** A row above all others comes first. *)
Lemma sorted_desc_head_max x t r :
  sorted_desc col (x :: t) -> In r (x :: t) -> col r <= col x.
Proof.
  intros Hs [-> | Hin]; [lia |].
  inversion Hs as [| ? ? _ Hall]; subst.
  rewrite Forall_forall in Hall. now apply Hall.
Qed.
End OrderByFacts.

Lemma sorted_desc_map {A B : Type} (f : A -> B) (colA : A -> Z) (colB : B -> Z)
      (t : list A) :
  (forall a, colB (f a) = colA a) ->
  sorted_desc colA t -> sorted_desc colB (map f t).
Proof.
  intros Hf. unfold sorted_desc. induction 1 as [| a l Hs IH Hall]; simpl.
  - constructor.
  - constructor; [exact IH |]. rewrite Forall_map.
    eapply Forall_impl; [| exact Hall]. simpl. intros b Hb. now rewrite !Hf.
Qed.

Lemma sorted_desc_firstn {A : Type} (col : A -> Z) n (t : list A) :
  sorted_desc col t -> sorted_desc col (firstn n t).
Proof.
  unfold sorted_desc. intros Hs. revert n.
  induction Hs as [| a l Hs IH Hall]; intros [| n]; simpl; try constructor.
  - apply IH.
  - rewrite Forall_forall in *. intros x Hx. apply Hall.
    eapply (In_nth_error) in Hx. destruct Hx as [k Hk].
    rewrite nth_error_firstn in Hk.
    destruct (k <? n)%nat; [| discriminate].
    eapply nth_error_In; eauto.
Qed.

(** ** Favorites: add, remove and the list returned *)

Lemma is_favorite_key uid aid r :
  is_favorite uid aid r = true <-> favorite_key r = (uid, aid).
Proof.
  unfold is_favorite, favorite_key. rewrite andb_true_iff, !String.eqb_eq.
  split; [intros [-> ->]; reflexivity | intros H; now inversion H].
Qed.

Lemma rowcount_nonneg {row : Type} (p : row -> bool) t : 0 <= rowcount p t.
Proof. unfold rowcount. lia. Qed.

Lemma delete_where_app_new {row : Type} (p : row -> bool) t new :
  existsb p t = false -> p new = true -> delete_where p (t ++ [new]) = t.
Proof.
  intros Hnone Hnew. unfold delete_where. rewrite filter_app. simpl.
  rewrite Hnew. simpl. rewrite app_nil_r. now apply delete_where_none.
Qed.

Lemma set_favorites_same s : set_favorites (favorites s) s = s.
Proof. now destruct s. Qed.

(** The statements of an accepted add are an upsert on the pair, in both
    handlers. *)
Lemma add_statements_upsert user_id data now s :
  fa_action data = add ->
  falsy (fa_title data) = false ->
  fa_animeId data <> EmptyString ->
  exists rc st,
    update_favorites_statements user_id data now s
    = Some (set_favorites
              (insert_on_conflict_update
                 (is_favorite user_id (fa_animeId data))
                 (mkFavorite user_id (fa_animeId data) (fa_title data)
                             (fa_image_url data) now)
                 (refresh_favorite data now) (favorites s)) s, rc, st)
    /\ manage_favorites_statements user_id data now s
       = Some (set_favorites
                 (insert_on_conflict_update
                    (is_favorite user_id (fa_animeId data))
                    (mkFavorite user_id (fa_animeId data) (fa_title data)
                                (fa_image_url data) now)
                    (refresh_favorite data now) (favorites s)) s,
               if st then rc >? 0 else true).
Proof.
  intros Hact Ht Hid. apply String.eqb_neq in Hid.
  unfold update_favorites_statements, manage_favorites_statements,
    insert_on_conflict_update.
  rewrite Hact, Ht, Hid. cbn [orb].
  destruct (fetchone (is_favorite user_id (fa_animeId data)) (favorites s))
    as [r |] eqn:E.
  - rewrite (fetchone_some_existsb _ _ _ E). eexists _, true. split; reflexivity.
  - pose proof E as E'. apply fetchone_none_existsb in E'. rewrite E'.
    eexists _, false. split; reflexivity.
Qed.

(** The tables after an accepted add: exactly one favorites row for the
    pair, carrying the title, the image and the time of the request; the
    table grows by one row when the pair was absent and keeps its length
    when it was present, and stays free of duplicate pairs. *)
Lemma add_favorite_tables user_id data now s :
  user_exists user_id s = true ->
  fa_action data = add ->
  falsy (fa_title data) = false ->
  fa_animeId data <> EmptyString ->
  unique_keys favorite_key (favorites s) ->
  exists s',
    update_favorites user_id data now s
    = (Return (favorites_body user_id add s'), s')
    /\ manage_favorites user_id data now s
       = (Return (favorites_body user_id add s'), s')
    /\ favorite_of user_id (fa_animeId data) s'
       = Some (mkFavorite user_id (fa_animeId data) (fa_title data)
                          (fa_image_url data) now)
    /\ rowcount (is_favorite user_id (fa_animeId data)) (favorites s') = 1
    /\ unique_keys favorite_key (favorites s')
    /\ List.length (favorites s')
       = match favorite_of user_id (fa_animeId data) s with
         | Some _ => List.length (favorites s)
         | None => S (List.length (favorites s))
         end.
Proof.
  intros Hu Hact Ht Hid Huniq. apply user_exists_fetchone in Hu as [u Hu].
  destruct (add_statements_upsert user_id data now s Hact Ht Hid)
    as [rc [st [H1 H2]]].
  eexists. unfold update_favorites, manage_favorites.
  rewrite Hu, H1, H2, Hact. cbn [is_remove]. rewrite !andb_false_r.
  split; [reflexivity |]. split; [reflexivity |].
  cbn [favorites set_favorites]. unfold favorite_of.
  assert (fetchone (is_favorite user_id (fa_animeId data))
            (insert_on_conflict_update
               (is_favorite user_id (fa_animeId data))
               (mkFavorite user_id (fa_animeId data) (fa_title data)
                           (fa_image_url data) now)
               (refresh_favorite data now) (favorites s))
          = Some (mkFavorite user_id (fa_animeId data) (fa_title data)
                             (fa_image_url data) now)) as Hrow.
  { rewrite fetchone_upsert.
    - destruct (fetchone _ (favorites s)) as [r |] eqn:E; [| reflexivity].
      apply fetchone_some_holds, is_favorite_key in E.
      unfold refresh_favorite. inversion E. reflexivity.
    - unfold is_favorite. simpl. now rewrite !String.eqb_refl.
    - intros r. reflexivity. }
  assert (unique_keys favorite_key
            (insert_on_conflict_update
               (is_favorite user_id (fa_animeId data))
               (mkFavorite user_id (fa_animeId data) (fa_title data)
                           (fa_image_url data) now)
               (refresh_favorite data now) (favorites s))) as Huniq'.
  { apply unique_keys_upsert; [reflexivity | | exact Huniq].
    intros r Hr Hk.
    assert (is_favorite user_id (fa_animeId data) r = true)
      by now apply is_favorite_key.
    congruence. }
  split; [exact Hrow |]. split; [| split; [exact Huniq' |]].
  - pose proof (rowcount_pos _ _ (fetchone_some_existsb _ _ _ Hrow)).
    pose proof (unique_keys_rowcount
                  favorite_key (is_favorite user_id (fa_animeId data))
                  (user_id, fa_animeId data) _
                  (fun r => proj1 (is_favorite_key _ _ r)) Huniq').
    lia.
  - rewrite length_upsert.
    destruct (fetchone (is_favorite user_id (fa_animeId data)) (favorites s))
      as [r |] eqn:E.
    + now rewrite (fetchone_some_existsb _ _ _ E).
    + apply fetchone_none_existsb in E. now rewrite E.
Qed.

Lemma add_favorite_tables_example :
  exists s',
    update_favorites "u1" (mkFavoriteAction "a2" add (Some "Bleach!") None) 9 db2
    = (Return (favorites_body "u1" add s'), s')
    /\ favorites s' = [mkFavorite "u1" "a2" (Some "Bleach!") None 9].
Proof.
  assert (unique_keys favorite_key (favorites db2)) as Huniq
      by (repeat constructor; simpl; tauto).
  assert ("a2" <> EmptyString) as Hid by discriminate.
  destruct (add_favorite_tables
              "u1" (mkFavoriteAction "a2" add (Some "Bleach!") None) 9 db2
              eq_refl eq_refl eq_refl Hid Huniq)
    as [s' [Hrun _]].
  exists s'. split; [exact Hrun |].
  vm_compute in Hrun. inversion Hrun. reflexivity.
Defined.

(** X2: the two favorites endpoints are the same function of the request
    and the store: same outcome, same store. *)
Theorem favorites_endpoints_agree user_id data now s :
  manage_favorites user_id data now s = update_favorites user_id data now s.
Proof.
  unfold manage_favorites, update_favorites,
    manage_favorites_statements, update_favorites_statements.
  destruct (fetchone (is_user user_id) (users s)); [| reflexivity].
  destruct (fa_action data); cbn [is_remove].
  - destruct (falsy (fa_title data) || String.eqb (fa_animeId data) EmptyString);
      [reflexivity |].
    destruct (fetchone (is_favorite user_id (fa_animeId data)) (favorites s));
      now rewrite !andb_false_r.
  - rewrite !andb_true_r.
    pose proof (rowcount_nonneg (is_favorite user_id (fa_animeId data))
                                (favorites s)) as Hrc.
    destruct (Z.eqb_spec (rowcount (is_favorite user_id (fa_animeId data))
                                   (favorites s)) 0) as [H0 | H0];
      destruct (Z.gtb_spec (rowcount (is_favorite user_id (fa_animeId data))
                                     (favorites s)) 0);
      (reflexivity || lia).
Qed.

(** The tables after the add of a favorite that was absent and its
    removal: the tables as they were. *)
Lemma add_then_remove_tables user_id add_data anime_id now now' s :
  user_exists user_id s = true ->
  fa_action add_data = add ->
  falsy (fa_title add_data) = false ->
  fa_animeId add_data = anime_id ->
  anime_id <> EmptyString ->
  existsb (is_favorite user_id anime_id) (favorites s) = false ->
  forall title image,
    update_favorites
      user_id (mkFavoriteAction anime_id remove title image) now'
      (snd (update_favorites user_id add_data now s))
    = (Return (favorites_body user_id remove s), s).
Proof.
  intros Hu Hact Ht <- Hid Hnone title image.
  apply user_exists_fetchone in Hu as [u Hu].
  destruct (add_statements_upsert user_id add_data now s Hact Ht Hid)
    as [rc [st [H1 _]]].
  unfold update_favorites at 2. rewrite Hu, H1, Hact.
  cbn [is_remove snd]. rewrite andb_false_r. cbn [snd].
  unfold insert_on_conflict_update. rewrite Hnone.
  unfold update_favorites, update_favorites_statements.
  cbn [users set_favorites favorites fa_action fa_animeId is_remove].
  rewrite Hu, rowcount_app, (rowcount_none _ _ Hnone).
  assert (is_favorite user_id (fa_animeId add_data)
            (mkFavorite user_id (fa_animeId add_data) (fa_title add_data)
                        (fa_image_url add_data) now) = true) as Hnew
      by (unfold is_favorite; simpl; now rewrite !String.eqb_refl).
  rewrite Hnew, (delete_where_app_new _ _ _ Hnone Hnew). cbn.
  now destruct s.
Qed.

(** X4: the list a favorites request returns holds every favorite of the
    user, newest first; its count is the length of the list, the number of
    favorites rows of the user, and the favorites_count of
    GET /stats/{user_id} on the same store. *)
Theorem favorites_list_sorted_complete user_id action s :
  let body := favorites_body user_id action s in
  fr_count body = Z.of_nat (List.length (fr_favorites body))
  /\ fr_count body
     = rowcount (fun r => String.eqb (f_user_id r) user_id) (favorites s)
  /\ (exists st,
         get_user_statistics user_id s = Return st
         /\ favorites_count st = fr_count body)
  /\ sorted_desc fi_addedAt (fr_favorites body)
  /\ (forall item,
         In item (fr_favorites body)
         <-> exists r,
             In r (favorites s) /\ f_user_id r = user_id
             /\ item = mkFavoriteItem
                         (f_anime_id r) (f_title r)
                         (or_default (f_image_url r) "/placeholder.svg")
                         (f_created_at r)).
Proof.
  cbv zeta. unfold favorites_body. cbn [fr_count fr_favorites].
  assert (Z.of_nat
            (List.length
               (map (fun r =>
                       mkFavoriteItem
                         (f_anime_id r) (f_title r)
                         (or_default (f_image_url r) "/placeholder.svg")
                         (f_created_at r))
                    (order_by_desc
                       f_created_at
                       (filter (fun r => String.eqb (f_user_id r) user_id)
                               (favorites s)))))
          = rowcount (fun r => String.eqb (f_user_id r) user_id) (favorites s))
    as Hcount.
  { unfold rowcount. now rewrite length_map, order_by_desc_length. }
  split; [reflexivity |]. split; [exact Hcount |]. split.
  { eexists. split; [reflexivity |]. cbn [favorites_count]. now rewrite Hcount. }
  split.
  { apply (sorted_desc_map _ f_created_at); [reflexivity |].
    apply order_by_desc_sorted. }
  intros item. rewrite in_map_iff. split.
  - intros [r [Hitem Hin]]. apply order_by_desc_in, filter_In in Hin.
    destruct Hin as [Hin Hu]. apply String.eqb_eq in Hu. eauto.
  - intros [r [Hin [Hu Hitem]]]. exists r. split; [auto |].
    apply order_by_desc_in, filter_In. split; [exact Hin |].
    now apply String.eqb_eq.
Qed.

(** ** The level-up loop, once more *)

(** What the loop does to the total experience, whatever the threshold it
    is entered with. *)
Lemma level_up_loop_total new_level new_exp next_level_exp :
  forall l e nx,
    level_up_loop new_level new_exp next_level_exp = (l, e, nx) ->
    (l = new_level /\ e = new_exp)
    \/ (new_level < l
        /\ total_experience l e
           = total_experience new_level new_exp
             + 1000 * new_level - next_level_exp).
Proof.
  funelim (level_up_loop new_level new_exp next_level_exp);
    intros l' e' nx' Hres.
  - inversion Hres; subst. now left.
  - right.
    match goal with
    | IH : forall l e nx, level_up_loop _ _ _ = _ -> _ |- _ =>
        destruct (IH _ _ _ Hres) as [[-> ->] | [Hlt Htot]]
    end; unfold total_experience in *; split; nia.
Qed.

(** From a consistent record the loop runs at most once. *)
Lemma level_up_loop_consistent level exp :
  level_consistent level exp ->
  level_up_loop level (exp + 100) (1000 * level)
  = if exp + 100 >=? 1000 * level
    then (level + 1, exp + 100 - 1000 * level, 1000 * (level + 1))
    else (level, exp + 100, 1000 * level).
Proof.
  intros [Hl [H0 He]]. rewrite level_up_loop_step.
  destruct (Z.geb_spec (exp + 100) (1000 * level)); [| reflexivity].
  rewrite level_up_loop_step.
  destruct (Z.geb_spec (exp + 100 - 1000 * level) (1000 * (level + 1)));
    [lia | reflexivity].
Qed.

Lemma watch_episode_run user_id s u :
  fetchone (is_user user_id) (users s) = Some u ->
  forall l e nx,
    level_up_loop (u_level u) (u_exp u + 100) (1000 * u_level u) = (l, e, nx) ->
    watch_episode user_id s
    = (Return (mkWatchEpisodeResponse l e nx),
       set_users (update_where (is_user user_id) (set_level_exp l e) (users s))
                 s)
    /\ level_exp user_id (snd (watch_episode user_id s)) = Some (l, e).
Proof.
  intros Hu l e nx Hloop. unfold watch_episode. rewrite Hu. cbv zeta.
  rewrite Hloop. split; [reflexivity |]. cbn [snd].
  unfold level_exp. cbn [users set_users].
  now rewrite (fetchone_user_updated _ _ _ _ (is_user_set_level_exp l e _) Hu).
Qed.

(** X5: a watch-episode request adds exactly 100 to the total experience of
    the user (the thresholds of the levels passed plus the experience held),
    however many levels it crosses, and never lowers the level. *)
Theorem watch_episode_conserves_experience user_id s u :
  fetchone (is_user user_id) (users s) = Some u ->
  exists l e,
    level_exp user_id (snd (watch_episode user_id s)) = Some (l, e)
    /\ total_experience l e = total_experience (u_level u) (u_exp u) + 100
    /\ u_level u <= l.
Proof.
  intros Hu.
  destruct (level_up_loop (u_level u) (u_exp u + 100) (1000 * u_level u))
    as [[l e] nx] eqn:E.
  destruct (watch_episode_run user_id s u Hu l e nx E) as [_ Hst].
  exists l, e. split; [exact Hst |].
  destruct (level_up_loop_total _ _ _ _ _ _ E) as [[-> ->] | [Hlt Htot]];
    unfold total_experience in *; split; lia.
Qed.

Lemma watch_episode_conserves_experience_witness :
  exists l e,
    level_exp "u1" (snd (watch_episode "u1" db0)) = Some (l, e)
    /\ total_experience l e = total_experience 1 950 + 100.
Proof.
  destruct (watch_episode_conserves_experience
              "u1" db0 (mkUser "u1" "alice" "a@x.com" "pw" None 1 950 0) eq_refl)
    as [l [e [Hst [Htot _]]]].
  exists l, e. split; [exact Hst | exact Htot].
Defined.

Lemma fetchone_other_user uid other f us :
  other <> uid ->
  (forall r, is_user other (f r) = is_user other r) ->
  fetchone (is_user other) (update_where (is_user uid) f us)
  = fetchone (is_user other) us.
Proof.
  intros Hneq Hf. rewrite fetchone_update_where by exact Hf.
  destruct (fetchone (is_user other) us) as [r |] eqn:E; [| reflexivity].
  apply fetchone_some_holds in E. unfold is_user in *.
  apply String.eqb_eq in E. cbn [option_map].
  destruct (String.eqb_spec (u_user_id r) uid); [congruence | reflexivity].
Qed.

(** X6: watch-episode keeps a user record consistent (level at least 1,
    experience from 0 up to the threshold of the level, excluded), raises
    the level of such a record by one at most, and leaves the record of
    every other user alone. *)
Theorem watch_episode_keeps_consistent user_id s u :
  fetchone (is_user user_id) (users s) = Some u ->
  level_consistent (u_level u) (u_exp u) ->
  exists l e,
    level_exp user_id (snd (watch_episode user_id s)) = Some (l, e)
    /\ level_consistent l e
    /\ (l = u_level u \/ l = u_level u + 1)
    /\ forall other,
        other <> user_id ->
        fetchone (is_user other) (users (snd (watch_episode user_id s)))
        = fetchone (is_user other) (users s).
Proof.
  intros Hu Hc. pose proof (level_up_loop_consistent _ _ Hc) as Hloop.
  destruct Hc as [Hl [H0 He]].
  destruct (Z.geb_spec (u_exp u + 100) (1000 * u_level u)) as [Hup | Hstay];
    destruct (watch_episode_run user_id s u Hu _ _ _ Hloop) as [Hrun Hst];
    eexists _, _; (split; [exact Hst |]);
    (split; [unfold level_consistent; lia |]); (split; [lia |]);
    intros other Hneq; rewrite Hrun; cbn [snd users set_users];
    now apply fetchone_other_user.
Qed.

Lemma watch_episode_keeps_consistent_witness :
  exists l e,
    level_exp "u1" (snd (watch_episode "u1" db2)) = Some (l, e)
    /\ level_consistent l e
    /\ fetchone (is_user "u2") (users (snd (watch_episode "u1" db2)))
       = fetchone (is_user "u2") (users db2).
Proof.
  assert (level_consistent 1 950) as Hc by (unfold level_consistent; lia).
  assert ("u2" <> "u1") as Hneq by discriminate.
  destruct (watch_episode_keeps_consistent
              "u1" db2 (mkUser "u1" "alice" "a@x.com" "pw" None 1 950 0)
              eq_refl Hc)
    as [l [e [Hst [Hcons [_ Hother]]]]].
  exists l, e. split; [exact Hst |]. split; [exact Hcons |].
  exact (Hother "u2" Hneq).
Defined.

(** X7: for a consistent user record, the progress cascade and the
    watch-episode request, each awarding 100 points, store the same level;
    the cascade stores the sum E + 100, and watch-episode stores the same
    sum when the level stays and the sum less the threshold 1000 * L when
    the level rises. *)
Theorem leveling_variants_compare user_id s u progress now :
  fetchone (is_user user_id) (users s) = Some u ->
  level_consistent (u_level u) (u_exp u) ->
  wp_user_id progress = user_id ->
  episodes_stored progress s ->
  cascade_fires progress s ->
  exists l e_cascade e_episode,
    level_exp user_id (snd (update_watch_progress progress now s))
    = Some (l, e_cascade)
    /\ level_exp user_id (snd (watch_episode user_id s)) = Some (l, e_episode)
    /\ e_cascade = u_exp u + 100
    /\ ((l = u_level u /\ e_episode = e_cascade)
        \/ (l = u_level u + 1 /\ e_episode = e_cascade - 1000 * u_level u)).
Proof.
  intros Hu Hc <- Hst Hf.
  assert (user_exists (wp_user_id progress) s = true) as Hex
      by (apply user_exists_fetchone; eauto).
  destruct (update_watch_progress_completes progress now s Hex Hst)
    as [b [s' [Hb [Hrun [_ [_ [Hus _]]]]]]].
  apply Hb in Hf. subst b.
  assert (level_exp (wp_user_id progress)
                    (snd (update_watch_progress progress now s))
          = Some (if u_exp u + 100 >=? u_level u * 1000
                  then u_level u + 1 else u_level u,
                  u_exp u + 100)) as Hcascade.
  { rewrite Hrun. cbn [snd]. unfold level_exp. rewrite Hus.
    now rewrite (fetchone_user_updated _ _ _ _ (is_user_award 100 _) Hu). }
  pose proof (level_up_loop_consistent _ _ Hc) as Hloop.
  rewrite Hcascade.
  replace (u_level u * 1000) with (1000 * u_level u) by lia.
  destruct (u_exp u + 100 >=? 1000 * u_level u);
    destruct (watch_episode_run _ s u Hu _ _ _ Hloop) as [_ Hepisode];
    eexists _, _, _; (split; [reflexivity |]); (split; [exact Hepisode |]);
    (split; [reflexivity |]); [right | left]; split; reflexivity.
Qed.

Lemma leveling_variants_compare_witness :
  level_exp "u1" (snd (update_watch_progress progress0 7 db0)) = Some (2, 1050)
  /\ level_exp "u1" (snd (watch_episode "u1" db0)) = Some (2, 50).
Proof.
  assert (level_consistent 1 950) as Hc by (unfold level_consistent; lia).
  assert (episodes_stored progress0 db0) as Hst
      by (intros e H; discriminate H).
  assert (cascade_fires progress0 db0) as Hf by (right; reflexivity).
  destruct (leveling_variants_compare
              "u1" db0 (mkUser "u1" "alice" "a@x.com" "pw" None 1 950 0)
              progress0 7 eq_refl Hc eq_refl Hst Hf)
    as [l [e1 [e2 [H1 [H2 _]]]]].
  split; reflexivity.
Defined.

(** ** Requests for a user that is not registered *)

(** X8: the three handlers that raise their status 404 inside a [try]
    closed by [except Exception] never answer 404: every error they answer
    with has status 500 and leaves the store as it was, and that is what a
    request for an unregistered user gets. *)
Theorem not_found_leaves_as_500 progress data user_id now s :
  (forall c s',
      update_watch_progress progress now s = (HTTPException c, s') ->
      c = 500 /\ s' = s)
  /\ (forall c s',
         watch_episode user_id s = (HTTPException c, s') -> c = 500 /\ s' = s)
  /\ (forall c s',
         add_recent_anime data now s = (HTTPException c, s') ->
         c = 500 /\ s' = s)
  /\ (user_exists (wp_user_id progress) s = false ->
      update_watch_progress progress now s = (HTTPException 500, s))
  /\ (user_exists user_id s = false ->
      watch_episode user_id s = (HTTPException 500, s))
  /\ (user_exists (ra_user_id data) s = false ->
      add_recent_anime data now s = (HTTPException 500, s)).
Proof.
  repeat split.
  - destruct (update_watch_progress_cases progress now s)
      as [Herr | [u [b [_ Hrun]]]].
    + rewrite (Herr now) in H. now inversion H.
    + rewrite Hrun in H. discriminate.
  - destruct (update_watch_progress_cases progress now s)
      as [Herr | [u [b [_ Hrun]]]].
    + rewrite (Herr now) in H. now inversion H.
    + rewrite Hrun in H. discriminate.
  - unfold watch_episode in H.
    destruct (fetchone (is_user user_id) (users s)); [| now inversion H].
    cbv zeta in H. destruct (level_up_loop _ _ _) as [[? ?] ?]. discriminate.
  - unfold watch_episode in H.
    destruct (fetchone (is_user user_id) (users s)); [| now inversion H].
    cbv zeta in H. destruct (level_up_loop _ _ _) as [[? ?] ?]. discriminate.
  - unfold add_recent_anime in H.
    destruct (fetchone (is_user (ra_user_id data)) (users s));
      [discriminate | now inversion H].
  - unfold add_recent_anime in H.
    destruct (fetchone (is_user (ra_user_id data)) (users s));
      [discriminate | now inversion H].
  - intros H. apply fetchone_none_existsb in H.
    unfold update_watch_progress. now rewrite H.
  - intros H. apply fetchone_none_existsb in H.
    unfold watch_episode. now rewrite H.
  - intros H. apply fetchone_none_existsb in H.
    unfold add_recent_anime. now rewrite H.
Qed.

(** ** Unlocks outside the catalog or for an unregistered user *)

Lemma update_where_none {row : Type} (p : row -> bool) f t :
  existsb p t = false -> update_where p f t = t.
Proof.
  unfold update_where. induction t as [| x t IH]; simpl; [reflexivity |].
  destruct (p x); simpl; [discriminate |]. intros H. now rewrite IH.
Qed.

Lemma set_users_same s : set_users (users s) s = s.
Proof. now destruct s. Qed.

(** X10: the unlock handler does not look the user up: for a user_id that
    is not registered and an achievement of the catalog not yet unlocked
    under that id, it answers success with the exp_reward as exp_gained,
    records the unlock row, and changes no user. *)
Theorem unlock_for_unregistered_user user_id achievement_id a now s :
  user_exists user_id s = false ->
  fetchone (fun a => a_id a =? achievement_id) (achievements s) = Some a ->
  existsb (is_unlock user_id achievement_id) (user_achievements s) = false ->
  exists s1,
    unlock_achievement user_id achievement_id now s
    = (Return (mkUnlockResponse "success" (a_exp_reward a)), s1)
    /\ users s1 = users s
    /\ existsb (is_unlock user_id achievement_id) (user_achievements s1) = true.
Proof.
  intros Hu Ha Hnew. eexists.
  rewrite (unlock_achievement_first _ _ _ _ _ Ha Hnew).
  split; [reflexivity |]. cbn [users set_users user_achievements
                                set_user_achievements].
  split; [now apply update_where_none |].
  now rewrite existsb_app; cbn [existsb]; rewrite is_unlock_refl, orb_true_r.
Qed.

Lemma unlock_for_unregistered_user_witness :
  exists s1,
    unlock_achievement "ghost" 1 7 db0
    = (Return (mkUnlockResponse "success" 100), s1)
    /\ users s1 = users db0.
Proof.
  destruct (unlock_for_unregistered_user
              "ghost" 1 (mkAchievement 1 "First steps" "Watch something" None 100)
              7 db0 eq_refl eq_refl eq_refl)
    as [s1 [Hrun [Hus _]]].
  exists s1. split; [exact Hrun | exact Hus].
Defined.

(** ** The numbers read from watch_progress *)

Lemma NoDup_map_filter {A K : Type} (key : A -> K) (p : A -> bool) t :
  NoDup (map key t) -> NoDup (map key (filter p t)).
Proof.
  induction t as [| x t IH]; simpl; intros Hu; [constructor |].
  inversion Hu as [| ? ? Hx Hu']; subst.
  destruct (p x); simpl; [| auto].
  constructor; [| auto].
  intros Hin. apply Hx. apply in_map_iff in Hin as [y [Hk Hy]].
  apply filter_In in Hy as [Hy _]. rewrite <- Hk. now apply in_map.
Qed.

(** Among the rows of one user the anime ids are as distinct as the
    (user, anime) pairs. *)
Lemma NoDup_anime_of_user user_id t :
  (forall r, In r t -> p_user_id r = user_id) ->
  NoDup (map progress_key t) -> NoDup (map p_anime_id t).
Proof.
  induction t as [| x t IH]; simpl; intros Hall Hu; [constructor |].
  inversion Hu as [| ? ? Hx Hu']; subst.
  constructor; [| apply IH; auto].
  intros Hin. apply Hx. apply in_map_iff in Hin as [y [Hk Hy]].
  apply in_map_iff. exists y. split; [| exact Hy].
  unfold progress_key. rewrite Hk, (Hall y), (Hall x); auto.
Qed.

Lemma count_status_filter st user_id t :
  count_status st user_id t
  = Z.of_nat
      (List.length
         (filter (fun r => Status_eqb (p_status r) st)
                 (filter (fun r => String.eqb (p_user_id r) user_id) t))).
Proof.
  unfold count_status, rowcount. f_equal.
  induction t as [| x t IH]; simpl; [reflexivity |].
  destruct (String.eqb (p_user_id x) user_id); simpl; [| exact IH].
  destruct (Status_eqb (p_status x) st); simpl; now rewrite IH.
Qed.

Lemma count_distinct_anime_unique st user_id t :
  unique_keys progress_key t ->
  count_distinct_anime
    st (filter (fun r => String.eqb (p_user_id r) user_id) t)
  = count_status st user_id t.
Proof.
  intros Hu. rewrite count_status_filter. unfold count_distinct_anime.
  rewrite nodup_fixed_point; [now rewrite length_map |].
  apply (NoDup_anime_of_user user_id).
  - intros r Hin. apply filter_In in Hin as [Hin _].
    apply filter_In in Hin as [_ Hin]. now apply String.eqb_eq.
  - now apply NoDup_map_filter, NoDup_map_filter.
Qed.

(** X11: for a registered user and a watch_progress table without duplicate
    (user, anime) pairs, the statistics of GET /watch-progress/{user_id}
    count the entries of the two lists it returns, agree with the counts of
    GET /user-stats/{user_id}, and report 24 * 60 times the episodes
    watched as the time spent; both lists come newest first. *)
Theorem progress_listing_counts user_id s :
  user_exists user_id s = true ->
  unique_keys progress_key (watch_progress s) ->
  exists body,
    get_user_watch_progress user_id s = Return body
    /\ completed_count (stats body) = Z.of_nat (List.length (completed body))
    /\ watching_count (stats body) = Z.of_nat (List.length (inProgress body))
    /\ completed_count (stats body) = completed_anime (get_user_stats user_id s)
    /\ watching_count (stats body) = watching_anime (get_user_stats user_id s)
    /\ totalEpisodesWatched (stats body)
       = total_episodes_watched (get_user_stats user_id s)
    /\ totalTimeSpent (stats body) = totalEpisodesWatched (stats body) * 24 * 60
    /\ sorted_desc ci_completedAt (completed body)
    /\ sorted_desc ip_lastWatched (inProgress body).
Proof.
  intros Hu Huniq. apply user_exists_fetchone in Hu as [u Hu].
  unfold get_user_watch_progress. rewrite Hu. eexists.
  split; [reflexivity |].
  cbn [stats completed inProgress completed_count watching_count
       totalEpisodesWatched totalTimeSpent get_user_stats completed_anime
       watching_anime total_episodes_watched].
  rewrite !(count_distinct_anime_unique _ _ _ Huniq), !length_map,
    !order_by_desc_length, !count_status_filter.
  repeat (split; [reflexivity |]).
  split; [apply (sorted_desc_map _ p_last_watch_date); [reflexivity |];
          apply order_by_desc_sorted |].
  apply (sorted_desc_map _ p_last_watch_date); [reflexivity |].
  apply order_by_desc_sorted.
Qed.

Lemma progress_listing_counts_witness :
  exists body,
    get_user_watch_progress "u1" db2 = Return body
    /\ completed_count (stats body) = 1
    /\ watching_count (stats body) = 1
    /\ totalEpisodesWatched (stats body) = 15.
Proof.
  assert (unique_keys progress_key (watch_progress db2)) as Huniq.
  { repeat constructor; simpl; intuition discriminate. }
  destruct (progress_listing_counts "u1" db2 eq_refl Huniq)
    as [body [Hrun _]].
  exists body. split; [exact Hrun |].
  vm_compute in Hrun. inversion Hrun. repeat split.
Defined.

(** X12: the four counts of GET /user-stats/{user_id} add up to the number
    of watch_progress rows of the user: every row is counted under exactly
    one status. *)
Theorem user_stats_partition user_id s :
  completed_anime (get_user_stats user_id s)
  + watching_anime (get_user_stats user_id s)
  + planned_anime (get_user_stats user_id s)
  + dropped_anime (get_user_stats user_id s)
  = rowcount (fun r => String.eqb (p_user_id r) user_id) (watch_progress s).
Proof.
  unfold get_user_stats, count_status, rowcount.
  cbn [completed_anime watching_anime planned_anime dropped_anime].
  induction (watch_progress s) as [| x t IH]; [reflexivity |].
  cbn [filter]. destruct (String.eqb (p_user_id x) user_id); cbn [andb];
    [| exact IH].
  destruct (p_status x); cbn [Status_eqb List.length] in *; lia.
Qed.

(** ** POST /watch-status and DELETE /watch-status *)

Lemma status_value_listed st :
  existsb (String.eqb (Status_value st))
          ["planned"; "watching"; "completed"; "dropped"] = true.
Proof. now destruct st. Qed.

Lemma not_falsy_some x : falsy x = false -> exists v, x = Some v /\ v <> EmptyString.
Proof.
  destruct x as [v |]; simpl; [| discriminate].
  intros H. exists v. split; [reflexivity |]. now apply String.eqb_neq.
Qed.

Lemma update_watch_status_accepts user_id data now s :
  falsy (ws_title data) = false ->
  falsy (ws_image_url data) = false ->
  update_watch_status user_id data now s
  = (Return (mkWatchStatusResponse
               "success"
               (count_status
                  COMPLETED user_id
                  (upsert_watch_status user_id data now (watch_progress s)))
               (count_status
                  WATCHING user_id
                  (upsert_watch_status user_id data now (watch_progress s)))),
     set_watch_progress
       (upsert_watch_status user_id data now (watch_progress s)) s).
Proof.
  intros Ht Hi. unfold update_watch_status.
  now rewrite status_value_listed, Ht, Hi.
Qed.

Lemma watch_status_row user_id data now t :
  falsy (ws_image_url data) = false ->
  fetchone (is_progress user_id (ws_animeId data))
           (upsert_watch_status user_id data now t)
  = Some (mkProgress
            user_id (ws_animeId data) (ws_title data) (ws_image_url data)
            (ws_status data) (ws_episodes data)
            (match fetchone (is_progress user_id (ws_animeId data)) t with
             | Some e => p_total_episodes e
             | None => Some 0
             end) now).
Proof.
  intros Hi. apply not_falsy_some in Hi as [i [Hi Hne]].
  unfold upsert_watch_status.
  rewrite fetchone_upsert; [| apply is_progress_refl | intros r; reflexivity].
  rewrite Hi. cbn [COALESCE or_default].
  apply String.eqb_neq in Hne. rewrite Hne.
  destruct (fetchone _ t) as [e |] eqn:E; [| reflexivity].
  apply fetchone_some_holds, is_progress_key in E. unfold progress_key in E.
  inversion E. reflexivity.
Qed.

(** X13: a watch-status request carrying a title and an image is accepted
    whether or not the user is registered; the row of the pair then holds
    the status, the episode count as sent (NULL included), the title, the
    image and the time of the request, with total_episodes 0 for a new row
    and untouched for an old one; the table stays free of duplicate pairs
    and the other tables are not written. *)
Theorem watch_status_upsert user_id data now s :
  falsy (ws_title data) = false ->
  falsy (ws_image_url data) = false ->
  exists body s',
    update_watch_status user_id data now s = (Return body, s')
    /\ fetchone (is_progress user_id (ws_animeId data)) (watch_progress s')
       = Some (mkProgress
                 user_id (ws_animeId data) (ws_title data) (ws_image_url data)
                 (ws_status data) (ws_episodes data)
                 (match fetchone (is_progress user_id (ws_animeId data))
                                 (watch_progress s) with
                  | Some e => p_total_episodes e
                  | None => Some 0
                  end) now)
    /\ (unique_keys progress_key (watch_progress s) ->
        unique_keys progress_key (watch_progress s'))
    /\ users s' = users s /\ recent s' = recent s
    /\ favorites s' = favorites s.
Proof.
  intros Ht Hi. eexists _, _.
  split; [apply (update_watch_status_accepts _ _ _ _ Ht Hi) |].
  cbn [watch_progress set_watch_progress users recent favorites].
  split; [now apply watch_status_row |].
  split; [| auto].
  intros Huniq. apply unique_keys_upsert; [reflexivity | | exact Huniq].
  intros r Hr Hk.
  assert (is_progress user_id (ws_animeId data) r = true)
    by now apply is_progress_key.
  congruence.
Qed.

Lemma watch_status_upsert_witness :
  exists body s',
    update_watch_status
      "ghost"
      (mkWatchStatusUpdate "a1" DROPPED None (Some "Naruto") (Some "/n.png"))
      9 db2
    = (Return body, s')
    /\ option_map p_episodes_watched
         (fetchone (is_progress "ghost" "a1") (watch_progress s'))
       = Some None.
Proof.
  destruct (watch_status_upsert
              "ghost"
              (mkWatchStatusUpdate "a1" DROPPED None (Some "Naruto")
                                   (Some "/n.png"))
              9 db2 eq_refl eq_refl)
    as [body [s' [Hrun [Hrow _]]]].
  exists body, s'. split; [exact Hrun |].
  cbn [ws_animeId] in Hrow. rewrite Hrow. reflexivity.
Defined.

(** X14: a watch-status request fails exactly when its title or its image
    is absent or empty; the failure has status 500, not the 400 the handler
    raises, and writes nothing.  The test on the status value never
    fails. *)
Theorem watch_status_rejects user_id data now s :
  (falsy (ws_title data) = true \/ falsy (ws_image_url data) = true
   <-> update_watch_status user_id data now s = (HTTPException 500, s))
  /\ (forall c s',
         update_watch_status user_id data now s = (HTTPException c, s') ->
         c = 500 /\ s' = s).
Proof.
  unfold update_watch_status. rewrite status_value_listed. cbn [negb].
  destruct (falsy (ws_title data)), (falsy (ws_image_url data)); cbn [orb];
    split;
    try (split; [reflexivity | auto]);
    try (intros c s' H; now inversion H);
    try (split; [intros [H | H]; discriminate | discriminate]);
    try (intros c s' H; discriminate H).
Qed.

(** X15: a delete of watch status always answers "deleted", also when the
    pair had no row; afterwards the pair has no row, every other row is
    still there, a store without the pair is not changed, and deleting
    twice is deleting once. *)
Theorem delete_watch_status_removes user_id anime_id s :
  let s' := snd (delete_watch_status user_id anime_id s) in
  fst (delete_watch_status user_id anime_id s) = Return "deleted"
  /\ fetchone (is_progress user_id anime_id) (watch_progress s') = None
  /\ (forall r,
         In r (watch_progress s')
         <-> In r (watch_progress s) /\ is_progress user_id anime_id r = false)
  /\ (existsb (is_progress user_id anime_id) (watch_progress s) = false ->
      s' = s)
  /\ snd (delete_watch_status user_id anime_id s') = s'.
Proof.
  cbv zeta. unfold delete_watch_status.
  cbn [fst snd watch_progress set_watch_progress].
  assert (existsb (is_progress user_id anime_id)
                  (delete_where (is_progress user_id anime_id)
                                (watch_progress s)) = false) as Hgone.
  { destruct (existsb _ _) eqn:E; [| reflexivity].
    apply existsb_exists in E as [r [Hin Hp]].
    apply filter_In in Hin as [_ Hn]. rewrite Hp in Hn. discriminate. }
  split; [reflexivity |]. split; [now apply fetchone_none_existsb |].
  split.
  { intros r. unfold delete_where. rewrite filter_In, negb_true_iff. tauto. }
  split.
  { intros Hnone. rewrite (delete_where_none _ _ Hnone). now destruct s. }
  now rewrite (delete_where_none _ _ Hgone).
Qed.

(** X16: a watch-status request for a pair without a row, followed by the
    delete of that pair, gives the store back as it was. *)
Theorem watch_status_then_delete_restores user_id data now s :
  falsy (ws_title data) = false ->
  falsy (ws_image_url data) = false ->
  existsb (is_progress user_id (ws_animeId data)) (watch_progress s) = false ->
  snd (delete_watch_status
         user_id (ws_animeId data)
         (snd (update_watch_status user_id data now s)))
  = s.
Proof.
  intros Ht Hi Hnone. rewrite (update_watch_status_accepts _ _ _ _ Ht Hi).
  unfold delete_watch_status, upsert_watch_status, insert_on_conflict_update.
  cbn [snd watch_progress set_watch_progress]. rewrite Hnone.
  rewrite delete_where_app_new;
    [now destruct s | exact Hnone | apply is_progress_refl].
Qed.

Lemma watch_status_then_delete_restores_witness :
  snd (delete_watch_status
         "u1" "a7"
         (snd (update_watch_status
                 "u1"
                 (mkWatchStatusUpdate "a7" PLANNED (Some 0) (Some "Monster")
                                      (Some "/m.png"))
                 9 db2)))
  = db2.
Proof.
  exact (watch_status_then_delete_restores
           "u1"
           (mkWatchStatusUpdate "a7" PLANNED (Some 0) (Some "Monster")
                                (Some "/m.png"))
           9 db2 eq_refl eq_refl eq_refl).
Defined.

(** X17: once a watch-status request has stored a NULL episode count for a
    pair of a registered user, a progress update for that pair ends in
    status 500 and writes nothing, unless it takes the stored status from
    non-completed to completed. *)
Theorem null_episodes_then_progress_fails user_id data progress now now' s :
  user_exists user_id s = true ->
  falsy (ws_title data) = false ->
  falsy (ws_image_url data) = false ->
  ws_episodes data = None ->
  wp_user_id progress = user_id ->
  wp_anime_id progress = ws_animeId data ->
  ws_status data = COMPLETED \/ effective_status progress <> COMPLETED ->
  update_watch_progress
    progress now' (snd (update_watch_status user_id data now s))
  = (HTTPException 500, snd (update_watch_status user_id data now s)).
Proof.
  intros Hu Ht Hi Hnull <- Haid Hcase.
  apply user_exists_fetchone in Hu as [u Hu].
  rewrite (update_watch_status_accepts _ _ _ _ Ht Hi). cbn [snd].
  unfold update_watch_progress.
  cbn [users set_watch_progress watch_progress]. rewrite Hu, Haid.
  rewrite (watch_status_row _ _ _ _ Hi), Hnull.
  cbn [p_status p_episodes_watched]. unfold cascade_condition.
  destruct Hcase as [-> | Hne]; [reflexivity |].
  destruct (Status_eqb (effective_status progress) COMPLETED) eqn:E.
  - apply Status_eqb_eq in E. contradiction.
  - now rewrite andb_false_r.
Qed.

Lemma null_episodes_then_progress_fails_witness :
  fst (update_watch_progress
         (mkWatchProgress "u1" "a7" None None WATCHING 3 None) 10
         (snd (update_watch_status
                 "u1"
                 (mkWatchStatusUpdate "a7" WATCHING None (Some "Monster")
                                      (Some "/m.png"))
                 9 db2)))
  = HTTPException 500.
Proof.
  assert (effective_status (mkWatchProgress "u1" "a7" None None WATCHING 3 None)
          <> COMPLETED) as Hne by discriminate.
  rewrite (null_episodes_then_progress_fails
             "u1"
             (mkWatchStatusUpdate "a7" WATCHING None (Some "Monster")
                                  (Some "/m.png"))
             (mkWatchProgress "u1" "a7" None None WATCHING 3 None)
             9 10 db2 eq_refl eq_refl eq_refl eq_refl eq_refl eq_refl
             (or_intror Hne)).
  reflexivity.
Defined.

(** ** Recent markers *)

Lemma in_upsert_cases {row : Type} (p : row -> bool) new f t r :
  In r (insert_on_conflict_update p new f t) ->
  r = new
  \/ (exists r0, In r0 t /\ p r0 = true /\ r = f r0)
  \/ (In r t /\ p r = false).
Proof.
  unfold insert_on_conflict_update, update_where.
  destruct (existsb p t) eqn:E; intros Hin.
  - apply in_map_iff in Hin as [r0 [Hr0 Hin]].
    destruct (p r0) eqn:E0; [right; left; eauto |]. subst. auto.
  - apply in_app_iff in Hin as [Hin | [Hin | []]]; [| now left].
    right. right. split; [exact Hin |].
    destruct (p r) eqn:Hp; [| reflexivity].
    assert (existsb p t = true) by (apply existsb_exists; eauto).
    congruence.
Qed.

Lemma in_firstn {A : Type} n (l : list A) x : In x (firstn n l) -> In x l.
Proof.
  intros H. rewrite <- (firstn_skipn n l). apply in_app_iff. now left.
Qed.

Lemma fetchone_some_in {row : Type} (p : row -> bool) t r :
  fetchone p t = Some r -> In r t.
Proof. intros H. now apply find_some in H. Qed.

(** X18: GET /recent/{user_id} returns at most 100 markers, all of that
    user, newest first. *)
Theorem recent_list_bounded_sorted user_id s :
  (List.length (get_recent_anime user_id s) <= 100)%nat
  /\ sorted_desc ri_viewed_at (get_recent_anime user_id s)
  /\ forall item,
      In item (get_recent_anime user_id s) ->
      exists r,
        In r (recent s) /\ r_user_id r = user_id
        /\ item = mkRecentItem (r_anime_id r) (r_title r) (r_image_url r)
                               (r_viewed_at r).
Proof.
  unfold get_recent_anime. split; [| split].
  - rewrite length_map, length_firstn. lia.
  - apply (sorted_desc_map _ r_viewed_at); [reflexivity |].
    apply sorted_desc_firstn, order_by_desc_sorted.
  - intros item Hin. apply in_map_iff in Hin as [r [<- Hin]].
    apply in_firstn, order_by_desc_in, filter_In in Hin.
    destruct Hin as [Hin Hu]. apply String.eqb_eq in Hu. eauto.
Qed.

(** X19: when a registered user adds a recent marker at a time later than
    all the markers of that user, GET /recent lists it first, with the title
    and the image of the request, and the table stays free of duplicate
    pairs. *)
Theorem recent_add_listed_first data now s :
  user_exists (ra_user_id data) s = true ->
  (forall r,
      In r (recent s) -> r_user_id r = ra_user_id data -> r_viewed_at r < now) ->
  exists s',
    add_recent_anime data now s = (Return "Recent anime added successfully", s')
    /\ hd_error (get_recent_anime (ra_user_id data) s')
       = Some (mkRecentItem (ra_anime_id data) (Some (ra_title data))
                            (ra_image_url data) now)
    /\ (unique_keys recent_key (recent s) -> unique_keys recent_key (recent s')).
Proof.
  intros Hu Hlater. apply user_exists_fetchone in Hu as [u Hu].
  unfold add_recent_anime. rewrite Hu. eexists. split; [reflexivity |].
  cbn [recent set_recent]. split.
  - unfold get_recent_anime. cbn [recent set_recent].
    set (n := mkRecent (ra_user_id data) (ra_anime_id data)
                       (Some (ra_title data)) (ra_image_url data) now).
    set (mine := filter (fun r => String.eqb (r_user_id r) (ra_user_id data))
                        (upsert_recent_anime data now (recent s))).
    assert (forall r, In r mine -> r = n \/ r_viewed_at r < now) as Hrows.
    { intros r Hin. apply filter_In in Hin as [Hin Hmine].
      apply String.eqb_eq in Hmine.
      apply in_upsert_cases in Hin as [-> | [[r0 [_ [Hp ->]]] | [Hin _]]].
      - now left.
      - left. apply is_recent_key in Hp. unfold recent_key in Hp.
        injection Hp as H1 H2. subst n. cbv beta. now rewrite H1, H2.
      - right. now apply Hlater. }
    assert (In n mine) as Hn.
    { apply filter_In. split; [| apply String.eqb_refl].
      eapply fetchone_some_in. unfold upsert_recent_anime.
      rewrite fetchone_upsert;
        [| apply is_recent_refl | intros r; reflexivity].
      destruct (fetchone _ (recent s)) as [r0 |] eqn:E; [| reflexivity].
      apply fetchone_some_holds, is_recent_key in E. unfold recent_key in E.
      injection E as H1 H2. subst n. now rewrite H1, H2. }
    pose proof (order_by_desc_sorted r_viewed_at mine) as Hsorted.
    destruct (order_by_desc r_viewed_at mine) as [| x l] eqn:E.
    + apply (order_by_desc_in r_viewed_at) in Hn. rewrite E in Hn.
      destruct Hn.
    + cbn [firstn map hd_error].
      assert (In x mine) as Hx
          by (apply (order_by_desc_in r_viewed_at); rewrite E; now left).
      assert (In n (x :: l)) as Hn'
          by (rewrite <- E; now apply order_by_desc_in).
      pose proof (sorted_desc_head_max r_viewed_at x l n Hsorted Hn') as Hmax.
      destruct (Hrows x Hx) as [-> | Hlt]; [reflexivity |].
      subst n. cbn [r_viewed_at] in Hmax. lia.
  - intros Huniq. apply unique_keys_upsert; [reflexivity | | exact Huniq].
    intros r Hr Hk.
    assert (is_recent (ra_user_id data) (ra_anime_id data) r = true)
      by now apply is_recent_key.
    congruence.
Qed.

Lemma recent_add_listed_first_witness :
  exists s',
    add_recent_anime (mkRecentAnime "u1" "a2" "Bleach" None) 9 db2
    = (Return "Recent anime added successfully", s')
    /\ hd_error (get_recent_anime "u1" s')
       = Some (mkRecentItem "a2" (Some "Bleach") None 9).
Proof.
  assert (forall r,
             In r (recent db2) -> r_user_id r = "u1" -> r_viewed_at r < 9)
    as Hlater.
  { intros r [<- | []] _. simpl. lia. }
  destruct (recent_add_listed_first
              (mkRecentAnime "u1" "a2" "Bleach" None) 9 db2 eq_refl Hlater)
    as [s' [Hrun [Hhd _]]].
  exists s'. split; [exact Hrun | exact Hhd].
Defined.

(** X20: when the cascade of a progress update refreshes a marker that is
    already there, the marker keeps the title and the image it had, whatever
    the request carries, and gets the time of the request. *)
Theorem cascade_marker_keeps_title progress now s r0 :
  user_exists (wp_user_id progress) s = true ->
  episodes_stored progress s ->
  cascade_fires progress s ->
  recent_marker progress s = Some r0 ->
  recent_marker progress (snd (update_watch_progress progress now s))
  = Some (mkRecent (wp_user_id progress) (wp_anime_id progress)
                   (r_title r0) (r_image_url r0) now).
Proof.
  intros Hu Hst Hf Hr0.
  destruct (update_watch_progress_completes progress now s Hu Hst)
    as [b [s' [Hb [Hrun [_ [Hrec _]]]]]].
  apply Hb in Hf. subst b. rewrite Hrun. cbn [snd].
  unfold recent_marker in *. rewrite Hrec. unfold upsert_recent.
  rewrite fetchone_upsert; [| apply is_recent_refl | intros r; reflexivity].
  rewrite Hr0. apply fetchone_some_holds, is_recent_key in Hr0.
  unfold recent_key in Hr0. inversion Hr0. reflexivity.
Qed.

Lemma cascade_marker_keeps_title_witness :
  recent_marker
    (mkWatchProgress "u1" "a1" (Some "Naruto Shippuden") None WATCHING 6 None)
    (snd (update_watch_progress
            (mkWatchProgress "u1" "a1" (Some "Naruto Shippuden") None WATCHING
                             6 None)
            9 db2))
  = Some (mkRecent "u1" "a1" (Some "Naruto") None 9).
Proof.
  assert (episodes_stored
            (mkWatchProgress "u1" "a1" (Some "Naruto Shippuden") None WATCHING
                             6 None) db2) as Hst.
  { intros e H. vm_compute in H. inversion H. discriminate. }
  assert (cascade_fires
            (mkWatchProgress "u1" "a1" (Some "Naruto Shippuden") None WATCHING
                             6 None) db2) as Hf
      by (right; reflexivity).
  exact (cascade_marker_keeps_title
           (mkWatchProgress "u1" "a1" (Some "Naruto Shippuden") None WATCHING
                            6 None)
           9 db2 (mkRecent "u1" "a1" (Some "Naruto") None 4)
           eq_refl Hst Hf eq_refl).
Defined.

(** ** GET /user/{user_id}/progress *)

(** X21: what a watch-episode request returns is what GET
    /user/{user_id}/progress reads from the store it leaves; the latter
    answers 404 exactly for an unregistered user. *)
Theorem progress_reads_back_watch_episode user_id s :
  (forall body s',
      watch_episode user_id s = (Return body, s') ->
      get_user_progress user_id s' = Return body)
  /\ (get_user_progress user_id s = HTTPException 404
      <-> user_exists user_id s = false).
Proof.
  split.
  - intros body s'. unfold watch_episode.
    destruct (fetchone (is_user user_id) (users s)) as [u |] eqn:Hu;
      [| discriminate].
    cbv zeta.
    destruct (level_up_loop (u_level u) (u_exp u + 100) (1000 * u_level u))
      as [[l e] nx] eqn:E.
    destruct (level_up_loop_exit _ _ _ _ _ _ E) as [_ Hnx].
    specialize (Hnx eq_refl). intros H. inversion H; subst; clear H.
    unfold get_user_progress. cbn [users set_users].
    rewrite (fetchone_user_updated _ _ _ _ (is_user_set_level_exp l e _) Hu).
    cbn [set_level_exp u_level u_exp]. do 2 f_equal. lia.
  - unfold get_user_progress, user_exists.
    destruct (fetchone (is_user user_id) (users s)) as [u |] eqn:Hu.
    + rewrite (fetchone_some_existsb _ _ _ Hu).
      split; discriminate.
    + apply fetchone_none_existsb in Hu. rewrite Hu. tauto.
Qed.

(** ** Accounts *)

Lemma has_email_new user_id username email password avatar level exp now :
  has_email email (mkUser user_id username email password avatar level exp now)
  = true.
Proof. unfold has_email. simpl. apply String.eqb_refl. Qed.

Lemma register_user_accepts user_id token now username email password sv :
  fetchone (has_email email) (users (tables sv)) = None ->
  existsb (is_user user_id) (users (tables sv)) = false ->
  existsb (is_role user_id) (roles sv) = false ->
  register_user user_id token now username email password sv
  = (Return (mkRegisterResponse token user_id username email role_user 1 0 now),
     mkServer
       (set_users
          (users (tables sv)
           ++ [mkUser user_id username email password None 1 0 now])
          (tables sv))
       (roles sv ++ [mkRole user_id role_user])
       (administrators sv)).
Proof.
  intros He Hu Hr. unfold register_user. now rewrite He, Hu, Hr.
Qed.

(** X22: a registration with a fresh email (and fresh identifiers) returns
    level 1, experience 0 and the role user; a login with the same email and
    password then succeeds with the registered user_id, name and role user,
    a login with any other password is answered with status 401, and the
    progress of the new user reads level 1, 0 points, 1000 to the next
    level. *)
Theorem register_then_login user_id token token' now username email password sv :
  fetchone (has_email email) (users (tables sv)) = None ->
  existsb (is_user user_id) (users (tables sv)) = false ->
  existsb (is_role user_id) (roles sv) = false ->
  exists sv',
    register_user user_id token now username email password sv
    = (Return (mkRegisterResponse token user_id username email role_user 1 0 now),
       sv')
    /\ login token' email password sv'
       = Return (mkLoginResponse user_id username email role_user token')
    /\ (forall wrong,
          wrong <> password -> login token' email wrong sv' = HTTPException 401)
    /\ get_user_progress user_id (tables sv')
       = Return (mkWatchEpisodeResponse 1 0 1000).
Proof.
  intros He Hu Hr. eexists.
  split; [apply (register_user_accepts _ _ _ _ _ _ _ He Hu Hr) |].
  assert (fetchone (has_email email)
                   (users (tables sv)
                    ++ [mkUser user_id username email password None 1 0 now])
          = Some (mkUser user_id username email password None 1 0 now)) as Hrow
      by (apply fetchone_app_new; [exact He | apply has_email_new]).
  split; [| split].
  - unfold login. cbn [tables users set_users roles]. rewrite Hrow.
    cbn [u_password u_user_id u_username u_email].
    rewrite String.eqb_refl. cbn [negb].
    rewrite fetchone_app_new;
      [reflexivity | now apply fetchone_none_existsb | apply String.eqb_refl].
  - intros wrong Hw. unfold login. cbn [tables users set_users]. rewrite Hrow.
    cbn [u_password]. apply String.eqb_neq in Hw. now rewrite Hw.
  - unfold get_user_progress. cbn [tables users set_users].
    rewrite fetchone_app_new;
      [reflexivity | now apply fetchone_none_existsb | apply String.eqb_refl].
Qed.

Lemma register_then_login_witness :
  exists sv',
    register_user "u9" "t1" 5 "carol" "c@x.com" "secret" server0
    = (Return (mkRegisterResponse "t1" "u9" "carol" "c@x.com" role_user 1 0 5),
       sv')
    /\ login "t2" "c@x.com" "secret" sv'
       = Return (mkLoginResponse "u9" "carol" "c@x.com" role_user "t2")
    /\ login "t2" "c@x.com" "guess" sv' = HTTPException 401.
Proof.
  assert ("guess" <> "secret") as Hw by discriminate.
  destruct (register_then_login
              "u9" "t1" "t2" 5 "carol" "c@x.com" "secret" server0
              eq_refl eq_refl eq_refl)
    as [sv' [Hreg [Hlogin [Hwrong _]]]].
  exists sv'. split; [exact Hreg |]. split; [exact Hlogin |].
  exact (Hwrong "guess" Hw).
Defined.

(** X23: once an email is registered, every further registration with that
    email, whatever the name, the password and the identifiers drawn, is
    answered with status 400 and leaves the store as it was. *)
Theorem register_same_email_twice
        user_id token now username email password sv
        user_id' token' now' username' password' :
  fetchone (has_email email) (users (tables sv)) = None ->
  existsb (is_user user_id) (users (tables sv)) = false ->
  existsb (is_role user_id) (roles sv) = false ->
  register_user
    user_id' token' now' username' email password'
    (snd (register_user user_id token now username email password sv))
  = (HTTPException 400,
     snd (register_user user_id token now username email password sv)).
Proof.
  intros He Hu Hr.
  rewrite (register_user_accepts _ _ _ _ _ _ _ He Hu Hr). cbn [snd].
  unfold register_user. cbn [tables users set_users].
  rewrite fetchone_app_new; [reflexivity | exact He | apply has_email_new].
Qed.

Lemma register_same_email_twice_witness :
  fst (register_user
         "u10" "t3" 6 "carol2" "c@x.com" "other"
         (snd (register_user "u9" "t1" 5 "carol" "c@x.com" "secret" server0)))
  = HTTPException 400.
Proof.
  rewrite (register_same_email_twice
             "u9" "t1" 5 "carol" "c@x.com" "secret" server0
             "u10" "t3" 6 "carol2" "other" eq_refl eq_refl eq_refl).
  reflexivity.
Defined.

(** ** Roles and administrators *)

Lemma admin_role_upsert x user_id role R :
  existsb (fun r => is_role x r && is_admin_role (ro_role r))
          (upsert_role user_id role R)
  = if String.eqb user_id x then is_admin_role role
    else existsb (fun r => is_role x r && is_admin_role (ro_role r)) R.
Proof.
  unfold upsert_role, insert_on_conflict_update, update_where, is_role.
  destruct (String.eqb_spec user_id x) as [<- | Hneq].
  - destruct (existsb (fun r => String.eqb (ro_user_id r) user_id) R) eqn:E.
    + induction R as [| r R IH]; [discriminate |]. cbn [existsb map] in *.
      destruct (String.eqb (ro_user_id r) user_id) eqn:Er.
      * cbn [ro_user_id ro_role]. rewrite Er. cbn [andb].
        destruct (is_admin_role role); [reflexivity |]. cbn [orb].
        destruct (existsb (fun r => String.eqb (ro_user_id r) user_id) R) eqn:E';
          [now apply IH |].
        clear IH E. induction R as [| r' R IH]; [reflexivity |].
        cbn [existsb map] in *. apply orb_false_iff in E' as [E1 E2].
        rewrite E1. cbn [andb orb]. rewrite E1. now apply IH.
      * rewrite Er. cbn [andb orb] in *. now apply IH.
    + rewrite existsb_app. cbn [existsb ro_user_id ro_role].
      rewrite String.eqb_refl, orb_false_r. cbn [andb].
      assert (existsb (fun r => String.eqb (ro_user_id r) user_id
                                && is_admin_role (ro_role r)) R = false) as ->.
      { clear - E. induction R as [| r R IH]; [reflexivity |].
        cbn [existsb] in *. apply orb_false_iff in E as [E1 E2].
        now rewrite E1, IH. }
      reflexivity.
  - assert (forall R',
               existsb (fun r => String.eqb (ro_user_id r) x
                                 && is_admin_role (ro_role r))
                       (map (fun r =>
                               if String.eqb (ro_user_id r) user_id
                               then mkRole (ro_user_id r) role else r) R')
               = existsb (fun r => String.eqb (ro_user_id r) x
                                   && is_admin_role (ro_role r)) R') as Hmap.
    { induction R' as [| r R' IH]; [reflexivity |]. cbn [existsb map].
      rewrite IH. f_equal.
      destruct (String.eqb_spec (ro_user_id r) user_id) as [Hr | _];
        [| reflexivity].
      cbn [ro_user_id ro_role].
      destruct (String.eqb_spec (ro_user_id r) x); [congruence | reflexivity]. }
    destruct (existsb (fun r => String.eqb (ro_user_id r) user_id) R).
    + apply Hmap.
    + rewrite existsb_app. cbn [existsb ro_user_id ro_role].
      destruct (String.eqb_spec user_id x); [contradiction |].
      now rewrite !orb_false_r.
Qed.

Lemma administrators_delete x user_id A :
  existsb (is_administrator x) (delete_where (is_administrator user_id) A)
  = if String.eqb user_id x then false else existsb (is_administrator x) A.
Proof.
  unfold delete_where, is_administrator.
  induction A as [| r A IH]; cbn [filter existsb].
  - now destruct (String.eqb user_id x).
  - destruct (String.eqb_spec (ad_user_id r) user_id) as [Hr | Hr];
      cbn [negb existsb]; rewrite IH;
      destruct (String.eqb_spec user_id x) as [Hx | Hx];
      destruct (String.eqb_spec (ad_user_id r) x); try reflexivity; congruence.
Qed.

Lemma administrators_add x user_id now A :
  existsb (is_administrator x)
          (if existsb (is_administrator user_id) A then A
           else A ++ [mkAdministrator user_id 1 now])
  = if String.eqb user_id x then true else existsb (is_administrator x) A.
Proof.
  destruct (String.eqb_spec user_id x) as [<- | Hneq].
  - destruct (existsb (is_administrator user_id) A) eqn:E; [exact E |].
    rewrite existsb_app. cbn [existsb]. unfold is_administrator at 2.
    cbn [ad_user_id]. now rewrite String.eqb_refl, orb_true_r.
  - destruct (existsb (is_administrator user_id) A); [reflexivity |].
    rewrite existsb_app. cbn [existsb]. unfold is_administrator at 2.
    cbn [ad_user_id].
    destruct (String.eqb_spec user_id x); [contradiction |].
    now rewrite !orb_false_r.
Qed.

(** X24: every handler that writes roles or administrators keeps the two
    tables in step: if the administrators are the users whose role is admin
    before a registration, a role update, an administrator setup or a
    reset, accepted or refused, they are so afterwards. *)
Theorem admins_match_roles_kept sv :
  admins_match_roles sv ->
  (forall user_id token now username email password,
      admins_match_roles
        (snd (register_user user_id token now username email password sv)))
  /\ (forall user_id role now,
         admins_match_roles (snd (update_admin_user_role user_id role now sv)))
  /\ (forall setup, admins_match_roles (snd (reset_admin setup sv)))
  /\ (forall lower setup now,
         admins_match_roles (snd (setup_admin lower setup now sv))).
Proof.
  intros Hinv. split; [| split; [| split]].
  - intros user_id token now username email password. unfold register_user.
    destruct (fetchone (has_email email) (users (tables sv)));
      [exact Hinv |].
    destruct (existsb (is_user user_id) (users (tables sv))); [exact Hinv |].
    destruct (existsb (is_role user_id) (roles sv)); [exact Hinv |].
    intros x. cbn [snd roles administrators]. rewrite existsb_app.
    cbn [existsb ro_role is_admin_role]. rewrite andb_false_r, !orb_false_r.
    apply Hinv.
  - intros user_id role now. unfold update_admin_user_role.
    destruct (fetchone (is_user user_id) (users (tables sv)));
      [| exact Hinv].
    intros x. cbn [snd roles administrators]. rewrite admin_role_upsert.
    destruct role; cbn [is_admin_role].
    + rewrite administrators_delete.
      destruct (String.eqb user_id x); [tauto | apply Hinv].
    + rewrite administrators_add.
      destruct (String.eqb user_id x); [tauto | apply Hinv].
  - intros setup. unfold reset_admin.
    destruct (negb (String.eqb (as_setupKey setup) SETUP_KEY)); [exact Hinv |].
    intros x. cbn [snd roles administrators existsb].
    split; [discriminate |]. intros H. exfalso.
    apply existsb_exists in H as [r [Hin Hr]].
    unfold update_where in Hin. apply in_map_iff in Hin as [r0 [<- _]].
    cbn [ro_role is_admin_role] in Hr. now rewrite andb_false_r in Hr.
  - intros lower setup now. unfold setup_admin.
    destruct (negb (String.eqb (as_setupKey setup) SETUP_KEY)); [exact Hinv |].
    destruct (fetchone (has_email (lower (as_email setup)))
                       (users (tables sv))) as [user |]; [| exact Hinv].
    destruct (Z.gtb_spec (Z.of_nat (List.length (administrators sv))) 0)
      as [_ | Hzero]; [exact Hinv |].
    assert (administrators sv = []) as Hnil
        by (destruct (administrators sv); [reflexivity | simpl in Hzero; lia]).
    intros x. cbn [snd roles administrators]. rewrite admin_role_upsert, Hnil.
    cbn [app existsb]. unfold is_administrator. cbn [ad_user_id].
    rewrite orb_false_r.
    destruct (String.eqb_spec (u_user_id user) x) as [Hx | Hx]; [tauto |].
    specialize (Hinv x). rewrite Hnil in Hinv. exact Hinv.
Qed.

Lemma admins_match_roles_kept_witness :
  admins_match_roles
    (snd (update_admin_user_role "u1" role_admin 9 server0)).
Proof.
  assert (admins_match_roles server0) as Hinv.
  { intros x. unfold server0. cbn [administrators roles existsb ro_role
                                   is_admin_role].
    now rewrite andb_false_r. }
  exact (proj1 (proj2 (admins_match_roles_kept server0 Hinv))
               "u1" role_admin 9).
Defined.

(** X25: after a role update for a registered user, the admin check of that
    user says whether the new role is admin, a login of that user reports
    the new role, and no administrators row of another user is added or
    removed; for an unregistered user the update is answered with status
    404 and writes nothing. *)
Theorem role_update_read_back user_id role now sv :
  (forall u,
      fetchone (is_user user_id) (users (tables sv)) = Some u ->
      exists sv',
        update_admin_user_role user_id role now sv
        = (Return "Role updated successfully", sv')
        /\ check_admin_status user_id sv' = is_admin_role role
        /\ existsb (is_administrator user_id) (administrators sv')
           = is_admin_role role
        /\ tables sv' = tables sv
        /\ (forall token,
              fetchone (has_email (u_email u)) (users (tables sv)) = Some u ->
              login token (u_email u) (u_password u) sv'
              = Return (mkLoginResponse (u_user_id u) (u_username u)
                                        (u_email u) role token))
        /\ (forall other,
              other <> user_id ->
              existsb (is_administrator other) (administrators sv')
              = existsb (is_administrator other) (administrators sv)))
  /\ (user_exists user_id (tables sv) = false ->
      update_admin_user_role user_id role now sv = (HTTPException 404, sv)).
Proof.
  split.
  - intros u Hu. unfold update_admin_user_role. rewrite Hu. eexists.
    split; [reflexivity |].
    assert (fetchone (is_role user_id) (upsert_role user_id role (roles sv))
            = Some (mkRole user_id role)) as Hrole.
    { unfold upsert_role. rewrite fetchone_upsert.
      - destruct (fetchone (is_role user_id) (roles sv)) as [r |] eqn:E;
          [| reflexivity].
        apply fetchone_some_holds in E. unfold is_role in E.
        apply String.eqb_eq in E. now rewrite E.
      - apply String.eqb_refl.
      - intros r. reflexivity. }
    assert (forall x,
               existsb (is_administrator x)
                       (if is_admin_role role
                        then if existsb (is_administrator user_id)
                                        (administrators sv)
                             then administrators sv
                             else administrators sv
                                  ++ [mkAdministrator user_id 1 now]
                        else delete_where (is_administrator user_id)
                                          (administrators sv))
               = if String.eqb user_id x then is_admin_role role
                 else existsb (is_administrator x) (administrators sv))
      as Hadm.
    { intros x. destruct role; cbn [is_admin_role].
      - apply administrators_delete.
      - apply administrators_add. }
    split; [| split; [| split; [reflexivity | split]]].
    + unfold check_admin_status. cbn [tables roles]. now rewrite Hu, Hrole.
    + cbn [administrators]. now rewrite Hadm, String.eqb_refl.
    + intros token He. unfold login. cbn [tables roles]. rewrite He.
      rewrite String.eqb_refl. cbn [negb].
      pose proof (fetchone_some_holds _ _ _ Hu) as Hid.
      unfold is_user in Hid. apply String.eqb_eq in Hid.
      now rewrite Hid, Hrole.
    + intros other Hneq. cbn [administrators]. rewrite Hadm.
      destruct (String.eqb_spec user_id other); [congruence | reflexivity].
  - intros H. apply fetchone_none_existsb in H.
    unfold update_admin_user_role. now rewrite H.
Qed.

(** X26: an administrator setup with the right key, for an email whose
    lowercased form is the email of a registered user, when there is no
    administrator yet, is accepted: it makes that user the one
    administrator with the role admin.  Every later setup with the right
    key is refused and writes nothing: with status 400 when the lowercased
    email is registered, with status 404 when it is not. *)
Theorem setup_admin_only_once lower setup now sv user :
  as_setupKey setup = SETUP_KEY ->
  fetchone (has_email (lower (as_email setup))) (users (tables sv)) = Some user ->
  administrators sv = [] ->
  exists sv',
    setup_admin lower setup now sv
    = (Return "Administrator setup completed", sv')
    /\ administrators sv' = [mkAdministrator (u_user_id user) 1 now]
    /\ fetchone (is_role (u_user_id user)) (roles sv')
       = Some (mkRole (u_user_id user) role_admin)
    /\ tables sv' = tables sv
    /\ forall setup' now',
        as_setupKey setup' = SETUP_KEY ->
        setup_admin lower setup' now' sv'
        = (HTTPException
             (match fetchone (has_email (lower (as_email setup')))
                             (users (tables sv)) with
              | Some _ => 400
              | None => 404
              end),
           sv').
Proof.
  intros Hkey Hu Hnil. unfold setup_admin at 1.
  rewrite Hkey, String.eqb_refl, Hu, Hnil. cbn [negb List.length Z.of_nat].
  eexists. split; [reflexivity |]. split; [reflexivity |]. split.
  - cbn [roles]. unfold upsert_role. rewrite fetchone_upsert.
    + destruct (fetchone (is_role (u_user_id user)) (roles sv)) as [r |] eqn:E;
        [| reflexivity].
      apply fetchone_some_holds in E. unfold is_role in E.
      apply String.eqb_eq in E. now rewrite E.
    + apply String.eqb_refl.
    + intros r. reflexivity.
  - split; [reflexivity |].
    intros setup' now' Hkey'. unfold setup_admin.
    rewrite Hkey', String.eqb_refl. cbn [negb tables].
    now destruct (fetchone (has_email (lower (as_email setup')))
                           (users (tables sv))).
Qed.

Lemma setup_admin_only_once_witness :
  exists sv',
    setup_admin (fun e => e) (mkAdminSetup SETUP_KEY "a@x.com") 9 server0
    = (Return "Administrator setup completed", sv')
    /\ setup_admin (fun e => e) (mkAdminSetup SETUP_KEY "a@x.com") 10 sv'
       = (HTTPException 400, sv')
    /\ setup_admin (fun e => e) (mkAdminSetup SETUP_KEY "A@x.com") 10 sv'
       = (HTTPException 404, sv').
Proof.
  destruct (setup_admin_only_once
              (fun e => e) (mkAdminSetup SETUP_KEY "a@x.com") 9 server0
              (mkUser "u1" "alice" "a@x.com" "pw" None 1 950 0)
              eq_refl eq_refl eq_refl)
    as [sv' [Hrun [_ [_ [_ Hlater]]]]].
  exists sv'. split; [exact Hrun |]. split.
  - exact (Hlater (mkAdminSetup SETUP_KEY "a@x.com") 10 eq_refl).
  - exact (Hlater (mkAdminSetup SETUP_KEY "A@x.com") 10 eq_refl).
Defined.

(** X27: a reset with the right key empties the administrators and gives
    every role row the role user, so that the admin check is false for
    every user, GET /admin/stats counts no admin and as many users as there
    are role rows, and a setup is possible again; with another key it is
    answered with status 401 and writes nothing. *)
Theorem reset_admin_clears setup sv :
  (as_setupKey setup = SETUP_KEY ->
   exists sv',
     reset_admin setup sv = (Return "Administrator reset completed", sv')
     /\ administrators sv' = []
     /\ (forall user_id, check_admin_status user_id sv' = false)
     /\ get_admin_stats sv' = (Z.of_nat (List.length (roles sv)), 0)
     /\ tables sv' = tables sv)
  /\ (as_setupKey setup <> SETUP_KEY ->
      reset_admin setup sv = (HTTPException 401, sv)).
Proof.
  split.
  - intros Hkey. unfold reset_admin. rewrite Hkey, String.eqb_refl.
    cbn [negb]. eexists. split; [reflexivity |]. split; [reflexivity |].
    assert (forall r,
               In r (update_where (fun _ => true)
                                  (fun r => mkRole (ro_user_id r) role_user)
                                  (roles sv)) ->
               is_admin_role (ro_role r) = false) as Hall.
    { intros r Hin. unfold update_where in Hin.
      apply in_map_iff in Hin as [r0 [<- _]]. reflexivity. }
    split; [| split; [| reflexivity]].
    + intros user_id. unfold check_admin_status. cbn [tables roles].
      destruct (fetchone (is_user user_id) (users (tables sv)));
        [| reflexivity].
      destruct (fetchone (is_role user_id) _) as [r |] eqn:E; [| reflexivity].
      apply Hall. eapply fetchone_some_in; eauto.
    + unfold get_admin_stats, rowcount, update_where. cbn [roles].
      assert (forall R,
                 filter (fun r => negb (is_admin_role (ro_role r)))
                        (map (fun r => mkRole (ro_user_id r) role_user) R)
                 = map (fun r => mkRole (ro_user_id r) role_user) R) as Hu.
      { induction R as [| r R IH]; [reflexivity |].
        cbn [map filter ro_role is_admin_role negb]. now rewrite IH. }
      assert (forall R,
                 filter (fun r => is_admin_role (ro_role r))
                        (map (fun r => mkRole (ro_user_id r) role_user) R)
                 = []) as Ha.
      { induction R as [| r R IH]; [reflexivity |].
        cbn [map filter ro_role is_admin_role]. exact IH. }
      now rewrite Hu, Ha, length_map.
  - intros Hkey. apply String.eqb_neq in Hkey. unfold reset_admin.
    now rewrite Hkey.
Qed.

(** ** What a progress update and an unlock leave alone, and what they show *)

Lemma fetchone_upsert_disjoint {row : Type} (p q : row -> bool) new f t :
  q new = false -> (forall r, q (f r) = q r) ->
  (forall r, p r = true -> q r = false) ->
  fetchone q (insert_on_conflict_update p new f t) = fetchone q t.
Proof.
  intros Hnew Hf Hpq. unfold insert_on_conflict_update.
  destruct (existsb p t).
  - rewrite fetchone_update_where by auto.
    destruct (fetchone q t) as [e |] eqn:E; simpl; [| reflexivity].
    destruct (p e) eqn:Hp; [| reflexivity].
    apply fetchone_some_holds in E. rewrite (Hpq _ Hp) in E. discriminate.
  - now apply fetchone_app_other.
Qed.

Lemma is_progress_other user_id anime_id user_id' anime_id' r :
  (user_id', anime_id') <> (user_id, anime_id) ->
  is_progress user_id anime_id r = true ->
  is_progress user_id' anime_id' r = false.
Proof.
  intros Hneq Hp. apply is_progress_key in Hp.
  destruct (is_progress user_id' anime_id' r) eqn:E; [| reflexivity].
  apply is_progress_key in E. congruence.
Qed.

(** X28: a progress update, accepted or refused, leaves the progress row of
    every other (user, anime) pair, the level and experience of every other
    user, the favorites, the catalog and the unlocks as they were. *)
Theorem progress_update_frame progress now s :
  let s' := snd (update_watch_progress progress now s) in
  (forall user_id anime_id,
      (user_id, anime_id) <> (wp_user_id progress, wp_anime_id progress) ->
      fetchone (is_progress user_id anime_id) (watch_progress s')
      = fetchone (is_progress user_id anime_id) (watch_progress s))
  /\ (forall other,
         other <> wp_user_id progress ->
         fetchone (is_user other) (users s') = fetchone (is_user other) (users s))
  /\ favorites s' = favorites s
  /\ achievements s' = achievements s
  /\ user_achievements s' = user_achievements s.
Proof.
  cbv zeta.
  destruct (update_watch_progress_cases progress now s)
    as [Herr | [u [b [_ Hrun]]]].
  - rewrite (Herr now). cbn [snd]. auto.
  - rewrite Hrun. cbn [snd].
    assert (forall user_id anime_id,
               (user_id, anime_id) <> (wp_user_id progress, wp_anime_id progress) ->
               fetchone (is_progress user_id anime_id)
                        (upsert_watch_progress
                           progress (effective_status progress)
                           (written_title progress s)
                           (written_image_url progress s) now (watch_progress s))
               = fetchone (is_progress user_id anime_id) (watch_progress s))
      as Hwp.
    { intros user_id anime_id Hneq. unfold upsert_watch_progress.
      apply fetchone_upsert_disjoint.
      - destruct (is_progress user_id anime_id _) eqn:E; [| reflexivity].
        apply is_progress_key in E. unfold progress_key in E.
        cbn [p_user_id p_anime_id] in E. congruence.
      - intros r. reflexivity.
      - intros r. now apply is_progress_other. }
    destruct b;
      cbn [watch_progress users favorites achievements user_achievements
           set_users set_recent set_watch_progress];
      (split; [exact Hwp |]); (split; [| auto]); intros other Hneq;
      [now apply fetchone_other_user | reflexivity].
Qed.

(** X29: after the first unlock of an achievement of the catalog, GET
    /user/{user_id}/achievements lists it for that user with its reward and
    the time of the unlock, and lists for every other user what it listed
    before. *)
Theorem unlock_then_listed user_id achievement_id a now s :
  fetchone (fun a => a_id a =? achievement_id) (achievements s) = Some a ->
  existsb (is_unlock user_id achievement_id) (user_achievements s) = false ->
  In (mkUserAchievementItem achievement_id (a_name a) (a_description a)
                            (a_icon_path a) (a_exp_reward a) now)
     (get_user_achievements
        user_id (snd (unlock_achievement user_id achievement_id now s)))
  /\ forall other,
      other <> user_id ->
      get_user_achievements
        other (snd (unlock_achievement user_id achievement_id now s))
      = get_user_achievements other s.
Proof.
  intros Ha Hnew. rewrite (unlock_achievement_first _ _ _ _ _ Ha Hnew).
  cbn [snd]. unfold get_user_achievements.
  cbn [achievements user_achievements set_users set_user_achievements].
  pose proof (fetchone_some_in _ _ _ Ha) as Hin.
  pose proof (fetchone_some_holds _ _ _ Ha) as Hid. cbv beta in Hid.
  apply Z.eqb_eq in Hid. split.
  - apply in_flat_map. exists a. split; [exact Hin |].
    rewrite filter_app, map_app. apply in_app_iff. right.
    cbn [filter ua_achievement_id ua_user_id].
    rewrite Hid, Z.eqb_refl, String.eqb_refl. cbn [andb map ua_unlocked_at].
    now left.
  - intros other Hneq. apply flat_map_ext. intros x.
    rewrite filter_app. cbn [filter ua_achievement_id ua_user_id].
    destruct (String.eqb_spec user_id other); [congruence |].
    now rewrite andb_false_r, app_nil_r.
Qed.

Lemma unlock_then_listed_witness :
  In (mkUserAchievementItem 1 "First steps" "Watch something" None 100 7)
     (get_user_achievements "u1" (snd (unlock_achievement "u1" 1 7 db0))).
Proof.
  destruct (unlock_then_listed
              "u1" 1 (mkAchievement 1 "First steps" "Watch something" None 100)
              7 db0 eq_refl eq_refl)
    as [Hin _].
  exact Hin.
Defined.

(** ** GET /watched-list/{user_id} *)

Lemma filter_user_status st user_id (t : list watch_progress_row) :
  filter (fun r => String.eqb (p_user_id r) user_id
                   && Status_eqb (p_status r) st) t
  = filter (fun r => Status_eqb (p_status r) st)
           (filter (fun r => String.eqb (p_user_id r) user_id) t).
Proof.
  induction t as [| x t IH]; simpl; [reflexivity |].
  destruct (String.eqb (p_user_id x) user_id); simpl; [| exact IH].
  destruct (Status_eqb (p_status x) st); now rewrite IH.
Qed.

(** X30: GET /watched-list returns the completed rows of the user newest
    first, as many as the completed count of GET /user-stats; for a
    registered user they are the completed titles of GET /watch-progress,
    the same anime in the same order with the same title, image, episodes
    and date. *)
Theorem watched_list_matches_completed user_id s :
  exists watched,
    get_watched_list user_id s = Return watched
    /\ Z.of_nat (List.length watched) = completed_anime (get_user_stats user_id s)
    /\ sorted_desc w_completed_at watched
    /\ (user_exists user_id s = true ->
        exists body,
          get_user_watch_progress user_id s = Return body
          /\ map (fun w => (w_animeId w, w_title w, w_image_url w, w_episodes w,
                            w_completed_at w)) watched
             = map (fun c => (ci_animeId c, ci_title c, ci_image_url c,
                              ci_episodes c, ci_completedAt c))
                   (completed body)).
Proof.
  unfold get_watched_list. eexists. split; [reflexivity |]. split; [| split].
  - rewrite length_map, order_by_desc_length.
    cbn [get_user_stats completed_anime]. unfold count_status, rowcount.
    reflexivity.
  - apply (sorted_desc_map _ p_last_watch_date); [reflexivity |].
    apply order_by_desc_sorted.
  - intros Hu. apply user_exists_fetchone in Hu as [u Hu].
    unfold get_user_watch_progress. rewrite Hu. eexists.
    split; [reflexivity |]. cbn [completed].
    now rewrite !map_map, filter_user_status.
Qed.

(** * Rows with a NULL episode count *)

(** What the handler has done when it answers. *)
Lemma update_watch_progress_answer progress now s body s' :
  update_watch_progress progress now s = (Return body, s') ->
  exists u b,
    fetchone (is_user (wp_user_id progress)) (users s) = Some u
    /\ cascade_condition
         (previous_status progress s) (effective_status progress)
         (wp_episodes_watched progress)
         (match previous_row progress s with
          | Some e => p_episodes_watched e
          | None => Some 0
          end) = Some b
    /\ body = mkProgressResponse "Progress updated successfully"
                                 (effective_status progress)
    /\ watch_progress s'
       = upsert_watch_progress progress (effective_status progress)
                               (written_title progress s)
                               (written_image_url progress s) now
                               (watch_progress s)
    /\ recent s'
       = (if b
          then upsert_recent (wp_user_id progress) (wp_anime_id progress)
                             (written_title progress s)
                             (written_image_url progress s) now (recent s)
          else recent s)
    /\ users s'
       = (if b
          then update_where (is_user (wp_user_id progress)) (award_exp 100)
                            (users s)
          else users s).
Proof.
  unfold update_watch_progress, written_title, written_image_url,
    previous_status, previous_row.
  destruct (fetchone (is_user (wp_user_id progress)) (users s)) as [u |];
    [| discriminate].
  cbv zeta.
  destruct (fetchone (is_progress (wp_user_id progress) (wp_anime_id progress))
                     (watch_progress s)) as [e |]; cbn [option_map];
    match goal with
    | |- context [cascade_condition ?a ?b ?c ?d] =>
        destruct (cascade_condition a b c d) as [[|] |]
    end;
    intros H; inversion H; subst; clear H;
    [exists u, true | exists u, false | exists u, true | exists u, false];
    repeat split.
Qed.

(** The condition of the source, when it has a value, is the one of the
    specification. *)
Lemma cascade_condition_sound progress s b :
  cascade_condition
    (previous_status progress s) (effective_status progress)
    (wp_episodes_watched progress)
    (match previous_row progress s with
     | Some e => p_episodes_watched e
     | None => Some 0
     end) = Some b ->
  (b = true <-> cascade_fires progress s).
Proof.
  unfold cascade_condition, cascade_fires, previous_status, previous_episodes.
  destruct (previous_row progress s) as [e |]; cbn [option_map].
  - destruct (Status_eqb (p_status e) COMPLETED) eqn:Eo;
      destruct (Status_eqb (effective_status progress) COMPLETED) eqn:Ee;
      cbn [negb andb].
    + destruct (p_episodes_watched e) as [n |]; [| discriminate].
      intros H. inversion H; subst; clear H. cbn [or_zero].
      apply Status_eqb_eq in Eo. rewrite Z.gtb_ltb, Z.ltb_lt, Eo.
      split; [auto | intros [[H _] | H]; [congruence | exact H]].
    + destruct (p_episodes_watched e) as [n |]; [| discriminate].
      intros H. inversion H; subst; clear H. cbn [or_zero].
      apply Status_eqb_eq in Eo. rewrite Z.gtb_ltb, Z.ltb_lt, Eo.
      split; [auto | intros [[H _] | H]; [congruence | exact H]].
    + intros H. inversion H; subst; clear H. apply Status_eqb_eq in Ee.
      split; [| reflexivity]. intros _. left. split; [| exact Ee].
      intros H. inversion H as [H']. rewrite H' in Eo. discriminate.
    + destruct (p_episodes_watched e) as [n |]; [| discriminate].
      intros H. inversion H; subst; clear H. cbn [or_zero].
      rewrite Z.gtb_ltb, Z.ltb_lt.
      split; [auto | intros [[_ H] | H]; [| exact H]].
      rewrite H in Ee. discriminate.
  - destruct (Status_eqb (effective_status progress) COMPLETED) eqn:Ee;
      cbn [negb andb]; intros H; inversion H; subst; clear H.
    + apply Status_eqb_eq in Ee. split; [| reflexivity]. intros _. left.
      split; [discriminate | exact Ee].
    + rewrite Z.gtb_ltb, Z.ltb_lt.
      split; [auto | intros [[_ H] | H]; [| exact H]].
      rewrite H in Ee. discriminate.
Qed.

(** Whenever the handler answers, the status rule holds of its answer and
    of the row it stored. *)
Lemma status_rule_when_answered progress now s body s' :
  update_watch_progress progress now s = (Return body, s') ->
  option_map p_status (progress_row progress s') = Some (pr_status body)
  /\ (total_reached progress -> pr_status body = COMPLETED)
  /\ (~ total_reached progress -> pr_status body = wp_status progress).
Proof.
  intros H.
  destruct (update_watch_progress_answer _ _ _ _ _ H)
    as [u [b [_ [_ [-> [Hwp _]]]]]].
  cbn [pr_status]. split; [| split].
  - unfold progress_row. rewrite Hwp, progress_row_after_upsert.
    now destruct (fetchone _ (watch_progress s)).
  - apply effective_status_reached.
  - apply effective_status_verbatim.
Qed.

(** Whenever the handler answers, the cascade has happened exactly when the
    condition of the specification holds. *)
Lemma cascade_when_answered progress now s body s' :
  update_watch_progress progress now s = (Return body, s') ->
  (cascade_fires progress s ->
   users s'
   = update_where (is_user (wp_user_id progress)) (award_exp 100) (users s)
   /\ recent s'
      = upsert_recent (wp_user_id progress) (wp_anime_id progress)
                      (written_title progress s) (written_image_url progress s)
                      now (recent s))
  /\ (~ cascade_fires progress s -> users s' = users s /\ recent s' = recent s).
Proof.
  intros H.
  destruct (update_watch_progress_answer _ _ _ _ _ H)
    as [u [b [_ [Hc [_ [_ [Hrec Hus]]]]]]].
  apply cascade_condition_sound in Hc. destruct b.
  - split; [auto |]. intros Hn. exfalso. apply Hn. now apply Hc.
  - split; [| auto]. intros Hf. apply Hc in Hf. discriminate.
Qed.

(** The request that finds a NULL count and does not take the status from
    non-completed to completed: [progress.episodes_watched > old_episodes]
    raises, the handler answers status 500, nothing is written. *)
Lemma null_count_is_error progress now s e :
  user_exists (wp_user_id progress) s = true ->
  previous_row progress s = Some e ->
  p_episodes_watched e = None ->
  p_status e = COMPLETED \/ effective_status progress <> COMPLETED ->
  update_watch_progress progress now s = (HTTPException 500, s).
Proof.
  intros Hu He Hnull Hcase. apply user_exists_fetchone in Hu as [u Hu].
  unfold update_watch_progress, previous_row in *. rewrite Hu, He, Hnull.
  unfold cascade_condition.
  destruct Hcase as [-> | Hne]; [reflexivity |].
  destruct (Status_eqb (effective_status progress) COMPLETED) eqn:E.
  - apply Status_eqb_eq in E. contradiction.
  - now rewrite andb_false_r.
Qed.

(** C1: where the claim fails.  POST /watch-status with [episodes: null]
    leaves the pair (u1, a7) with a NULL count.  A progress update that plans
    the title should store and return 'planned': the handler answers status
    500 and the row stays 'watching'.  A progress update that reaches the
    total on the completed row should return 'completed': the handler
    answers status 500. *)
Theorem status_rule_breaks_on_null_count :
  user_exists "u1" db_null_watching = true
  /\ option_map (fun e => (p_status e, p_episodes_watched e))
                (previous_row progress_planned db_null_watching)
     = Some (WATCHING, None)
  /\ ~ total_reached progress_planned
  /\ update_watch_progress progress_planned 10 db_null_watching
     = (HTTPException 500, db_null_watching)
  /\ option_map p_status
       (progress_row
          progress_planned
          (snd (update_watch_progress progress_planned 10 db_null_watching)))
     = Some WATCHING
  /\ option_map (fun e => (p_status e, p_episodes_watched e))
                (previous_row progress_reaching db_null_completed)
     = Some (COMPLETED, None)
  /\ total_reached progress_reaching
  /\ update_watch_progress progress_reaching 10 db_null_completed
     = (HTTPException 500, db_null_completed).
Proof.
  split; [reflexivity |]. split; [reflexivity |]. split.
  { intros [total [H _]]. discriminate H. }
  split; [reflexivity |]. split; [reflexivity |]. split; [reflexivity |].
  split; [| reflexivity].
  exists 12. cbn. repeat split; lia.
Qed.

(** C2: where the claim fails.  On the pair (u1, a7) with a NULL count and
    the status 'watching', a progress update that reports 3 episodes meets
    condition (b) of the cascade, and one that reports 0 meets neither
    condition; the handler answers both with status 500: no marker, no
    experience, and not even the progress row is updated. *)
Theorem cascade_breaks_on_null_count :
  user_exists "u1" db_null_watching = true
  /\ option_map (fun e => (p_status e, p_episodes_watched e))
                (previous_row progress_three db_null_watching)
     = Some (WATCHING, None)
  /\ cascade_fires progress_three db_null_watching
  /\ update_watch_progress progress_three 10 db_null_watching
     = (HTTPException 500, db_null_watching)
  /\ recent_marker
       progress_three
       (snd (update_watch_progress progress_three 10 db_null_watching))
     = None
  /\ level_exp "u1"
               (snd (update_watch_progress progress_three 10 db_null_watching))
     = Some (1, 950)
  /\ option_map p_episodes_watched
       (progress_row
          progress_three
          (snd (update_watch_progress progress_three 10 db_null_watching)))
     = Some None
  /\ ~ cascade_fires progress_planned db_null_watching
  /\ update_watch_progress progress_planned 10 db_null_watching
     = (HTTPException 500, db_null_watching).
Proof.
  split; [reflexivity |]. split; [reflexivity |]. split.
  { right. reflexivity. }
  split; [reflexivity |]. split; [reflexivity |]. split; [reflexivity |].
  split; [reflexivity |]. split; [| reflexivity].
  intros [[_ H] | H]; [discriminate H |].
  vm_compute in H. discriminate H.
Qed.

(** * The shared connection *)

Lemma idle_connection c : in_transaction c = false -> c = idle (committed c).
Proof.
  destruct c as [s [p |]]; cbn; [discriminate | reflexivity].
Qed.

(** On a connection outside a transaction the favorites handlers do what
    they do on the tables, and leave the connection outside a
    transaction. *)
Lemma conn_update_favorites_idle user_id data now s :
  conn_update_favorites user_id data now (idle s)
  = (fst (update_favorites user_id data now s),
     idle (snd (update_favorites user_id data now s))).
Proof.
  unfold conn_update_favorites, update_favorites. cbn.
  destruct (fetchone (is_user user_id) (users s)); [| reflexivity].
  destruct (update_favorites_statements user_id data now s)
    as [[[s1 rc] st] |]; [| reflexivity].
  now destruct ((rc =? 0) && is_remove (fa_action data)).
Qed.

Lemma conn_manage_favorites_idle user_id data now s :
  conn_manage_favorites user_id data now (idle s)
  = (fst (manage_favorites user_id data now s),
     idle (snd (manage_favorites user_id data now s))).
Proof.
  unfold conn_manage_favorites, manage_favorites. cbn.
  destruct (fetchone (is_user user_id) (users s)); [| reflexivity].
  destruct (manage_favorites_statements user_id data now s)
    as [[s1 st] |]; [| reflexivity].
  now destruct (negb st && is_remove (fa_action data)).
Qed.

(** The unlock handler answers on the connection as on the tables the
    connection shows, and the connection then shows the tables the handler
    on the tables leaves. *)
Lemma conn_unlock_achievement_shown user_id achievement_id now c :
  fst (conn_unlock_achievement user_id achievement_id now c)
  = fst (unlock_achievement user_id achievement_id now (shown c))
  /\ shown (snd (conn_unlock_achievement user_id achievement_id now c))
     = snd (unlock_achievement user_id achievement_id now (shown c)).
Proof.
  unfold conn_unlock_achievement, unlock_achievement.
  destruct (existsb (is_unlock user_id achievement_id)
                    (user_achievements (shown c))); [split; reflexivity |].
  cbv zeta. cbn [shown pending execute achievements set_user_achievements].
  destruct (fetchone (fun a => a_id a =? achievement_id)
                     (achievements (shown c))); split; reflexivity.
Qed.

(** The unlock handler leaves the connection outside a transaction exactly
    when it answers with success. *)
Lemma conn_unlock_achievement_leak user_id achievement_id now c :
  in_transaction (snd (conn_unlock_achievement user_id achievement_id now c))
  = match fst (conn_unlock_achievement user_id achievement_id now c) with
    | Return _ => false
    | _ => true
    end.
Proof.
  unfold conn_unlock_achievement.
  destruct (existsb (is_unlock user_id achievement_id)
                    (user_achievements (shown c))); [reflexivity |].
  cbv zeta.
  now destruct (fetchone (fun a => a_id a =? achievement_id) _).
Qed.

(** The watch-episode handler on the connection: what it does on the tables
    the connection shows, committed when it answers; its status 500 rolls
    back. *)
Lemma conn_watch_episode_shown user_id c :
  fst (conn_watch_episode user_id c) = fst (watch_episode user_id (shown c))
  /\ in_transaction (snd (conn_watch_episode user_id c)) = false
  /\ committed (snd (conn_watch_episode user_id c))
     = match fst (watch_episode user_id (shown c)) with
       | Return _ => snd (watch_episode user_id (shown c))
       | _ => committed c
       end.
Proof.
  unfold conn_watch_episode, watch_episode.
  destruct (fetchone (is_user user_id) (users (shown c))) as [u |];
    [| repeat split].
  cbv zeta.
  destruct (level_up_loop (u_level u) (u_exp u + 100) (1000 * u_level u))
    as [[l e] n].
  repeat split.
Qed.

(** Inside a transaction [BEGIN TRANSACTION] fails: a registered user gets
    status 500 from both favorites endpoints, whatever the request, and the
    connection stays as it is. *)
Lemma favorites_inside_transaction user_id data now c :
  in_transaction c = true ->
  user_exists user_id (shown c) = true ->
  conn_update_favorites user_id data now c = (HTTPException 500, c)
  /\ conn_manage_favorites user_id data now c = (HTTPException 500, c).
Proof.
  intros Ht Hu. apply user_exists_fetchone in Hu as [u Hu].
  unfold conn_update_favorites, conn_manage_favorites, begin_transaction.
  rewrite Hu. unfold in_transaction in Ht.
  now destruct (pending c).
Qed.

(** Outside a transaction the remove of a favorite that is not there gets
    its status 404 from both endpoints. *)
Lemma remove_missing_favorite_idle user_id data now c :
  in_transaction c = false ->
  user_exists user_id (committed c) = true ->
  fa_action data = remove ->
  existsb (is_favorite user_id (fa_animeId data)) (favorites (committed c))
  = false ->
  conn_update_favorites user_id data now c = (HTTPException 404, c)
  /\ conn_manage_favorites user_id data now c = (HTTPException 404, c).
Proof.
  intros Hidle Hu Hact Hnone. rewrite (idle_connection c Hidle) in *.
  cbn [committed idle] in Hu, Hnone. fold (idle (committed c)).
  rewrite conn_update_favorites_idle, conn_manage_favorites_idle.
  destruct (remove_missing_favorite user_id data now (committed c)
                                    Hu Hact Hnone) as [H1 [H2 _]].
  now rewrite H1, H2.
Qed.

(** C8: where the claim fails.  u1 unlocks achievement 1 and asks for it a
    second time: the second request is answered with status 500 and, the
    handler having no rollback, leaves the shared connection inside the
    transaction its INSERT opened.  The remove of a favorite that u1 does
    not have is then answered with status 500 by both endpoints, not with
    the status 404 the handlers raise for it; the tables are unchanged. *)
Theorem remove_inside_leaked_transaction :
  fst (conn_unlock_achievement "u1" 1 7 (idle db0))
  = Return (mkUnlockResponse "success" 100)
  /\ fst (conn_unlock_achievement
            "u1" 1 8 (snd (conn_unlock_achievement "u1" 1 7 (idle db0))))
     = HTTPException 500
  /\ in_transaction conn_after_duplicate_unlock = true
  /\ user_exists "u1" (shown conn_after_duplicate_unlock) = true
  /\ existsb (is_favorite "u1" "a1")
             (favorites (shown conn_after_duplicate_unlock)) = false
  /\ conn_update_favorites
       "u1" (mkFavoriteAction "a1" remove None None) 9
       conn_after_duplicate_unlock
     = (HTTPException 500, conn_after_duplicate_unlock)
  /\ conn_manage_favorites
       "u1" (mkFavoriteAction "a1" remove None None) 9
       conn_after_duplicate_unlock
     = (HTTPException 500, conn_after_duplicate_unlock).
Proof. repeat split. Qed.

(** X1: on a shared connection outside a transaction, an add by an existing
    user with a title and an anime id is accepted and committed by both
    endpoints and leaves exactly one favorites row for the pair, carrying
    the title, the image and the time of the request; the table grows by
    one row when the pair was absent and keeps its length when it was
    present, and stays free of duplicate pairs. *)
Theorem add_favorite_single_row user_id data now c :
  in_transaction c = false ->
  user_exists user_id (committed c) = true ->
  fa_action data = add ->
  falsy (fa_title data) = false ->
  fa_animeId data <> EmptyString ->
  unique_keys favorite_key (favorites (committed c)) ->
  exists s',
    conn_update_favorites user_id data now c
    = (Return (favorites_body user_id add s'), idle s')
    /\ conn_manage_favorites user_id data now c
       = (Return (favorites_body user_id add s'), idle s')
    /\ favorite_of user_id (fa_animeId data) s'
       = Some (mkFavorite user_id (fa_animeId data) (fa_title data)
                          (fa_image_url data) now)
    /\ rowcount (is_favorite user_id (fa_animeId data)) (favorites s') = 1
    /\ unique_keys favorite_key (favorites s')
    /\ List.length (favorites s')
       = match favorite_of user_id (fa_animeId data) (committed c) with
         | Some _ => List.length (favorites (committed c))
         | None => S (List.length (favorites (committed c)))
         end.
Proof.
  intros Hidle Hu Hact Ht Hid Huniq.
  destruct (add_favorite_tables user_id data now (committed c)
                                Hu Hact Ht Hid Huniq)
    as [s' [H1 [H2 Hrest]]].
  exists s'. rewrite (idle_connection c Hidle).
  cbn [committed idle]. fold (idle (committed c)).
  rewrite conn_update_favorites_idle, conn_manage_favorites_idle, H1, H2.
  cbn [fst snd]. auto.
Qed.

Lemma add_favorite_single_row_witness :
  exists s',
    conn_update_favorites
      "u1" (mkFavoriteAction "a2" add (Some "Bleach!") None) 9 (idle db2)
    = (Return (favorites_body "u1" add s'), idle s')
    /\ favorites s' = [mkFavorite "u1" "a2" (Some "Bleach!") None 9].
Proof.
  assert (unique_keys favorite_key (favorites db2)) as Huniq
      by (repeat constructor; simpl; tauto).
  assert ("a2" <> EmptyString) as Hid by discriminate.
  destruct (add_favorite_single_row
              "u1" (mkFavoriteAction "a2" add (Some "Bleach!") None) 9
              (idle db2) eq_refl eq_refl eq_refl eq_refl Hid Huniq)
    as [s' [Hrun _]].
  exists s'. split; [exact Hrun |].
  vm_compute in Hrun. inversion Hrun. reflexivity.
Defined.

(** X3: on a shared connection outside a transaction, adding a favorite
    that was absent and removing it again gives the connection and its
    tables back as they were; the remove answers with the list the user had
    before the add. *)
Theorem add_then_remove_restores user_id add_data anime_id now now' c :
  in_transaction c = false ->
  user_exists user_id (committed c) = true ->
  fa_action add_data = add ->
  falsy (fa_title add_data) = false ->
  fa_animeId add_data = anime_id ->
  anime_id <> EmptyString ->
  existsb (is_favorite user_id anime_id) (favorites (committed c)) = false ->
  forall title image,
    conn_update_favorites
      user_id (mkFavoriteAction anime_id remove title image) now'
      (snd (conn_update_favorites user_id add_data now c))
    = (Return (favorites_body user_id remove (committed c)), c).
Proof.
  intros Hidle Hu Hact Ht Haid Hid Hnone title image.
  rewrite (idle_connection c Hidle).
  cbn [committed idle]. fold (idle (committed c)).
  rewrite conn_update_favorites_idle. cbn [snd].
  rewrite conn_update_favorites_idle.
  now rewrite (add_then_remove_tables user_id add_data anime_id now now'
                                      (committed c) Hu Hact Ht Haid Hid Hnone
                                      title image).
Qed.

Lemma add_then_remove_restores_witness :
  conn_update_favorites
    "u1" (mkFavoriteAction "a9" remove None None) 8
    (snd (conn_update_favorites
            "u1" (mkFavoriteAction "a9" add (Some "Monster") None) 7
            (idle db2)))
  = (Return (favorites_body "u1" remove db2), idle db2).
Proof.
  assert ("a9" <> EmptyString) as Hid by discriminate.
  exact (add_then_remove_restores
           "u1" (mkFavoriteAction "a9" add (Some "Monster") None) "a9" 7 8
           (idle db2) eq_refl eq_refl eq_refl eq_refl eq_refl Hid eq_refl
           None None).
Defined.

(** X9: on a shared connection outside a transaction, unlocking an
    achievement id that is not in the catalog ends in an exception the
    handler does not catch and leaves the connection inside a transaction:
    nothing is committed and no user gains experience, while the cursor
    shows the unlock row, which GET /user/{user_id}/achievements does not
    list.  As long as the transaction is open, a repeat of the unlock is
    answered with status 500 and so is every favorites request of a
    registered user; the rollback of a watch-episode request for an
    unregistered user discards the row and gives the connection back as it
    was before the unlock. *)
Theorem unlock_outside_catalog_pending user_id achievement_id now c :
  in_transaction c = false ->
  fetchone (fun a => a_id a =? achievement_id) (achievements (committed c))
  = None ->
  existsb (is_unlock user_id achievement_id) (user_achievements (committed c))
  = false ->
  exists c1,
    conn_unlock_achievement user_id achievement_id now c = (Uncaught, c1)
    /\ committed c1 = committed c
    /\ in_transaction c1 = true
    /\ users (shown c1) = users (committed c)
    /\ user_achievements (shown c1)
       = user_achievements (committed c)
         ++ [mkUserAchievement user_id achievement_id now]
    /\ (forall item,
          In item (get_user_achievements user_id (shown c1)) ->
          uai_id item <> achievement_id)
    /\ (forall now',
          conn_unlock_achievement user_id achievement_id now' c1
          = (HTTPException 500, c1))
    /\ (forall user data now',
          user_exists user (committed c) = true ->
          conn_update_favorites user data now' c1 = (HTTPException 500, c1)
          /\ conn_manage_favorites user data now' c1 = (HTTPException 500, c1))
    /\ (forall ghost,
          user_exists ghost (committed c) = false ->
          conn_watch_episode ghost c1 = (HTTPException 500, c)).
Proof.
  intros Hidle Ha Hnew. rewrite (idle_connection c Hidle).
  set (s := committed c) in *. clearbody s. clear Hidle c.
  eexists. unfold conn_unlock_achievement at 1.
  cbn [idle shown pending committed execute]. rewrite Hnew.
  cbn [achievements set_user_achievements]. rewrite Ha.
  split; [reflexivity |]. cbn [committed shown pending in_transaction users
                                user_achievements set_user_achievements].
  split; [reflexivity |]. split; [reflexivity |]. split; [reflexivity |].
  split; [reflexivity |]. split; [| split; [| split]].
  - intros item Hin Hid. unfold get_user_achievements in Hin.
    apply in_flat_map in Hin as [a [Hina Hin]].
    apply in_map_iff in Hin as [ua [<- _]]. cbn [uai_id] in Hid.
    cbn [achievements] in Hina.
    assert (existsb (fun a => a_id a =? achievement_id) (achievements s) = true)
      as Hex by (apply existsb_exists; exists a; split; [auto | lia]).
    apply fetchone_none_existsb in Ha. congruence.
  - intros now'. unfold conn_unlock_achievement.
    cbn [shown pending committed execute user_achievements
         set_user_achievements].
    now rewrite existsb_app, Hnew; cbn [existsb]; rewrite is_unlock_refl.
  - intros user data now' Hu. apply favorites_inside_transaction;
      [reflexivity | exact Hu].
  - intros ghost Hg. apply (proj2 (fetchone_none_existsb _ _)) in Hg.
    unfold conn_watch_episode.
    cbn [shown pending committed execute idle rollback users
         set_user_achievements].
    now rewrite Hg.
Qed.

Lemma unlock_outside_catalog_pending_witness :
  exists c1,
    conn_unlock_achievement "u1" 99 7 (idle db0) = (Uncaught, c1)
    /\ committed c1 = db0
    /\ conn_unlock_achievement "u1" 99 8 c1 = (HTTPException 500, c1)
    /\ conn_watch_episode "ghost" c1 = (HTTPException 500, idle db0).
Proof.
  destruct (unlock_outside_catalog_pending "u1" 99 7 (idle db0)
                                           eq_refl eq_refl eq_refl)
    as [c1 [Hrun [Hc [_ [_ [_ [_ [Hrepeat [_ Hroll]]]]]]]]].
  exists c1. split; [exact Hrun |]. split; [exact Hc |].
  split; [exact (Hrepeat 8) | exact (Hroll "ghost" eq_refl)].
Defined.
